(** * TraceX: the layer-by-layer linking engine and the coverage analyzer

    A shallow embedding of [src/link/linker.py], [src/link/hierarchical_linker.py],
    [src/analyze/analyzer.py] and [src/analyze/hierarchical_analyzer.py].

    Conventions of the embedding:
    - Python [float] scores are rationals ([Q]); the code only adds, multiplies
      and compares them.
    - Python [str] is [string]; the regular expressions of the source are
      embedded for ASCII text.
    - A Python [dict] that is iterated ([artifacts]) is an association list in
      insertion order; a [dict] that is only looked up ([edges_down]) is a
      [gmap]; a [set] is a [gset].
    - A Python exception is the [Raise] case of [result]; the interpreter's
      bound on the depth of recursion is an explicit [limit]. *)

From Stdlib Require Import String Ascii List ZArith QArith Lia Sorted Permutation
  DecimalString DecimalNat Qabs Lqa.
From stdpp Require Import base gmap strings list.

Local Open Scope string_scope.
Local Open Scope list_scope.

(** ** Python runtime conventions *)

Module Py.

Inductive exn : Type :=
| KeyError (key : string)
| RecursionError.

Inductive result (A : Type) : Type :=
| Ok (a : A)
| Raise (e : exn).

Arguments Ok {A} a.
Arguments Raise {A} e.

Definition bind {A B : Type} (r : result A) (k : A → result B) : result B :=
  match r with
  | Ok a => k a
  | Raise e => Raise e
  end.

(** [for x in l: acc.extend(f(x))], stopping at the first exception. *)
Fixpoint for_each {A B : Type} (f : A → result (list B)) (l : list A) : result (list B) :=
  match l with
  | [] => Ok []
  | x :: rest =>
      bind (f x) (fun ys => bind (for_each f rest) (fun zs => Ok (ys ++ zs)))
  end.

(** A [dict] with [str] keys, in insertion order. *)
Definition dict (V : Type) : Type := list (string * V).

(** [d.get(k)] *)
Fixpoint dict_get {V : Type} (d : dict V) (k : string) : option V :=
  match d with
  | [] => None
  | (k', v) :: rest => if String.eqb k' k then Some v else dict_get rest k
  end.

(** [d[k]] *)
Definition dict_index {V : Type} (d : dict V) (k : string) : result V :=
  match dict_get d k with
  | Some v => Ok v
  | None => Raise (KeyError k)
  end.

(** [d.values()] *)
Definition dict_values {V : Type} (d : dict V) : list V := map snd d.

(** [x in l] for a list of strings. *)
Definition str_in_list (x : string) (l : list string) : bool :=
  existsb (String.eqb x) l.

(** Comparisons of floats. *)
Definition Qgt_bool (x y : Q) : bool := negb (Qle_bool x y).
Definition Qlt_bool (x y : Q) : bool := negb (Qle_bool y x).
Definition Qge_bool (x y : Q) : bool := Qle_bool y x.

(** [min(a, b)] of the interpreter: [b] when [b < a], else [a]. *)
Definition py_min (a b : Q) : Q := if Qlt_bool b a then b else a.

(** Character classes on ASCII text: [[A-Z]], [[a-z]], [[0-9]], and [\w] and
    [\s] among the ASCII characters. *)
Definition is_upper (c : ascii) : bool :=
  let n := nat_of_ascii c in (65 <=? n)%nat && (n <=? 90)%nat.
Definition is_lower (c : ascii) : bool :=
  let n := nat_of_ascii c in (97 <=? n)%nat && (n <=? 122)%nat.
Definition is_digit (c : ascii) : bool :=
  let n := nat_of_ascii c in (48 <=? n)%nat && (n <=? 57)%nat.
Definition is_word (c : ascii) : bool :=
  is_upper c || is_lower c || is_digit c || Ascii.eqb c "_"%char.
Definition is_space (c : ascii) : bool :=
  let n := nat_of_ascii c in
  ((9 <=? n)%nat && (n <=? 13)%nat) || ((28 <=? n)%nat && (n <=? 32)%nat).

Definition newline : ascii := ascii_of_nat 10.

Definition lower_char (c : ascii) : ascii :=
  if is_upper c then ascii_of_nat (nat_of_ascii c + 32) else c.

(** [s.lower()] *)
Fixpoint lower (s : string) : string :=
  match s with
  | EmptyString => EmptyString
  | String c r => String (lower_char c) (lower r)
  end.

(** The longest prefix of [s] in the class [p], and the rest of [s]. *)
Fixpoint span (p : ascii → bool) (s : string) : string * string :=
  match s with
  | EmptyString => (EmptyString, EmptyString)
  | String c r =>
      if p c then let '(a, b) := span p r in (String c a, b) else (EmptyString, s)
  end.

(** [\d] of [re] on a [str]: a decimal digit of the Unicode database, not
    only 0 to 9. The decimal digits (category Nd of Unicode 14.0, the
    database of Python 3.11) come in runs of ten code points, one run per
    script; the list gives the code point of the digit zero of each run. *)
Definition decimal_runs : list N :=
  [0x30; 0x660; 0x6f0; 0x7c0; 0x966; 0x9e6; 0xa66; 0xae6; 0xb66; 0xbe6; 0xc66; 0xce6;
   0xd66; 0xde6; 0xe50; 0xed0; 0xf20; 0x1040; 0x1090; 0x17e0; 0x1810; 0x1946; 0x19d0;
   0x1a80; 0x1a90; 0x1b50; 0x1bb0; 0x1c40; 0x1c50; 0xa620; 0xa8d0; 0xa900; 0xa9d0;
   0xa9f0; 0xaa50; 0xabf0; 0xff10; 0x104a0; 0x10d30; 0x11066; 0x110f0; 0x11136;
   0x111d0; 0x112f0; 0x11450; 0x114d0; 0x11650; 0x116c0; 0x11730; 0x118e0; 0x11950;
   0x11c50; 0x11d50; 0x11da0; 0x16a60; 0x16ac0; 0x16b50; 0x1d7ce; 0x1d7d8; 0x1d7e2;
   0x1d7ec; 0x1d7f6; 0x1e140; 0x1e2f0; 0x1e950; 0x1fbf0]%N.

Definition is_decimal (cp : N) : bool :=
  existsb (fun zero => (zero <=? cp)%N && (cp <? zero + 10)%N) decimal_runs.

(** The text of a [str] is held in UTF-8, where a code point takes one to
    four bytes: a byte under 128 alone, or a lead byte and one to three
    continuation bytes (128 to 191) in the shortest form. *)
Definition trail (c : ascii) : bool :=
  let n := N_of_ascii c in (128 <=? n)%N && (n <? 192)%N.

Definition digit1 (c1 : ascii) : bool :=
  let n1 := N_of_ascii c1 in (n1 <? 128)%N && is_decimal n1.

Definition digit2 (c1 c2 : ascii) : bool :=
  let n1 := N_of_ascii c1 in
  (194 <=? n1)%N && (n1 <? 224)%N && trail c2
  && is_decimal ((n1 - 192) * 64 + (N_of_ascii c2 - 128))%N.

Definition digit3 (c1 c2 c3 : ascii) : bool :=
  let n1 := N_of_ascii c1 in
  let cp := ((n1 - 224) * 4096 + (N_of_ascii c2 - 128) * 64 + (N_of_ascii c3 - 128))%N in
  (224 <=? n1)%N && (n1 <? 240)%N && trail c2 && trail c3
  && (2048 <=? cp)%N && is_decimal cp.

Definition digit4 (c1 c2 c3 c4 : ascii) : bool :=
  let n1 := N_of_ascii c1 in
  let cp :=
    ((n1 - 240) * 262144 + (N_of_ascii c2 - 128) * 4096 + (N_of_ascii c3 - 128) * 64
     + (N_of_ascii c4 - 128))%N in
  (240 <=? n1)%N && (n1 <? 245)%N && trail c2 && trail c3 && trail c4
  && (65536 <=? cp)%N && is_decimal cp.

(** The longest prefix of [s] made of decimal digits, and the rest of [s]:
    what [\d+] reads, or nothing. *)
Fixpoint span_decimal (s : string) : string * string :=
  match s with
  | EmptyString => (EmptyString, EmptyString)
  | String c1 r1 =>
      if digit1 c1 then let '(a, b) := span_decimal r1 in (String c1 a, b)
      else
        match r1 with
        | String c2 r2 =>
            if digit2 c1 c2 then
              let '(a, b) := span_decimal r2 in (String c1 (String c2 a), b)
            else
              match r2 with
              | String c3 r3 =>
                  if digit3 c1 c2 c3 then
                    let '(a, b) := span_decimal r3 in
                    (String c1 (String c2 (String c3 a)), b)
                  else
                    match r3 with
                    | String c4 r4 =>
                        if digit4 c1 c2 c3 c4 then
                          let '(a, b) := span_decimal r4 in
                          (String c1 (String c2 (String c3 (String c4 a))), b)
                        else (EmptyString, s)
                    | EmptyString => (EmptyString, s)
                    end
              | EmptyString => (EmptyString, s)
              end
        | EmptyString => (EmptyString, s)
        end
  end.

Definition str_rev (s : string) : string :=
  string_of_list_ascii (List.rev (list_ascii_of_string s)).

(** [s.strip()] *)
Definition strip (s : string) : string :=
  str_rev (snd (span is_space (str_rev (snd (span is_space s))))).

(** [needle in hay] *)
Fixpoint contains (hay needle : string) : bool :=
  String.prefix needle hay ||
  match hay with
  | EmptyString => false
  | String _ r => contains r needle
  end.

(** [s.split(sep)] for a separator of one character; [cur] is the segment
    being read. *)
Fixpoint split_on (sep : ascii) (s cur : string) : list string :=
  match s with
  | EmptyString => [cur]
  | String c r =>
      if Ascii.eqb c sep then cur :: split_on sep r EmptyString
      else split_on sep r (cur +:+ String c EmptyString)
  end.

Definition split (sep : ascii) (s : string) : list string := split_on sep s EmptyString.

(** [str(n)] for a natural number. *)
Definition str_of_nat (n : nat) : string := NilEmpty.string_of_uint (Nat.to_uint n).

(** [f"{n:03d}"] *)
Definition format_03d (n : nat) : string :=
  let s := NilEmpty.string_of_uint (Nat.to_uint n) in
  match String.length s with
  | 0%nat => "000" +:+ s
  | 1%nat => "00" +:+ s
  | 2%nat => "0" +:+ s
  | _ => s
  end.

End Py.

Import Py.

Notation "'let*' x ':=' r 'in' k" := (Py.bind r (fun x => k))
  (at level 10, x name, r at level 100, k at level 200).

(** ** The data model (spec section 3) *)

(** A quantity's [value] is a number or a string. *)
Inductive qvalue : Type :=
| QNum (v : Q)
| QStr (s : string).

Record quantity : Type := {
  q_value : qvalue;
  q_unit : string
}.

Record extracted_info : Type := {
  keywords : list string;
  quantities : list quantity;
  referenced_ids : list string
}.

(** An artifact; [a_type] is the source's string ('SYSTEM_REQ', 'HLR', ...),
    [a_name] is absent for requirements. *)
Record artifact : Type := {
  a_id : string;
  a_type : string;
  a_text : string;
  a_name : option string;
  a_extracted : extracted_info;
  a_children : list string
}.

Record link : Type := {
  source_id : string;
  target_id : string;
  link_type : string;
  confidence : Q
}.

Record graph : Type := {
  nodes : dict artifact;
  edges_down : gmap string (list string);
  edges_up : gmap string (list string)
}.

(** ** [src/analyze/analyzer.py] *)

Module Analyzer.

Definition EXPECTED_CHAIN_DEPTH : dict nat :=
  [("SYSTEM_REQ", 5%nat); ("SYSTEM_REQ_DECOMPOSED", 4%nat); ("HLR", 3%nat);
   ("LLR", 2%nat); ("CODE_VAR", 1%nat)].

Definition EXPECTED_TERMINAL_TYPE : dict string :=
  [("SYSTEM_REQ", "CODE_VAR"); ("SYSTEM_REQ_DECOMPOSED", "CODE_VAR");
   ("HLR", "CODE_VAR"); ("LLR", "CODE_VAR")].

(** [graph['edges_down'].get(node_id, [])] *)
Definition children_of (g : graph) (node_id : string) : list string :=
  default [] (edges_down g !! node_id).

(** [graph['edges_up'].get(node_id, [])] *)
Definition parents_of (g : graph) (node_id : string) : list string :=
  default [] (edges_up g !! node_id).

Definition add_edge (m : gmap string (list string)) (k v : string) : gmap string (list string) :=
  <[k := default [] (m !! k) ++ [v]]> m.

Definition build_trace_graph (artifacts : dict artifact) (links : list link) : graph :=
  fold_left
    (fun g l =>
       {| nodes := nodes g;
          edges_down := add_edge (edges_down g) (source_id l) (target_id l);
          edges_up := add_edge (edges_up g) (target_id l) (source_id l) |})
    links
    {| nodes := artifacts; edges_down := ∅; edges_up := ∅ |}.

(** The inner [dfs] of [trace_chain_forward]; [limit] is the number of
    frames the interpreter still allows. The chains appended to the shared
    list during a call are the call's result. *)
Fixpoint dfs (limit : nat) (g : graph) (node_id : string) (path : list string)
  : result (list (list string)) :=
  match limit with
  | O => Raise RecursionError
  | S limit' =>
      let current_path := path ++ [node_id] in
      let children := children_of g node_id in
      match children with
      | [] => Ok [current_path]
      | _ :: _ => for_each (fun child_id => dfs limit' g child_id current_path) children
      end
  end.

Definition trace_chain_forward (limit : nat) (g : graph) (start_id : string)
  : result (list (list string)) :=
  dfs limit g start_id [].

Inductive classification : Type := COMPLETE | PARTIAL | INCOMPLETE | BROKEN.

Definition classify_chain (chain : list string) (g : graph) : result classification :=
  match chain with
  | [] => Ok INCOMPLETE
  | start_id :: _ =>
      let terminal_id := List.last chain start_id in
      let* start := dict_index (nodes g) start_id in
      let* terminal := dict_index (nodes g) terminal_id in
      let start_type := a_type start in
      let terminal_type := a_type terminal in
      let expected_depth := default 1%nat (dict_get EXPECTED_CHAIN_DEPTH start_type) in
      let expected_terminal := default "CODE_VAR" (dict_get EXPECTED_TERMINAL_TYPE start_type) in
      let actual_depth := List.length chain in
      if String.eqb terminal_type expected_terminal && (expected_depth <=? actual_depth)%nat
      then Ok COMPLETE
      else if (1 <? actual_depth)%nat && (actual_depth <? expected_depth)%nat
      then Ok PARTIAL
      else if (actual_depth =? 1)%nat
      then Ok INCOMPLETE
      else Ok BROKEN
  end.

(** The entries of [find_orphans]' lists; [o_expected_type] is the
    [expected_parent_type] or the [expected_child_type] of the entry. *)
Record orphan : Type := {
  o_artifact_id : string;
  o_type : string;
  o_expected_type : option string;
  o_reason : string
}.

Record orphans : Type := {
  no_parent : list orphan;
  no_children : list orphan;
  isolated : list orphan
}.

(** [src/utils/id_utils.py] *)
Definition get_expected_parent_type (artifact_type : string) : option string :=
  dict_get [("SYSTEM_REQ_DECOMPOSED", "SYSTEM_REQ"); ("HLR", "SYSTEM_REQ_DECOMPOSED");
            ("LLR", "HLR"); ("CODE_VAR", "LLR")] artifact_type.

Definition get_expected_child_type (artifact_type : string) : option string :=
  dict_get [("SYSTEM_REQ", "SYSTEM_REQ_DECOMPOSED"); ("SYSTEM_REQ_DECOMPOSED", "HLR");
            ("HLR", "LLR"); ("LLR", "CODE_VAR")] artifact_type.

Definition TYPES_REQUIRING_PARENT : list string := ["HLR"; "LLR"; "CODE_VAR"].
Definition TYPES_REQUIRING_CHILDREN : list string :=
  ["SYSTEM_REQ"; "SYSTEM_REQ_DECOMPOSED"; "HLR"; "LLR"].

Definition is_empty {A : Type} (l : list A) : bool :=
  match l with [] => true | _ :: _ => false end.

(** One iteration of the loop of [find_orphans]. *)
Definition find_orphans_step (g : graph) (acc : orphans) (item : string * artifact) : orphans :=
  let '(art_id, art) := item in
  let art_type := a_type art in
  let parents := parents_of g art_id in
  let children := children_of g art_id in
  let np :=
    if str_in_list art_type TYPES_REQUIRING_PARENT && is_empty parents
    then no_parent acc ++
         [{| o_artifact_id := art_id; o_type := art_type;
             o_expected_type := get_expected_parent_type art_type;
             o_reason := art_type +:+ " has no parent link" |}]
    else no_parent acc in
  let nc :=
    if str_in_list art_type TYPES_REQUIRING_CHILDREN && is_empty children
    then no_children acc ++
         [{| o_artifact_id := art_id; o_type := art_type;
             o_expected_type := get_expected_child_type art_type;
             o_reason := art_type +:+ " has no child links" |}]
    else no_children acc in
  let iso :=
    if is_empty parents && is_empty children && negb (String.eqb art_type "SYSTEM_REQ")
    then isolated acc ++
         [{| o_artifact_id := art_id; o_type := art_type;
             o_expected_type := None;
             o_reason := "Artifact has no links at all" |}]
    else isolated acc in
  {| no_parent := np; no_children := nc; isolated := iso |}.

Definition find_orphans (g : graph) (artifacts : dict artifact) : orphans :=
  fold_left (find_orphans_step g) artifacts
    {| no_parent := []; no_children := []; isolated := [] |}.

Inductive gap_type : Type := orphan_no_parent | orphan_no_children | incomplete_chain.

Inductive severity_level : Type := critical | high | medium | low.

(** The keys of a gap that depend on its type. *)
Inductive gap_detail : Type :=
| OrphanGap (artifact_id artifact_type : string) (expected_type : option string)
    (reason : string)
| ChainGap (chain : list string) (classification_ : classification) (break_point : string)
    (expected_depth actual_depth : nat).

Record gap : Type := {
  gap_id : string;
  type : gap_type;
  severity : severity_level;
  description : string;
  detail : gap_detail
}.

(** The state of [identify_gaps]: the list of gaps and [gap_counter]. *)
Definition gap_state : Type := (list gap * nat)%type.

Definition emit (st : gap_state) (mk : string → gap) : gap_state :=
  let '(gaps, gap_counter) := st in
  (gaps ++ [mk ("GAP-" +:+ format_03d gap_counter)], S gap_counter).

Definition no_parent_gap (o : orphan) (gid : string) : gap :=
  {| gap_id := gid; type := orphan_no_parent; severity := high;
     description := o_type o +:+ " has no parent link";
     detail := OrphanGap (o_artifact_id o) (o_type o) (o_expected_type o) (o_reason o) |}.

Definition no_children_severity (orphan_type : string) : severity_level :=
  if str_in_list orphan_type ["SYSTEM_REQ"; "SYSTEM_REQ_DECOMPOSED"] then critical
  else if String.eqb orphan_type "HLR" then high
  else medium.

Definition no_children_gap (o : orphan) (gid : string) : gap :=
  {| gap_id := gid; type := orphan_no_children;
     severity := no_children_severity (o_type o);
     description := o_type o +:+ " has no child links";
     detail := OrphanGap (o_artifact_id o) (o_type o) (o_expected_type o) (o_reason o) |}.

Definition classification_eqb (c1 c2 : classification) : bool :=
  match c1, c2 with
  | COMPLETE, COMPLETE | PARTIAL, PARTIAL | INCOMPLETE, INCOMPLETE | BROKEN, BROKEN => true
  | _, _ => false
  end.

Definition chain_gap (sys_req : artifact) (expected : nat) (chain : list string)
    (c : classification) (gid : string) : gap :=
  {| gap_id := gid; type := incomplete_chain;
     severity := if classification_eqb c INCOMPLETE then high else medium;
     description := "Incomplete trace chain from " +:+ a_id sys_req;
     detail := ChainGap chain c (List.last chain "") expected (List.length chain) |}.

(** The loop over the chains of one system requirement. *)
Fixpoint chain_gaps (g : graph) (sys_req : artifact) (chains : list (list string))
    (st : gap_state) : result gap_state :=
  match chains with
  | [] => Ok st
  | chain :: rest =>
      let* c := classify_chain chain g in
      if existsb (classification_eqb c) [INCOMPLETE; PARTIAL; BROKEN]
      then
        let* expected := dict_index EXPECTED_CHAIN_DEPTH (a_type sys_req) in
        chain_gaps g sys_req rest (emit st (chain_gap sys_req expected chain c))
      else chain_gaps g sys_req rest st
  end.

(** The loop over the system requirements. *)
Fixpoint sys_req_gaps (limit : nat) (g : graph) (sys_reqs : list artifact)
    (st : gap_state) : result gap_state :=
  match sys_reqs with
  | [] => Ok st
  | sys_req :: rest =>
      let* chains := trace_chain_forward limit g (a_id sys_req) in
      let* st' := chain_gaps g sys_req chains st in
      sys_req_gaps limit g rest st'
  end.

Definition identify_gaps (limit : nat) (g : graph) (artifacts : dict artifact)
    (orph : orphans) : result (list gap) :=
  let st0 : gap_state := ([], 1%nat) in
  let st1 := fold_left (fun st o => emit st (no_parent_gap o)) (no_parent orph) st0 in
  let st2 := fold_left (fun st o => emit st (no_children_gap o)) (no_children orph) st1 in
  let sys_reqs :=
    List.filter (fun a => String.eqb (a_type a) "SYSTEM_REQ") (dict_values artifacts) in
  let* st3 := sys_req_gaps limit g sys_reqs st2 in
  Ok (fst st3).

End Analyzer.

(** ** [src/link/linker.py] *)

Module Linker.

Local Open Scope Q_scope.

(** The dictionary [extract_id_hierarchy] returns; the key [prefix] is
    present only when the pattern matched. *)
Record id_info : Type := {
  base : string;
  suffix : option string;
  parent_ref : option string;
  prefix : option string
}.

Definition nonempty (s : string) : bool := negb (String.eqb s "").

(** [$]: the end of the string, or just before a newline that ends it. *)
Definition at_end (s : string) : bool :=
  String.eqb s "" || String.eqb s (String newline "").

(** An optional group [(?:-(cls+))?] at the head of [s]; [run] reads the
    longest prefix in the class. *)
Definition optional_group (run : string → string * string) (s : string)
  : option string * string :=
  match s with
  | String "-"%char r =>
      let '(grp, rest) := run r in
      if nonempty grp then (Some grp, rest) else (None, s)
  | _ => (None, s)
  end.

(** [re.match(r'^([A-Z]+)-(\d+)(?:-([A-Z]+))?(?:-(\d+))?$', s).groups()];
    [[A-Z]] is the 26 letters and [\d] every decimal digit of Unicode.
    Every repetition is followed by a character outside its class, so the
    greedy reading is the only one. *)
Definition match_id (s : string)
  : option (string * string * option string * option string) :=
  let '(pre, r1) := span is_upper s in
  if nonempty pre then
    match r1 with
    | String "-"%char r2 =>
        let '(num, r3) := span_decimal r2 in
        if nonempty num then
          let '(letter, r4) := optional_group (span is_upper) r3 in
          let '(subnum, r5) := optional_group span_decimal r4 in
          if at_end r5 then Some (pre, num, letter, subnum) else None
        else None
    | _ => None
    end
  else None.

Definition extract_id_hierarchy (artifact_id : string) : id_info :=
  match match_id artifact_id with
  | None => {| base := artifact_id; suffix := None; parent_ref := None; prefix := None |}
  | Some (pre, num, letter, subnum) =>
      let parent :=
        match letter with
        | Some l =>
            if String.eqb pre "HLR" then Some ("SYS-" +:+ num)
            else if String.eqb pre "LLR" then
              match subnum with
              | Some _ => Some ("HLR-" +:+ num +:+ "-" +:+ l)
              | None => Some ("HLR-" +:+ num +:+ "-" +:+ l)
              end
            else None
        | None => None
        end in
      {| base := pre +:+ "-" +:+ num;
         suffix := match letter with Some l => Some l | None => subnum end;
         parent_ref := parent;
         prefix := Some pre |}
  end.

(** [s.split('-')[-1]] *)
Definition last_segment (s : string) : string := List.last (split "-"%char s) "".

Definition opt_str_eqb (o : option string) (s : string) : bool :=
  match o with
  | Some x => String.eqb x s
  | None => false
  end.

Definition compute_id_relationship_boost (source_id target_id : string) : Q :=
  let source_info := extract_id_hierarchy source_id in
  let target_info := extract_id_hierarchy target_id in
  if opt_str_eqb (parent_ref source_info) target_id
     || opt_str_eqb (parent_ref target_info) source_id
  then 0.3
  else if String.eqb (last_segment (base source_info)) (last_segment (base target_info))
  then 0.2
  else 0.0.

(** [len(a) / len(b)] *)
Definition ratio (a b : nat) : Q := Z.of_nat a # Pos.of_nat b.

(** Jaccard similarity of two sets and the elements they share. *)
Definition jaccard (a b : gset string) : Q * list string :=
  let inter := a ∩ b in
  let union := a ∪ b in
  (if (size union =? 0)%nat then 0.0 else ratio (size inter) (size union), elements inter).

(** [re.findall(r'\b\w{5,}\b', s)]: the maximal runs of word characters of
    length five and more; [cur] is the run being read. *)
Fixpoint word_runs (s cur : string) : list string :=
  match s with
  | EmptyString => if nonempty cur then [cur] else []
  | String c r =>
      if is_word c then word_runs r (cur +:+ String c EmptyString)
      else (if nonempty cur then [cur] else []) ++ word_runs r EmptyString
  end.

Definition findall_words5 (s : string) : list string :=
  List.filter (fun w => (5 <=? String.length w)%nat) (word_runs s EmptyString).

Definition stopwords : list string :=
  ["shall"; "will"; "must"; "should"; "when"; "where"; "that"; "this"; "with"; "from"].

Definition important_words (text : string) : gset string :=
  list_to_set (List.filter (fun w => negb (str_in_list w stopwords)) (findall_words5 text)).

(** The list of shared keywords comes out of a [set]: its order is the
    interpreter's; here it is the order of [elements]. *)
Definition compute_keyword_score (source target : artifact) : Q * list string :=
  let source_keywords : gset string := list_to_set (keywords (a_extracted source)) in
  let target_keywords : gset string := list_to_set (keywords (a_extracted target)) in
  if (size source_keywords =? 0)%nat || (size target_keywords =? 0)%nat then
    let source_words := important_words (lower (a_text source)) in
    let target_words := important_words (lower (a_text target)) in
    if negb (size source_words =? 0)%nat && negb (size target_words =? 0)%nat then
      let '(score, shared) := jaccard source_words target_words in
      (score, firstn 5 shared)
    else (0.0, [])
  else jaccard source_keywords target_keywords.

Definition unit_mappings : dict string :=
  [("ft", "feet"); ("m", "meters"); ("s", "seconds"); ("deg", "degrees");
   ("°c", "celsius"); ("vdc", "volts")].

Definition normalize_unit (unit : string) : string :=
  let u := strip (lower unit) in
  default u (dict_get unit_mappings u).

Definition quantities_equal (q1 q2 : quantity) : bool :=
  match q_value q1, q_value q2 with
  | QNum v1, QNum v2 =>
      if Qgt_bool (Qabs (v1 - v2)) 0.001 then false
      else String.eqb (normalize_unit (q_unit q1)) (normalize_unit (q_unit q2))
  | _, _ => false
  end.

(** The second component lists the source quantity of every matching pair
    (the code renders each as text). *)
Definition compute_quantity_match (source target : artifact) : bool * list quantity :=
  let source_quants := quantities (a_extracted source) in
  let target_quants := quantities (a_extracted target) in
  match source_quants, target_quants with
  | [], _ | _, [] => (false, [])
  | _, _ =>
      let matched :=
        flat_map (fun sq =>
          flat_map (fun tq => if quantities_equal sq tq then [sq] else []) target_quants)
          source_quants in
      (negb (Nat.eqb (List.length matched) 0), matched)
  end.

Definition compute_variable_name_match (llr variable : artifact) : Q * list string :=
  let var_name := default "" (a_name variable) in
  let llr_text := a_text llr in
  let llr_refs := referenced_ids (a_extracted llr) in
  if contains llr_text var_name then
    (1.0, ["Exact match: '" +:+ var_name +:+ "' in LLR text"])
  else if str_in_list (lower var_name) (map lower llr_refs) then
    (0.9, ["Variable '" +:+ var_name +:+ "' extracted from LLR text"])
  else
    let var_parts := split "_"%char (lower var_name) in
    let matches :=
      List.length (List.filter (fun part => contains (lower llr_text) part) var_parts) in
    if (0 <? matches)%nat then
      (0.5 + 0.3 * inject_Z (Z.of_nat matches) / inject_Z (Z.of_nat (List.length var_parts)),
       ["Partial match: " +:+ str_of_nat matches +:+ "/" +:+
        str_of_nat (List.length var_parts) +:+ " parts of '" +:+ var_name +:+ "'"])
    else (0.0, []).

Record weights : Type := {
  w_embedding : Q;
  w_keyword : Q;
  w_quantity : Q;
  w_name : Q
}.

Definition default_weights : weights :=
  {| w_embedding := 0.45; w_keyword := 0.25; w_quantity := 0.15; w_name := 0.15 |}.

Definition compute_combined_score (embedding_sim keyword_score : Q) (quantity_match : bool)
    (name_match_score id_boost : Q) (w : option weights) : Q :=
  let w := default default_weights w in
  let score :=
    w_embedding w * embedding_sim +
    w_keyword w * keyword_score +
    w_quantity w * (if quantity_match then 1.0 else 0.0) +
    w_name w * name_match_score in
  py_min 1.0 (score + id_boost).

(** *** Configuration ([config.py]) and the similarity oracle *)

(** The dictionary [quality_filters]; a key may be absent. *)
Record quality_filters : Type := {
  min_text_overlap : option Q;
  min_combined_signals : option nat;
  max_links_per_source : option nat
}.

Record linking_config : Type := {
  embedding_threshold : Q;
  confidence_threshold : Q;
  cfg_weights : option weights;
  layer_thresholds : dict Q;
  filters : quality_filters
}.

Definition default_config : linking_config :=
  {| embedding_threshold := 0.10;
     confidence_threshold := 0.25;
     cfg_weights :=
       Some {| w_embedding := 0.35; w_keyword := 0.35; w_quantity := 0.15; w_name := 0.15 |};
     layer_thresholds :=
       [("SYSTEM_REQ_DECOMPOSED->HLR", 0.28); ("HLR->LLR", 0.25); ("LLR->CODE_VAR", 0.23)];
     filters :=
       {| min_text_overlap := Some 0.05;
          min_combined_signals := Some 2%nat;
          max_links_per_source := Some 15%nat |} |}.

(** The indexer, an oracle: [search_similar query_embedding top_k threshold]. *)
Record indexer : Type := {
  get_embedding : string → option (list Q);
  search_similar : list Q → nat → Q → list (string * Q)
}.

Record match_details : Type := {
  embedding_similarity : Q;
  keyword_score : Q;
  keyword_overlap : list string;
  quantity_match : bool;
  quantities_matched : list quantity;
  name_match_score : Q;
  name_match_reasons : option (list string);
  id_boost : Q;
  combined_score : Q
}.

(** [l.sort(key=key, reverse=True)]: stable, greatest key first. *)
Fixpoint insert_desc {A : Type} (key : A → Q) (x : A) (l : list A) : list A :=
  match l with
  | [] => [x]
  | y :: rest => if Qlt_bool (key x) (key y) then y :: insert_desc key x rest else x :: l
  end.

Definition sort_desc {A : Type} (key : A → Q) (l : list A) : list A :=
  fold_right (insert_desc key) [] l.

(** *** [class LinkManager] *)

Section LinkManager.

Variable artifacts : dict artifact.
Variable idx : indexer.
Variable config : linking_config.

Definition _passes_quality_filters (md : match_details) (source target : artifact) : bool :=
  let min_overlap := default 0.05 (min_text_overlap (filters config)) in
  let emb_score := embedding_similarity md in
  if Qlt_bool emb_score min_overlap then false
  else
    let has_strong_keywords := Qgt_bool (keyword_score md) 0.20 in
    let has_strong_embedding := Qgt_bool (embedding_similarity md) 0.30 in
    let has_strong_combo :=
      Qgt_bool (embedding_similarity md) 0.20 && Qgt_bool (keyword_score md) 0.12 in
    if has_strong_keywords || has_strong_embedding || has_strong_combo then true
    else
      let active_signals :=
        ((if Qgt_bool (embedding_similarity md) 0.12 then 1 else 0) +
         (if Qgt_bool (keyword_score md) 0.05 then 1 else 0) +
         (if quantity_match md then 1 else 0) +
         (if Qgt_bool (name_match_score md) 0.10 then 1 else 0) +
         (if Qgt_bool (id_boost md) 0.05 then 1 else 0))%nat in
      let min_signals := default 2%nat (min_combined_signals (filters config)) in
      if (min_signals <=? active_signals)%nat then true
      else if Qgt_bool (id_boost md) 0.10 && (1 <=? active_signals)%nat then true
      else false.

(** The body of the loop of [find_candidates]: the entry added to
    [results] for one neighbour, if any. *)
Definition candidate_entry (source_id : string) (source : artifact) (target_type : string)
    (neighbour : string * Q) : option (string * Q * match_details) :=
  let '(candidate_id, emb_score) := neighbour in
  if String.eqb candidate_id source_id then None
  else
    match dict_get artifacts candidate_id with
    | None => None
    | Some candidate =>
        if negb (String.eqb (a_type candidate) target_type) then None
        else
          let '(kw_score, keyword_matches) := compute_keyword_score source candidate in
          let '(qty_match, quantity_matches) := compute_quantity_match source candidate in
          let '(name_score, name_reasons) :=
            if String.eqb target_type "CODE_VAR"
            then compute_variable_name_match source candidate
            else (0.0, []) in
          let boost := compute_id_relationship_boost source_id candidate_id in
          let combined :=
            compute_combined_score emb_score kw_score qty_match name_score boost
              (cfg_weights config) in
          let md :=
            {| embedding_similarity := emb_score;
               keyword_score := kw_score;
               keyword_overlap := keyword_matches;
               quantity_match := qty_match;
               quantities_matched := quantity_matches;
               name_match_score := name_score;
               name_match_reasons := Some name_reasons;
               id_boost := boost;
               combined_score := combined |} in
          if _passes_quality_filters md source candidate
          then Some (candidate_id, combined, md)
          else None
    end.

Definition find_candidates (source_id target_type : string) (top_k : nat)
  : result (list (string * Q * match_details)) :=
  let* source := dict_index artifacts source_id in
  match get_embedding idx source_id with
  | None => Ok []
  | Some source_emb =>
      let candidates :=
        search_similar idx source_emb (top_k * 3) (embedding_threshold config) in
      let results :=
        flat_map (fun n => option_list (candidate_entry source_id source target_type n))
          candidates in
      let results := sort_desc (fun x => snd (fst x)) results in
      let max_links := default 8%nat (max_links_per_source (filters config)) in
      Ok (firstn (Nat.min top_k max_links) results)
  end.

End LinkManager.

End Linker.

(** ** [src/link/hierarchical_linker.py] *)

Module HierarchicalLinker.

Import Linker.

Local Open Scope Q_scope.

(** A candidate of [_find_candidates]. *)
Record candidate : Type := {
  c_target_id : string;
  c_score : Q;
  c_match_details : match_details
}.

(** An accepted target, as [_link_layer] consumes it. *)
Record selection : Type := {
  s_target_id : string;
  s_confidence : Q;
  s_reasoning : string;
  s_match_details : match_details
}.

(** What [float(sel['confidence'])] does on an entry of the reply: the key
    is missing ([KeyError]), the value does not convert ([ValueError],
    [TypeError]), or it is a number. *)
Inductive confidence_field : Type :=
| ConfMissing
| ConfInvalid
| ConfNumber (c : Q).

(** An entry of [selected_targets]; a key may be missing. *)
Record selected_target : Type := {
  sel_target_id : option string;
  sel_confidence : confidence_field;
  sel_reasoning : option string
}.

(** The adjudicator's answer after the textual repairs: the call (or the
    reading of its response) raised, [json.loads] raised [JSONDecodeError],
    or the text parsed and [parsed.get('selected_targets', [])] is the list. *)
Inductive llm_reply : Type :=
| CallRaised
| JSONDecodeError
| Parsed (selected_targets : list selected_target).

(** The adjudicator, an oracle of the source and the candidates sent. *)
Definition llm_client : Type := artifact → list candidate → llm_reply.

Section HierarchicalLinker.

Variable artifacts : dict artifact.
Variable idx : indexer.
Variable config : linking_config.
Variable groq_client : option llm_client.

Definition _passes_quality_filters (combined emb_sim kw_score : Q) (qty_match : bool)
    (name_score boost : Q) : bool :=
  if Qlt_bool combined (default 0.05 (min_text_overlap (filters config))) then false
  else
    let has_strong_signal :=
      Qgt_bool kw_score 0.20 || Qgt_bool emb_sim 0.30
      || (Qgt_bool emb_sim 0.20 && Qgt_bool kw_score 0.12) in
    if has_strong_signal then true
    else
      let signal_count :=
        ((if Qgt_bool emb_sim 0.12 then 1 else 0) +
         (if Qgt_bool kw_score 0.05 then 1 else 0) +
         (if qty_match then 1 else 0) +
         (if Qgt_bool name_score 0.10 then 1 else 0) +
         (if Qgt_bool boost 0.05 then 1 else 0))%nat in
      (default 2%nat (min_combined_signals (filters config)) <=? signal_count)%nat.

(** The body of the loop of [_find_candidates]. *)
Definition candidate_entry (source : artifact) (target_type : string) (threshold : Q)
    (neighbour : string * Q) : option candidate :=
  let '(tid, emb_sim) := neighbour in
  match dict_get artifacts tid with
  | None => None
  | Some target =>
      if negb (String.eqb (a_type target) target_type) then None
      else
        let '(kw_score, kws) := compute_keyword_score source target in
        let '(qty_match, qtys) := compute_quantity_match source target in
        let name_score :=
          if String.eqb (a_type source) "LLR" && String.eqb (a_type target) "CODE_VAR"
          then fst (compute_variable_name_match source target)
          else 0.0 in
        let boost := compute_id_relationship_boost (a_id source) tid in
        let combined :=
          compute_combined_score emb_sim kw_score qty_match name_score boost None in
        if negb (_passes_quality_filters combined emb_sim kw_score qty_match name_score boost)
        then None
        else if Qge_bool combined threshold then
          Some {| c_target_id := tid;
                  c_score := combined;
                  c_match_details :=
                    {| embedding_similarity := emb_sim;
                       keyword_score := kw_score;
                       keyword_overlap := kws;
                       quantity_match := qty_match;
                       quantities_matched := qtys;
                       name_match_score := name_score;
                       name_match_reasons := None;
                       id_boost := boost;
                       combined_score := combined |} |}
        else None
  end.

Definition _find_candidates (source : artifact) (target_type : string) (threshold : Q)
    (top_k : nat) : list candidate :=
  match get_embedding idx (a_id source) with
  | None => []
  | Some embedding =>
      let similar := search_similar idx embedding (top_k * 2) (embedding_threshold config) in
      let candidates :=
        flat_map (fun n => option_list (candidate_entry source target_type threshold n))
          similar in
      firstn top_k (sort_desc c_score candidates)
  end.

(** The heuristic acceptance of a candidate, with the given rationale. *)
Definition accept (reasoning : string) (c : candidate) : selection :=
  {| s_target_id := c_target_id c;
     s_confidence := c_score c;
     s_reasoning := reasoning;
     s_match_details := c_match_details c |}.

(** [for cand in candidates: if cand['target_id'] == tid: ...; break] *)
Definition find_candidate (tid : string) (candidates : list candidate) : option candidate :=
  List.find (fun cand => String.eqb (c_target_id cand) tid) candidates.

(** One iteration of the validation loop; [None] when it raises. *)
Definition validate_selected (candidates : list candidate) (sel : selected_target)
  : option (list selection) :=
  match sel_confidence sel with
  | ConfMissing => None
  | ConfInvalid => Some []
  | ConfNumber c =>
      if Qge_bool c 0.6 then
        match candidates with
        | [] => Some []
        | _ :: _ =>
            match sel_target_id sel with
            | None => None
            | Some tid =>
                match find_candidate tid candidates with
                | None => Some []
                | Some cand =>
                    match sel_reasoning sel with
                    | None => None
                    | Some why =>
                        Some [{| s_target_id := tid;
                                 s_confidence := c;
                                 s_reasoning := why;
                                 s_match_details := c_match_details cand |}]
                    end
                end
            end
        end
      else Some []
  end.

(** The validation loop over [selected]; [None] when an iteration raises. *)
Fixpoint validate_all (candidates : list candidate) (selected : list selected_target)
  : option (list selection) :=
  match selected with
  | [] => Some []
  | sel :: rest =>
      match validate_selected candidates sel with
      | None => None
      | Some vs =>
          match validate_all candidates rest with
          | None => None
          | Some ws => Some (vs ++ ws)
          end
      end
  end.

Definition _llm_select_targets (client : llm_client) (source : artifact)
    (candidates : list candidate) : list selection :=
  let candidates := firstn 10 candidates in
  match client source candidates with
  | CallRaised =>
      map (accept "LLM unavailable, using multi-signal match") (firstn 3 candidates)
  | JSONDecodeError =>
      map (accept "JSON parse failed, using multi-signal match") (firstn 3 candidates)
  | Parsed selected =>
      match validate_all candidates selected with
      | Some valid_selected => valid_selected
      | None =>
          map (accept "LLM unavailable, using multi-signal match") (firstn 3 candidates)
      end
  end.

(** The targets [_link_layer] accepts for one source with the candidates
    found for it. *)
Definition select_targets (use_llm : bool) (source : artifact) (candidates : list candidate)
  : list selection :=
  match groq_client with
  | Some client =>
      if use_llm && (1 <? List.length candidates)%nat
      then _llm_select_targets client source candidates
      else map (accept "Multi-signal match") candidates
  | None => map (accept "Multi-signal match") candidates
  end.

(** The links [_link_layer] appends for one source. *)
Definition link_source (use_llm : bool) (target_type : string) (threshold : Q)
    (source : artifact) : list link :=
  let candidates := _find_candidates source target_type (threshold * 0.7) 20 in
  match candidates with
  | [] => []
  | _ :: _ =>
      map (fun sel =>
             {| source_id := a_id source;
                target_id := s_target_id sel;
                link_type := "implements";
                confidence := s_confidence sel |})
        (select_targets use_llm source candidates)
  end.

Definition _link_layer (source_type target_type : string) (use_llm : bool) : list link :=
  let layer_key := source_type +:+ "->" +:+ target_type in
  let threshold :=
    default (confidence_threshold config) (dict_get (layer_thresholds config) layer_key) in
  let sources :=
    List.filter (fun a => String.eqb (a_type a) source_type) (dict_values artifacts) in
  flat_map (link_source use_llm target_type threshold) sources.

End HierarchicalLinker.

End HierarchicalLinker.

(** ** [src/analyze/hierarchical_analyzer.py] *)

Module HierarchicalAnalyzer.

Import Analyzer.

(** The inner [dfs] of [_find_all_chains], with its per-branch [visited]
    set; [limit] is the number of frames the interpreter still allows. *)
Fixpoint dfs (limit : nat) (g : graph) (node_id : string) (path : list string)
    (visited : gset string) : result (list (list string)) :=
  match limit with
  | O => Raise RecursionError
  | S limit' =>
      if decide (node_id ∈ visited) then Ok []
      else
        let current_path := path ++ [node_id] in
        let visited_copy := visited ∪ {[node_id]} in
        let children := children_of g node_id in
        match children with
        | [] => Ok [current_path]
        | _ :: _ =>
            for_each (fun child_id => dfs limit' g child_id current_path visited_copy)
              children
        end
  end.

Definition _find_all_chains (limit : nat) (start_id : string) (g : graph)
  : result (list (list string)) :=
  dfs limit g start_id [] ∅.

End HierarchicalAnalyzer.

(** ** [analyze_traceability]: the summary of the gaps *)

Module GapSummary.

Import Analyzer.

Definition severity_eqb (s1 s2 : severity_level) : bool :=
  match s1, s2 with
  | critical, critical | high, high | medium, medium | low, low => true
  | _, _ => false
  end.

(** [len([g for g in gaps if g['severity'] == s])] *)
Definition count_severity (s : severity_level) (gaps : list gap) : nat :=
  List.length (List.filter (fun gp => severity_eqb (severity gp) s) gaps).

(** The dictionary [gap_summary] of the analysis report. *)
Record gap_summary : Type := {
  total : nat;
  n_critical : nat;
  n_high : nat;
  n_medium : nat;
  n_low : nat
}.

Definition summarize (gaps : list gap) : gap_summary :=
  {| total := List.length gaps;
     n_critical := count_severity critical gaps;
     n_high := count_severity high gaps;
     n_medium := count_severity medium gaps;
     n_low := count_severity low gaps |}.

End GapSummary.

(** ** [_build_graph] of [src/analyze/hierarchical_analyzer.py] *)

Module HierarchicalGraph.

Import Analyzer.

(** The graph of the hierarchical analysis: the three entries of
    [build_trace_graph] and the link objects by end point. *)
Record hierarchical_graph : Type := {
  base : graph;
  links_by_source : gmap string (list link);
  links_by_target : gmap string (list link)
}.

Definition add_link_object (m : gmap string (list link)) (k : string) (l : link)
  : gmap string (list link) :=
  <[k := default [] (m !! k) ++ [l]]> m.

Definition _build_graph (artifacts : dict artifact) (links : list link) : hierarchical_graph :=
  fold_left
    (fun g l =>
       {| base :=
            {| nodes := nodes (base g);
               edges_down := add_edge (edges_down (base g)) (source_id l) (target_id l);
               edges_up := add_edge (edges_up (base g)) (target_id l) (source_id l) |};
          links_by_source := add_link_object (links_by_source g) (source_id l) l;
          links_by_target := add_link_object (links_by_target g) (target_id l) l |})
    links
    {| base := {| nodes := artifacts; edges_down := ∅; edges_up := ∅ |};
       links_by_source := ∅;
       links_by_target := ∅ |}.

End HierarchicalGraph.

(** ** The layer and chain analyses of [src/analyze/hierarchical_analyzer.py] *)

Module HierarchicalLayers.

Import Analyzer.

(** [for x in l: state = f(state, x)], stopping at the first exception. *)
Fixpoint for_fold {S A : Type} (f : S → A → result S) (l : list A) (s : S) : result S :=
  match l with
  | [] => Ok s
  | x :: rest => let* s' := f s x in for_fold f rest s'
  end.

(** [[c for c in ids if artifacts[c]['type'] == t]] *)
Definition of_type (artifacts : dict artifact) (t : string) (ids : list string)
  : result (list string) :=
  for_each
    (fun c => let* a := dict_index artifacts c in
              Ok (if String.eqb (a_type a) t then [c] else []))
    ids.

(** [sep.join(parts)] *)
Fixpoint join (sep : string) (parts : list string) : string :=
  match parts with
  | [] => ""
  | [p] => p
  | p :: rest => p +:+ sep +:+ join sep rest
  end.

(** An entry of a layer report; the entries of the orphaned list carry no
    counts, those of the complete list no issue. *)
Record layer_entry : Type := {
  e_id : string;
  e_text : string;
  e_parent_count : option nat;
  e_llr_count : option nat;
  e_issue : option string
}.

(** The three lists of [_analyze_hlr_layer]. *)
Record layer_lists : Type := {
  complete : list layer_entry;
  partial : list layer_entry;
  orphaned : list layer_entry
}.

(** The report: the counts and percentages of the source are the lengths
    of the lists over [total]. *)
Record layer_report : Type := {
  total : nat;
  lists : layer_lists
}.

(** One iteration of the loop of [_analyze_hlr_layer]. *)
Definition hlr_step (artifacts : dict artifact) (g : graph) (acc : layer_lists)
    (hlr : artifact) : result layer_lists :=
  let hlr_id := a_id hlr in
  let parents := parents_of g hlr_id in
  let children := children_of g hlr_id in
  let* llr_children := of_type artifacts "LLR" children in
  if negb (is_empty parents) && negb (is_empty llr_children) then
    Ok {| complete :=
            complete acc
            ++ [{| e_id := hlr_id; e_text := a_text hlr;
                   e_parent_count := Some (List.length parents);
                   e_llr_count := Some (List.length llr_children);
                   e_issue := None |}];
          partial := partial acc;
          orphaned := orphaned acc |}
  else if negb (is_empty parents) || negb (is_empty llr_children) then
    let issue :=
      (if is_empty parents then ["No parent link (orphaned from SYS requirements)"] else [])
      ++ (if is_empty llr_children then ["No LLR children (not further decomposed)"] else [])
    in
    Ok {| complete := complete acc;
          partial :=
            partial acc
            ++ [{| e_id := hlr_id; e_text := a_text hlr;
                   e_parent_count := Some (List.length parents);
                   e_llr_count := Some (List.length llr_children);
                   e_issue := Some (join "; " issue) |}];
          orphaned := orphaned acc |}
  else
    Ok {| complete := complete acc;
          partial := partial acc;
          orphaned :=
            orphaned acc
            ++ [{| e_id := hlr_id; e_text := a_text hlr;
                   e_parent_count := None; e_llr_count := None;
                   e_issue := Some "Completely isolated - no parent or children" |}] |}.

Definition _analyze_hlr_layer (artifacts : dict artifact) (g : graph) : result layer_report :=
  let hlrs := List.filter (fun a => String.eqb (a_type a) "HLR") (dict_values artifacts) in
  let* ls :=
    for_fold (hlr_step artifacts g) hlrs {| complete := []; partial := []; orphaned := [] |}
  in
  Ok {| total := List.length hlrs; lists := ls |}.

(** [chain_info] of [_analyze_chains]. *)
Record chain_info : Type := {
  system_req : string;
  chain : list string;
  depth : nat;
  types : list string
}.

(** [chains_analysis], the three lists of [_analyze_chains]. *)
Record chains_analysis : Type := {
  complete_chains : list chain_info;
  partial_chains : list chain_info;
  broken_chains : list chain_info
}.

Definition is_code_var (t : option string) : bool :=
  match t with
  | Some s => String.eqb s "CODE_VAR"
  | None => false
  end.

(** The body of the inner loop of [_analyze_chains]. *)
Definition chain_step (artifacts : dict artifact) (sys_req : artifact)
    (acc : chains_analysis) (c : list string) : result chains_analysis :=
  let* chain_types :=
    for_each (fun node_id => let* a := dict_index artifacts node_id in Ok [a_type a]) c in
  let chain_depth := List.length c in
  let terminal_type := last chain_types in
  let info :=
    {| system_req := a_id sys_req; chain := c; depth := chain_depth; types := chain_types |}
  in
  if is_code_var terminal_type && (4 <=? chain_depth)%nat then
    Ok {| complete_chains := complete_chains acc ++ [info];
          partial_chains := partial_chains acc;
          broken_chains := broken_chains acc |}
  else if (2 <=? chain_depth)%nat then
    Ok {| complete_chains := complete_chains acc;
          partial_chains := partial_chains acc ++ [info];
          broken_chains := broken_chains acc |}
  else
    Ok {| complete_chains := complete_chains acc;
          partial_chains := partial_chains acc;
          broken_chains := broken_chains acc ++ [info] |}.

(** The two loops of [_analyze_chains]; [limit] is the number of frames
    the interpreter allows each search. *)
Definition classify_chains (limit : nat) (artifacts : dict artifact) (g : graph)
  : result chains_analysis :=
  let sys_reqs :=
    List.filter (fun a => String.eqb (a_type a) "SYSTEM_REQ") (dict_values artifacts) in
  for_fold
    (fun acc sys_req =>
       let* chains := HierarchicalAnalyzer._find_all_chains limit (a_id sys_req) g in
       for_fold (chain_step artifacts sys_req) chains acc)
    sys_reqs
    {| complete_chains := []; partial_chains := []; broken_chains := [] |}.

(** An entry of the report of [_analyze_chains]: the count, and the first
    ten chains for display; the percentage is the count over the total. *)
Record chains_entry : Type := {
  count : nat;
  chains : list chain_info
}.

Record chains_report : Type := {
  total_chains : nat;
  r_complete : chains_entry;
  r_partial : chains_entry;
  r_broken : chains_entry
}.

Definition _analyze_chains (limit : nat) (artifacts : dict artifact) (g : graph)
  : result chains_report :=
  let* chains_analysis := classify_chains limit artifacts g in
  let total_chains :=
    (List.length (complete_chains chains_analysis)
     + List.length (partial_chains chains_analysis)
     + List.length (broken_chains chains_analysis))%nat in
  Ok {| total_chains := total_chains;
        r_complete :=
          {| count := List.length (complete_chains chains_analysis);
             chains := firstn 10 (complete_chains chains_analysis) |};
        r_partial :=
          {| count := List.length (partial_chains chains_analysis);
             chains := firstn 10 (partial_chains chains_analysis) |};
        r_broken :=
          {| count := List.length (broken_chains chains_analysis);
             chains := firstn 10 (broken_chains chains_analysis) |} |}.

End HierarchicalLayers.

(** ** [LinkManager.establish_links] and [HierarchicalLinker.establish_all_links] *)

Module Establish.

Import Linker.

Local Open Scope Q_scope.

(** [create_link], in the fields of a link the graph and the analysis
    read; its [id] is random, [created_at] the clock and [rationale] a
    rendering of the match details. *)
Definition create_link (source target kind : string) (conf : Q) : link :=
  {| source_id := source; target_id := target; link_type := kind; confidence := conf |}.

(** The [status] [create_link] gives a link. *)
Definition link_status (l : link) : string :=
  if Qge_bool (confidence l) 0.7 then "confirmed" else "candidate".

Section Run.

Variable artifacts : dict artifact.
Variable idx : indexer.
Variable config : linking_config.

(** The decomposition loop, shared by both linkers: one link per child of
    a decomposed system requirement; [self.artifacts[child_id]] raises
    [KeyError] for a child that is no artifact. *)
Definition decomposition_links : result (list link) :=
  for_each
    (fun item : string * artifact =>
       let '(art_id, art) := item in
       if String.eqb (a_type art) "SYSTEM_REQ" && negb (Analyzer.is_empty (a_children art))
       then
         for_each
           (fun child_id =>
              let* child := dict_index artifacts child_id in
              Ok [create_link art_id child_id "decomposes" 1.0])
           (a_children art)
       else Ok [])
    artifacts.

(** One of the three layer loops of [LinkManager.establish_links]. *)
Definition layer_links (source_type target_type kind : string) : result (list link) :=
  let layer_threshold :=
    default (confidence_threshold config)
      (dict_get (layer_thresholds config) (source_type +:+ "->" +:+ target_type)) in
  for_each
    (fun source : artifact =>
       let* candidates := find_candidates artifacts idx config (a_id source) target_type 10 in
       for_each
         (fun c : string * Q * match_details =>
            let '(target, score, details) := c in
            if Qge_bool score layer_threshold
            then
              let* target_artifact := dict_index artifacts target in
              Ok [create_link (a_id source) target kind score]
            else Ok [])
         candidates)
    (List.filter (fun a => String.eqb (a_type a) source_type) (dict_values artifacts)).

Definition establish_links : result (list link) :=
  let* decomposition := decomposition_links in
  let* to_hlr := layer_links "SYSTEM_REQ_DECOMPOSED" "HLR" "implements" in
  let* to_llr := layer_links "HLR" "LLR" "implements" in
  let* to_var := layer_links "LLR" "CODE_VAR" "references" in
  Ok (decomposition ++ to_hlr ++ to_llr ++ to_var).

Variable groq_client : option HierarchicalLinker.llm_client.

(** [HierarchicalLinker.establish_all_links]: the decomposition, then the
    three layers with adjudication. *)
Definition establish_all_links : result (list link) :=
  let* decomposition := decomposition_links in
  Ok (decomposition
      ++ HierarchicalLinker._link_layer artifacts idx config groq_client
           "SYSTEM_REQ_DECOMPOSED" "HLR" true
      ++ HierarchicalLinker._link_layer artifacts idx config groq_client "HLR" "LLR" true
      ++ HierarchicalLinker._link_layer artifacts idx config groq_client "LLR" "CODE_VAR" true).

End Run.

End Establish.

(** * Vocabulary of the properties *)

Section Vocabulary.

Import Analyzer Linker HierarchicalLinker.
Local Open Scope Q_scope.

(** Severity by impact, in the words of the specification; a chain gap also
    records the classification of its chain. *)
Definition severity_by_impact (g : graph) (gp : gap) : Prop :=
  match detail gp with
  | OrphanGap _ artifact_type _ _ =>
      (type gp = orphan_no_parent ∧ severity gp = high)
      ∨ (type gp = orphan_no_children ∧
         (((artifact_type = "SYSTEM_REQ" ∨ artifact_type = "SYSTEM_REQ_DECOMPOSED")
           ∧ severity gp = critical)
          ∨ (artifact_type = "HLR" ∧ severity gp = high)
          ∨ (artifact_type ≠ "SYSTEM_REQ" ∧ artifact_type ≠ "SYSTEM_REQ_DECOMPOSED"
             ∧ artifact_type ≠ "HLR" ∧ severity gp = medium)))
  | ChainGap chain c _ _ _ =>
      type gp = incomplete_chain ∧ classify_chain chain g = Ok c
      ∧ ((c = INCOMPLETE ∧ severity gp = high) ∨ (c ≠ INCOMPLETE ∧ severity gp = medium))
  end.

Definition nonneg_weights (w : weights) : Prop :=
  0 <= w_embedding w ∧ 0 <= w_keyword w ∧ 0 <= w_quantity w ∧ 0 <= w_name w.

(** Branch (a) of the gate, in the words of the specification. *)
Definition strong_signal (emb kw : Q) : Prop :=
  0.20 < kw ∨ 0.30 < emb ∨ (0.20 < emb ∧ 0.12 < kw).

(** The number of moderate signals, in the words of the specification. *)
Definition moderate_signals (emb kw : Q) (qty : bool) (name boost : Q) : nat :=
  ((if Qlt_le_dec 0.12 emb then 1 else 0) +
   (if Qlt_le_dec 0.05 kw then 1 else 0) +
   (if qty then 1 else 0) +
   (if Qlt_le_dec 0.10 name then 1 else 0) +
   (if Qlt_le_dec 0.05 boost then 1 else 0))%nat.

(** An entry of the reply that does not pass the confidence floor: its
    confidence is a number under 0.6, or does not convert to a number. *)
Definition below_floor (sel : selected_target) : Prop :=
  match sel_confidence sel with
  | ConfNumber c => c < 0.6
  | ConfInvalid => True
  | ConfMissing => False
  end.

(** An entry of the reply on which the validation loop raises [KeyError]:
    its 'confidence' key is missing; or its confidence passes the floor,
    there is a candidate to compare it with, and its 'target_id' key is
    missing, or it names a candidate and its 'reasoning' key is missing. *)
Definition entry_raises (candidates : list candidate) (sel : selected_target) : Prop :=
  match sel_confidence sel with
  | ConfMissing => True
  | ConfInvalid => False
  | ConfNumber c =>
      0.6 <= c ∧ candidates ≠ []
      ∧ match sel_target_id sel with
        | None => True
        | Some tid =>
            (∃ cand, In cand candidates ∧ c_target_id cand = tid) ∧ sel_reasoning sel = None
        end
  end.

(** [x] comes before [y] in a list sorted by [key], greatest first. *)
Definition before {A : Type} (key : A → Q) (x y : A) : Prop := key y <= key x.

(** Every character of [s] is in the class [p]. *)
Fixpoint all_chars (p : ascii → bool) (s : string) : bool :=
  match s with
  | EmptyString => true
  | String c r => p c && all_chars p r
  end.

(** A non-empty word of the class [p]: what [cls+] matches in full. *)
Definition class_word (p : ascii → bool) (s : string) : Prop :=
  s ≠ "" ∧ all_chars p s = true.

Definition opt_class_word (p : ascii → bool) (o : option string) : Prop :=
  match o with
  | Some s => class_word p s
  | None => True
  end.

Definition dash (o : option string) : string :=
  match o with
  | Some s => "-" +:+ s
  | None => ""
  end.

(** The identifier PREFIX-NUMBER[-SUFFIX][-SUFFIX2]. *)
Definition conforming_id (pre num : string) (letter subnum : option string) : string :=
  pre +:+ "-" +:+ num +:+ dash letter +:+ dash subnum.

(** [rest] does not begin with a character of the class [p]. *)
Definition stops (p : ascii → bool) (rest : string) : Prop :=
  match rest with
  | EmptyString => True
  | String c _ => p c = false
  end.

(** [rest] is empty or begins with a dash. *)
Definition at_dash (rest : string) : Prop :=
  match rest with
  | EmptyString => True
  | String c _ => c = "-"%char
  end.

(** The UTF-8 text of a sequence of decimal digits of Unicode. *)
Inductive decimal_run : string → Prop :=
| decimal_none : decimal_run ""
| decimal_1 (c1 : ascii) (w : string) :
    digit1 c1 = true → decimal_run w → decimal_run (String c1 w)
| decimal_2 (c1 c2 : ascii) (w : string) :
    digit2 c1 c2 = true → decimal_run w → decimal_run (String c1 (String c2 w))
| decimal_3 (c1 c2 c3 : ascii) (w : string) :
    digit3 c1 c2 c3 = true → decimal_run w →
    decimal_run (String c1 (String c2 (String c3 w)))
| decimal_4 (c1 c2 c3 c4 : ascii) (w : string) :
    digit4 c1 c2 c3 c4 = true → decimal_run w →
    decimal_run (String c1 (String c2 (String c3 (String c4 w)))).

(** A non-empty word of decimal digits: what [\d+] matches in full. *)
Definition decimal_word (s : string) : Prop := s ≠ "" ∧ decimal_run s.

Definition opt_decimal_word (o : option string) : Prop :=
  match o with
  | Some s => decimal_word s
  | None => True
  end.

End Vocabulary.

(** * Sample inputs *)

Section Samples.

Import Analyzer Linker HierarchicalLinker.
Local Open Scope Q_scope.

(** An artifact with an id and a type, and nothing else. *)
Definition requirement (aid atype : string) : artifact :=
  {| a_id := aid; a_type := atype; a_text := ""; a_name := None;
     a_extracted := {| keywords := []; quantities := []; referenced_ids := [] |};
     a_children := [] |}.

(** A graph with no nodes and no edges. *)
Definition empty_graph : graph := {| nodes := []; edges_down := ∅; edges_up := ∅ |}.

(** A graph whose only node is the variable VAR-007. *)
Definition lone_variable_graph : graph :=
  {| nodes := [("VAR-007", requirement "VAR-007" "CODE_VAR")];
     edges_down := ∅; edges_up := ∅ |}.

(** SYS-001 decomposed into SYS-001-A, which nothing implements. *)
Definition decomposed_only_graph : graph :=
  {| nodes := [("SYS-001", requirement "SYS-001" "SYSTEM_REQ");
               ("SYS-001-A", requirement "SYS-001-A" "SYSTEM_REQ_DECOMPOSED")];
     edges_down := {["SYS-001" := ["SYS-001-A"]]};
     edges_up := {["SYS-001-A" := ["SYS-001"]]} |}.

(** An uncovered system requirement and an unlinked high-level requirement. *)
Definition uncovered_artifacts : dict artifact :=
  [("SYS-001", requirement "SYS-001" "SYSTEM_REQ");
   ("HLR-001-A", requirement "HLR-001-A" "HLR")].

(** Their graph: no link at all. *)
Definition uncovered_graph : graph := Analyzer.build_trace_graph uncovered_artifacts [].

(** The gap the detector reports for the childless SYS-001. *)
Definition childless_gap : Analyzer.gap :=
  {| Analyzer.gap_id := "GAP-002";
     Analyzer.type := Analyzer.orphan_no_children;
     Analyzer.severity := Analyzer.critical;
     Analyzer.description := "SYSTEM_REQ has no child links";
     Analyzer.detail :=
       Analyzer.OrphanGap "SYS-001" "SYSTEM_REQ" (Some "SYSTEM_REQ_DECOMPOSED")
         "SYSTEM_REQ has no child links" |}.

(** A malformed link collection: SYS-001 linked to itself. *)
Definition self_link : link :=
  {| source_id := "SYS-001"; target_id := "SYS-001"; link_type := "implements";
     confidence := 1 |}.

Definition self_loop_graph : graph :=
  Analyzer.build_trace_graph [("SYS-001", requirement "SYS-001" "SYSTEM_REQ")] [self_link].

(** An LLR and a variable whose name is empty. *)
Definition sample_llr : artifact :=
  {| a_id := "LLR-001-A-1"; a_type := "LLR";
     a_text := "The altitude shall be stored in alt_hold_ft";
     a_name := None;
     a_extracted := {| keywords := []; quantities := []; referenced_ids := [] |};
     a_children := [] |}.

Definition unnamed_variable : artifact :=
  {| a_id := "VAR-007"; a_type := "CODE_VAR"; a_text := ""; a_name := Some "";
     a_extracted := {| keywords := []; quantities := []; referenced_ids := [] |};
     a_children := [] |}.

(** Weights that count the embedding similarity against a candidate. *)
Definition inverted_weights : weights :=
  {| w_embedding := -1; w_keyword := 0; w_quantity := 0; w_name := 0 |}.

(** HLR-001-A against LLR-001-A-1 at embedding similarity 0.10: nothing in
    common but the naming of the identifiers. *)
Definition naming_only_match : match_details :=
  {| embedding_similarity := 0.10;
     keyword_score := 0.0;
     keyword_overlap := [];
     quantity_match := false;
     quantities_matched := [];
     name_match_score := 0.0;
     name_match_reasons := Some [];
     id_boost := compute_id_relationship_boost "HLR-001-A" "LLR-001-A-1";
     combined_score :=
       compute_combined_score 0.10 0.0 false 0.0
         (compute_id_relationship_boost "HLR-001-A" "LLR-001-A-1")
         (cfg_weights default_config) |}.

Definition sample_details : match_details :=
  {| embedding_similarity := 0.5; keyword_score := 0.3; keyword_overlap := [];
     quantity_match := false; quantities_matched := []; name_match_score := 0.0;
     name_match_reasons := None; id_boost := 0.0; combined_score := 0.3 |}.

Definition two_candidates : list candidate :=
  [{| c_target_id := "HLR-001-A"; c_score := 0.3; c_match_details := sample_details |};
   {| c_target_id := "HLR-002-A"; c_score := 0.3; c_match_details := sample_details |}].

(** An adjudicator whose reply names HLR-001-A without a 'confidence' key. *)
Definition careless_client : llm_client :=
  fun _ _ =>
    Parsed [{| sel_target_id := Some "HLR-001-A";
               sel_confidence := ConfMissing;
               sel_reasoning := Some "implements it" |}].

(** An adjudicator that selects HLR-001-A at confidence 0.5. *)
Definition hesitant_client : llm_client :=
  fun _ _ =>
    Parsed [{| sel_target_id := Some "HLR-001-A";
               sel_confidence := ConfNumber 0.5;
               sel_reasoning := Some "weak match" |}].

(** A high-level requirement. *)
Definition altitude_hlr : artifact :=
  {| a_id := "HLR-001-A"; a_type := "HLR";
     a_text := "The autopilot shall hold the selected altitude";
     a_name := None;
     a_extracted :=
       {| keywords := ["autopilot"; "altitude"]; quantities := []; referenced_ids := [] |};
     a_children := [] |}.

(** The requirement and a low-level requirement that refines it. *)
Definition altitude_llr : artifact :=
  {| a_id := "LLR-001-A-1"; a_type := "LLR";
     a_text := "The altitude hold mode shall command pitch";
     a_name := None;
     a_extracted :=
       {| keywords := ["altitude"; "pitch"]; quantities := []; referenced_ids := [] |};
     a_children := [] |}.

Definition layered_artifacts : dict artifact :=
  [("HLR-001-A", altitude_hlr); ("LLR-001-A-1", altitude_llr)].

Definition layered_indexer : indexer :=
  {| get_embedding := fun _ => Some [1];
     search_similar := fun _ _ _ => [("HLR-001-A", 1); ("LLR-001-A-1", 0.6)] |}.

(** Sixteen low-level requirements that refine HLR-001-A, and an index
    that returns them all. *)
Definition crowded_llr (n : nat) : artifact :=
  {| a_id := "LLR-001-A-" +:+ str_of_nat n; a_type := "LLR";
     a_text := "The altitude hold mode shall command pitch";
     a_name := None;
     a_extracted :=
       {| keywords := ["altitude"; "pitch"]; quantities := []; referenced_ids := [] |};
     a_children := [] |}.

Definition crowded_artifacts : dict artifact :=
  ("HLR-001-A", altitude_hlr)
  :: map (fun n => (a_id (crowded_llr n), crowded_llr n)) (seq 1 16).

Definition crowded_indexer : indexer :=
  {| get_embedding := fun _ => Some [1];
     search_similar := fun _ _ _ => map (fun n => (a_id (crowded_llr n), 0.6)) (seq 1 16) |}.

Definition layered_results : list (string * Q * match_details) :=
  match find_candidates layered_artifacts layered_indexer default_config "HLR-001-A" "LLR" 10
  with
  | Ok results => results
  | Raise _ => []
  end.

End Samples.

(** * Vocabulary of the further properties *)

Section FurtherVocabulary.

Import Analyzer Linker HierarchicalLinker.
Local Open Scope Q_scope.

(** [b] implies [b']. *)
Definition implies (b b' : bool) : Prop := b = true → b' = true.

(** [chain] follows the edges of [g] downwards and stops at a node without
    children. *)
Fixpoint leaf_path (g : graph) (chain : list string) : Prop :=
  match chain with
  | [] => False
  | [x] => children_of g x = []
  | x :: (y :: _) as rest => In y (children_of g x) ∧ leaf_path g rest
  end.

(** [y] is reached from [x] along one edge or more. *)
Inductive reaches (g : graph) : string → string → Prop :=
| reaches_edge (x y : string) : In y (children_of g x) → reaches g x y
| reaches_step (x y z : string) : In y (children_of g x) → reaches g y z → reaches g x z.

(** One iteration of the loop of [build_trace_graph]. *)
Definition add_link (g : graph) (l : link) : graph :=
  {| nodes := nodes g;
     edges_down := add_edge (edges_down g) (source_id l) (target_id l);
     edges_up := add_edge (edges_up g) (target_id l) (source_id l) |}.

(** The unguarded search from [node_id] returns within [limit] frames. *)
Definition returns (g : graph) (limit : nat) (node_id : string) : Prop :=
  ∃ path chains, Analyzer.dfs limit g node_id path = Ok chains.

(** The three shapes of gap [identify_gaps] emits, before their id is known. *)
Definition gap_maker (mk : string → gap) : Prop :=
  (∃ o, mk = no_parent_gap o) ∨ (∃ o, mk = no_children_gap o)
  ∨ (∃ sys_req expected chain c, mk = chain_gap sys_req expected chain c).

(** The id of the gap with counter [n]. *)
Definition gap_id_of (n : nat) : string := "GAP-" +:+ format_03d n.

(** The counter a zero-padded decimal stands for. *)
Definition parse_counter (s : string) : option nat :=
  option_map Nat.of_uint (NilEmpty.uint_of_string s).

(** The gaps of the uncovered sample. *)
Definition uncovered_gaps : list gap :=
  match identify_gaps 100 uncovered_graph uncovered_artifacts
          (find_orphans uncovered_graph uncovered_artifacts) with
  | Ok gaps => gaps
  | Raise _ => []
  end.

(** [sel] accepts the candidate [cand]: same target, same match details,
    and a confidence that is the candidate's own score (heuristic
    acceptance) or at least 0.6 (the adjudicator's). *)
Definition accepts (cand : candidate) (sel : selection) : Prop :=
  s_target_id sel = c_target_id cand
  ∧ s_match_details sel = c_match_details cand
  ∧ (s_confidence sel = c_score cand ∨ 0.6 <= s_confidence sel).

(** The artifact set is keyed by id, as the parser builds it: every entry
    is found under its key, and its key is its id. *)
Definition keyed_by_id (artifacts : dict artifact) : Prop :=
  ∀ k a, In (k, a) artifacts → a_id a = k ∧ dict_get artifacts k = Some a.

(** The children of a system requirement are decomposed requirements of
    the artifact set, as the decomposer adds them. *)
Definition children_decomposed (artifacts : dict artifact) : Prop :=
  ∀ k a, In (k, a) artifacts → a_type a = "SYSTEM_REQ" →
  ∀ c, In c (a_children a) →
       ∃ child, dict_get artifacts c = Some child ∧ a_type child = "SYSTEM_REQ_DECOMPOSED".

(** The threshold of a layer: its entry in [layer_thresholds], else the
    general confidence threshold. *)
Definition threshold_of (config : linking_config) (key : string) : Q :=
  default (confidence_threshold config) (dict_get (layer_thresholds config) key).

(** A link between two artifacts of consecutive types, of the kind and at
    the confidence of its layer. *)
Definition layered_link (artifacts : dict artifact) (config : linking_config) (l : link)
  : Prop :=
  ∃ src tgt,
    dict_get artifacts (source_id l) = Some src
    ∧ dict_get artifacts (target_id l) = Some tgt
    ∧ ((link_type l = "decomposes" ∧ a_type src = "SYSTEM_REQ"
        ∧ a_type tgt = "SYSTEM_REQ_DECOMPOSED" ∧ confidence l = 1.0)
       ∨ (link_type l = "implements" ∧ a_type src = "SYSTEM_REQ_DECOMPOSED"
          ∧ a_type tgt = "HLR"
          ∧ threshold_of config "SYSTEM_REQ_DECOMPOSED->HLR" <= confidence l)
       ∨ (link_type l = "implements" ∧ a_type src = "HLR" ∧ a_type tgt = "LLR"
          ∧ threshold_of config "HLR->LLR" <= confidence l)
       ∨ (link_type l = "references" ∧ a_type src = "LLR" ∧ a_type tgt = "CODE_VAR"
          ∧ threshold_of config "LLR->CODE_VAR" <= confidence l)).

(** A link [HierarchicalLinker] creates: between two artifacts of
    consecutive types, a decomposition at confidence 1.0 or an 'implements'
    link whose confidence is a candidate's score, at least 0.7 times the
    layer's threshold, or the adjudicator's, at least 0.6. *)
Definition hierarchical_link (artifacts : dict artifact) (config : linking_config) (l : link)
  : Prop :=
  ∃ src tgt,
    dict_get artifacts (source_id l) = Some src
    ∧ dict_get artifacts (target_id l) = Some tgt
    ∧ ((link_type l = "decomposes" ∧ a_type src = "SYSTEM_REQ"
        ∧ a_type tgt = "SYSTEM_REQ_DECOMPOSED" ∧ confidence l = 1.0)
       ∨ (link_type l = "implements"
          ∧ ((a_type src = "SYSTEM_REQ_DECOMPOSED" ∧ a_type tgt = "HLR")
             ∨ (a_type src = "HLR" ∧ a_type tgt = "LLR")
             ∨ (a_type src = "LLR" ∧ a_type tgt = "CODE_VAR"))
          ∧ (threshold_of config (a_type src +:+ "->" +:+ a_type tgt) * 0.7 <= confidence l
             ∨ 0.6 <= confidence l))).

(** The link goes down one layer of the hierarchy. *)
Definition joins_layers (artifacts : dict artifact) (l : link) : Prop :=
  ∃ src tgt,
    dict_get artifacts (source_id l) = Some src
    ∧ dict_get artifacts (target_id l) = Some tgt
    ∧ ((a_type src = "SYSTEM_REQ" ∧ a_type tgt = "SYSTEM_REQ_DECOMPOSED")
       ∨ (a_type src = "SYSTEM_REQ_DECOMPOSED" ∧ a_type tgt = "HLR")
       ∨ (a_type src = "HLR" ∧ a_type tgt = "LLR")
       ∨ (a_type src = "LLR" ∧ a_type tgt = "CODE_VAR")).

(** The five types of the hierarchy, from the top. *)
Definition five_layers : list string :=
  ["SYSTEM_REQ"; "SYSTEM_REQ_DECOMPOSED"; "HLR"; "LLR"; "CODE_VAR"].

(** A chain record of [_analyze_chains] whose chain starts at its system
    requirement, has between [lo] and [hi] nodes, and goes down the
    hierarchy one layer per node. *)
Definition chain_of_depth (lo hi : nat) (i : HierarchicalLayers.chain_info) : Prop :=
  head (HierarchicalLayers.chain i) = Some (HierarchicalLayers.system_req i)
  ∧ HierarchicalLayers.depth i = List.length (HierarchicalLayers.chain i)
  ∧ (lo ≤ HierarchicalLayers.depth i ≤ hi)%nat
  ∧ HierarchicalLayers.types i = take (HierarchicalLayers.depth i) five_layers.

(** [c] is a child of [x] in [g] that is an artifact of type [t]. *)
Definition child_of_type (artifacts : dict artifact) (g : graph) (t x c : string) : Prop :=
  In c (children_of g x) ∧ ∃ a, dict_get artifacts c = Some a ∧ a_type a = t.

(** The height of a type above the variables. *)
Definition layer_of (t : string) : nat :=
  if String.eqb t "SYSTEM_REQ" then 4
  else if String.eqb t "SYSTEM_REQ_DECOMPOSED" then 3
  else if String.eqb t "HLR" then 2
  else if String.eqb t "LLR" then 1
  else 0.

(** The height of a node: that of its type, 0 for an id that is no artifact. *)
Definition height (artifacts : dict artifact) (node_id : string) : nat :=
  match dict_get artifacts node_id with
  | Some a => layer_of (a_type a)
  | None => 0
  end.

(** A system requirement with one decomposed part, a high-level and a
    low-level requirement, and an index that answers every query with the
    three lower artifacts. *)
Definition altitude_system : artifact :=
  {| a_id := "SYS-001"; a_type := "SYSTEM_REQ";
     a_text := "The aircraft shall hold the selected altitude";
     a_name := None;
     a_extracted :=
       {| keywords := ["aircraft"; "altitude"]; quantities := []; referenced_ids := [] |};
     a_children := ["SYS-001-A"] |}.

Definition altitude_part : artifact :=
  {| a_id := "SYS-001-A"; a_type := "SYSTEM_REQ_DECOMPOSED";
     a_text := "The autopilot shall hold the selected altitude";
     a_name := None;
     a_extracted :=
       {| keywords := ["autopilot"; "altitude"]; quantities := []; referenced_ids := [] |};
     a_children := [] |}.

Definition pipeline_artifacts : dict artifact :=
  [("SYS-001", altitude_system); ("SYS-001-A", altitude_part);
   ("HLR-001-A", altitude_hlr); ("LLR-001-A-1", altitude_llr)].

Definition pipeline_indexer : indexer :=
  {| get_embedding := fun _ => Some [1];
     search_similar :=
       fun _ _ _ => [("SYS-001-A", 0.8); ("HLR-001-A", 0.9); ("LLR-001-A-1", 0.6)] |}.

(** The links the two linkers create on them. *)
Definition pipeline_links : list link :=
  match Establish.establish_links pipeline_artifacts pipeline_indexer default_config with
  | Ok links => links
  | Raise _ => []
  end.

Definition pipeline_hierarchical_links : list link :=
  match Establish.establish_all_links pipeline_artifacts pipeline_indexer default_config None
  with
  | Ok links => links
  | Raise _ => []
  end.

(** The link each of them creates from the decomposed part to the HLR. *)
Definition pipeline_link : link := nth 1 pipeline_links self_link.

Definition pipeline_hierarchical_link : link := nth 1 pipeline_hierarchical_links self_link.

(** The report of the HLR layer on the hierarchical links. *)
Definition pipeline_hlr_report : HierarchicalLayers.layer_report :=
  match HierarchicalLayers._analyze_hlr_layer pipeline_artifacts
          (build_trace_graph pipeline_artifacts pipeline_hierarchical_links) with
  | Ok r => r
  | Raise _ =>
      {| HierarchicalLayers.total := 0;
         HierarchicalLayers.lists :=
           {| HierarchicalLayers.complete := []; HierarchicalLayers.partial := [];
              HierarchicalLayers.orphaned := [] |} |}
  end.

End FurtherVocabulary.

(** * Properties *)

(** ** The chain classifier *)

Section ChainClassifier.

Import Analyzer.

Lemma expected_terminal_is_code_var (t : string) :
  default "CODE_VAR" (dict_get EXPECTED_TERMINAL_TYPE t) = "CODE_VAR".
Proof.
  unfold EXPECTED_TERMINAL_TYPE; cbn [dict_get].
  repeat match goal with |- context [String.eqb ?a t] => destruct (String.eqb a t) end;
    reflexivity.
Qed.

Lemma expected_depth_table (t : string) (d : nat) :
  dict_get EXPECTED_CHAIN_DEPTH t = Some d ↔
  (t = "SYSTEM_REQ" ∧ d = 5) ∨ (t = "SYSTEM_REQ_DECOMPOSED" ∧ d = 4) ∨
  (t = "HLR" ∧ d = 3) ∨ (t = "LLR" ∧ d = 2) ∨ (t = "CODE_VAR" ∧ d = 1).
Proof.
  unfold EXPECTED_CHAIN_DEPTH; cbn [dict_get]. split.
  - repeat match goal with
      | |- context [String.eqb ?a t] =>
          destruct (String.eqb_spec a t) as [<- | ?]; [intros [= <-]; tauto |]
      end.
    discriminate.
  - intros [[-> ->] | [[-> ->] | [[-> ->] | [[-> ->] | [-> ->]]]]]; reflexivity.
Qed.

(** The classifier on a chain whose ends are nodes of the graph, as the
    cascade of the source decides it. *)
Lemma classify_chain_unfold (g : graph) (chain : list string) (start_id : string)
    (start terminal : artifact) (d : nat) :
  head chain = Some start_id →
  dict_get (nodes g) start_id = Some start →
  dict_get (nodes g) (List.last chain start_id) = Some terminal →
  dict_get EXPECTED_CHAIN_DEPTH (a_type start) = Some d →
  classify_chain chain g =
    Ok (if String.eqb (a_type terminal) "CODE_VAR" && (d <=? List.length chain)%nat
        then COMPLETE
        else if (1 <? List.length chain)%nat && (List.length chain <? d)%nat then PARTIAL
        else if (List.length chain =? 1)%nat then INCOMPLETE
        else BROKEN).
Proof.
  intros Hhead Hstart Hterm Hd.
  destruct chain as [| s rest]; [discriminate |].
  injection Hhead as ->.
  unfold classify_chain, dict_index.
  rewrite Hstart. cbn [bind]. rewrite Hterm. cbn [bind].
  rewrite expected_terminal_is_code_var, Hd. cbn [default].
  destruct (String.eqb (a_type terminal) "CODE_VAR" && _); [reflexivity |].
  destruct ((1 <? _)%nat && _); [reflexivity |].
  destruct (_ =? 1)%nat; reflexivity.
Qed.

(** C9, as the code has it: the empty chain is classified INCOMPLETE,
    whatever the graph. *)
Theorem classify_chain_empty (g : graph) : classify_chain [] g = Ok INCOMPLETE.
Proof. reflexivity. Qed.

(** C9, refuted as stated: a classification is produced for the empty path. *)
Lemma classify_chain_empty_classified :
  ∃ c, classify_chain [] empty_graph = Ok c.
Proof. exists INCOMPLETE. reflexivity. Qed.

(** C2, refuted as stated: a chain of length 1 that is a lone CODE_VAR is
    COMPLETE, not INCOMPLETE. *)
Lemma classify_chain_lone_variable :
  List.length ["VAR-007"] = 1%nat ∧
  classify_chain ["VAR-007"] lone_variable_graph = Ok COMPLETE ∧
  classify_chain ["VAR-007"] lone_variable_graph ≠ Ok INCOMPLETE.
Proof. split; [reflexivity | split; [reflexivity | discriminate]]. Qed.

(** C2, amended: for a non-empty chain whose first and last ids are nodes
    and whose root type has expected depth [d] in EXPECTED_CHAIN_DEPTH, the
    result is COMPLETE exactly when the terminal type is CODE_VAR and the
    length is at least [d]; PARTIAL when 1 < length < [d]; INCOMPLETE when
    the length is 1 and the root is not a CODE_VAR; BROKEN in every other
    case; and a chain of length 2 from a SYSTEM_REQ to a
    SYSTEM_REQ_DECOMPOSED is PARTIAL. *)
Theorem classify_chain_cases (g : graph) (chain : list string) (start_id : string)
    (start terminal : artifact) (d : nat) :
  head chain = Some start_id →
  dict_get (nodes g) start_id = Some start →
  dict_get (nodes g) (List.last chain start_id) = Some terminal →
  dict_get EXPECTED_CHAIN_DEPTH (a_type start) = Some d →
  (classify_chain chain g = Ok COMPLETE ↔
     a_type terminal = "CODE_VAR" ∧ (d ≤ List.length chain)%nat)
  ∧ ((1 < List.length chain)%nat ∧ (List.length chain < d)%nat →
     classify_chain chain g = Ok PARTIAL)
  ∧ (List.length chain = 1%nat → a_type start ≠ "CODE_VAR" →
     classify_chain chain g = Ok INCOMPLETE)
  ∧ (¬ (a_type terminal = "CODE_VAR" ∧ (d ≤ List.length chain)%nat) →
     ¬ ((1 < List.length chain)%nat ∧ (List.length chain < d)%nat) →
     List.length chain ≠ 1%nat →
     classify_chain chain g = Ok BROKEN)
  ∧ (a_type start = "SYSTEM_REQ" → a_type terminal = "SYSTEM_REQ_DECOMPOSED" →
     List.length chain = 2%nat → classify_chain chain g = Ok PARTIAL).
Proof.
  intros Hhead Hstart Hterm Hd.
  rewrite (classify_chain_unfold g chain start_id start terminal d Hhead Hstart Hterm Hd).
  assert (Hone : List.length chain = 1%nat → terminal = start).
  { destruct chain as [| s [| ? ?]]; try discriminate. intros _.
    injection Hhead as ->. simpl in Hterm. congruence. }
  destruct (String.eqb_spec (a_type terminal) "CODE_VAR") as [Hcv | Hcv];
    destruct (Nat.leb_spec d (List.length chain));
    destruct (Nat.ltb_spec 1 (List.length chain));
    destruct (Nat.ltb_spec (List.length chain) d);
    destruct (Nat.eqb_spec (List.length chain) 1);
    cbn [andb]; try lia.
  all: repeat split; intros; try reflexivity; try discriminate; try lia; try tauto.
  all: try (exfalso; apply expected_depth_table in Hd; intuition (subst; try discriminate;
         try congruence; simpl in *; lia)).
Qed.

End ChainClassifier.

(** C2, at a concrete chain: SYS-001 → SYS-001-A is PARTIAL. *)
Lemma classify_chain_cases_witness :
  Analyzer.classify_chain ["SYS-001"; "SYS-001-A"] decomposed_only_graph
  = Ok Analyzer.PARTIAL.
Proof.
  pose proof (classify_chain_cases decomposed_only_graph ["SYS-001"; "SYS-001-A"] "SYS-001"
                (requirement "SYS-001" "SYSTEM_REQ")
                (requirement "SYS-001-A" "SYSTEM_REQ_DECOMPOSED") 5
                eq_refl eq_refl eq_refl eq_refl) as (_ & _ & _ & _ & H).
  apply H; reflexivity.
Defined.

(** ** The gap detector *)

Section GapDetector.

Import Analyzer.

Lemma emit_gaps (st : gap_state) (mk : string → gap) :
  fst (emit st mk) = fst st ++ [mk ("GAP-" +:+ format_03d (snd st))].
Proof. destruct st; reflexivity. Qed.

Lemma emit_keeps (P : gap → Prop) (st : gap_state) (mk : string → gap) :
  Forall P (fst st) → (∀ gid, P (mk gid)) → Forall P (fst (emit st mk)).
Proof.
  intros Hst Hmk. rewrite emit_gaps. apply Forall_app. split; [exact Hst |].
  constructor; [apply Hmk | constructor].
Qed.

Lemma emit_each_keeps (P : gap → Prop) (mk : orphan → string → gap) (l : list orphan) :
  (∀ o gid, P (mk o gid)) →
  ∀ st, Forall P (fst st) → Forall P (fst (fold_left (fun st o => emit st (mk o)) l st)).
Proof.
  intros Hmk. induction l as [| o l IH]; intros st Hst; simpl; [exact Hst |].
  apply IH. apply emit_keeps; [exact Hst | apply Hmk].
Qed.

Lemma no_parent_gap_severity (g : graph) (o : orphan) (gid : string) :
  severity_by_impact g (no_parent_gap o gid).
Proof. left. split; reflexivity. Qed.

Lemma no_children_gap_severity (g : graph) (o : orphan) (gid : string) :
  severity_by_impact g (no_children_gap o gid).
Proof.
  right. split; [reflexivity |].
  unfold no_children_gap, no_children_severity, str_in_list; cbn [severity existsb].
  destruct (String.eqb_spec (o_type o) "SYSTEM_REQ") as [-> | H1]; [left; tauto |].
  destruct (String.eqb_spec (o_type o) "SYSTEM_REQ_DECOMPOSED") as [-> | H2];
    [left; tauto |].
  cbn [orb]. destruct (String.eqb_spec (o_type o) "HLR") as [-> | H3]; [right; left; tauto |].
  right; right; tauto.
Qed.

Lemma chain_gap_severity (g : graph) (sys_req : artifact) (expected : nat)
    (chain : list string) (c : classification) (gid : string) :
  classify_chain chain g = Ok c → severity_by_impact g (chain_gap sys_req expected chain c gid).
Proof.
  intros Hc. split; [reflexivity |]. split; [exact Hc |].
  destruct c; cbn; [right | right | left | right]; split; (reflexivity || discriminate).
Qed.

Lemma chain_gaps_keep (g : graph) (sys_req : artifact) (chains : list (list string)) :
  ∀ st st', chain_gaps g sys_req chains st = Ok st' →
  Forall (severity_by_impact g) (fst st) → Forall (severity_by_impact g) (fst st').
Proof.
  induction chains as [| chain rest IH]; intros st st' Hrun Hst; cbn [chain_gaps] in Hrun.
  - injection Hrun as <-. exact Hst.
  - destruct (classify_chain chain g) as [c |] eqn:Hc; [| discriminate].
    cbn [bind] in Hrun.
    destruct (existsb (classification_eqb c) [INCOMPLETE; PARTIAL; BROKEN]).
    + destruct (dict_index EXPECTED_CHAIN_DEPTH (a_type sys_req)) as [expected |];
        [| discriminate].
      cbn [bind] in Hrun. apply (IH _ _ Hrun).
      apply emit_keeps; [exact Hst |]. intros gid. apply chain_gap_severity, Hc.
    + apply (IH _ _ Hrun Hst).
Qed.

Lemma sys_req_gaps_keep (limit : nat) (g : graph) (sys_reqs : list artifact) :
  ∀ st st', sys_req_gaps limit g sys_reqs st = Ok st' →
  Forall (severity_by_impact g) (fst st) → Forall (severity_by_impact g) (fst st').
Proof.
  induction sys_reqs as [| sys_req rest IH]; intros st st' Hrun Hst;
    cbn [sys_req_gaps] in Hrun.
  - injection Hrun as <-. exact Hst.
  - destruct (trace_chain_forward limit g (a_id sys_req)) as [chains |]; [| discriminate].
    cbn [bind] in Hrun.
    destruct (chain_gaps g sys_req chains st) as [st1 |] eqn:H1; [| discriminate].
    cbn [bind] in Hrun. apply (IH _ _ Hrun). apply (chain_gaps_keep _ _ _ _ _ H1 Hst).
Qed.

(** C5: every gap [identify_gaps] emits has its severity by impact: high
    for a missing parent; for missing children critical on SYSTEM_REQ and
    SYSTEM_REQ_DECOMPOSED, high on HLR, medium otherwise; for a chain gap
    high when the chain classifies INCOMPLETE and medium otherwise. *)
Theorem identify_gaps_severity (limit : nat) (g : graph) (artifacts : dict artifact)
    (orph : orphans) (gaps : list gap) (gp : gap) :
  identify_gaps limit g artifacts orph = Ok gaps →
  In gp gaps →
  severity_by_impact g gp.
Proof.
  unfold identify_gaps. intros Hrun Hin.
  destruct (sys_req_gaps limit g _ _) as [st3 |] eqn:H3; [| discriminate].
  cbn [bind] in Hrun. injection Hrun as <-.
  apply sys_req_gaps_keep in H3.
  - rewrite Forall_forall in H3. apply H3. apply list_elem_of_In, Hin.
  - apply emit_each_keeps; [apply no_children_gap_severity |].
    apply emit_each_keeps; [apply no_parent_gap_severity |]. constructor.
Qed.

(** The orphan lists [find_orphans] builds record each artifact's own type. *)
Lemma find_orphans_types (g : graph) (artifacts : dict artifact) (o : orphan) :
  In o (no_parent (find_orphans g artifacts)) ∨ In o (no_children (find_orphans g artifacts)) →
  ∃ art, In (o_artifact_id o, art) artifacts ∧ o_type o = a_type art.
Proof.
  unfold find_orphans.
  set (ok := fun l : list orphan =>
               ∀ o, In o l → ∃ art, In (o_artifact_id o, art) artifacts ∧ o_type o = a_type art).
  assert (Hinv : ∀ (todo : dict artifact) acc,
             (∀ x, In x todo → In x artifacts) →
             ok (no_parent acc) → ok (no_children acc) →
             ok (no_parent (fold_left (find_orphans_step g) todo acc))
             ∧ ok (no_children (fold_left (find_orphans_step g) todo acc))).
  { induction todo as [| [aid art] todo IH]; intros acc Hsub Hp Hc; simpl; [tauto |].
    apply IH.
    - intros x Hx. apply Hsub. right. exact Hx.
    - unfold find_orphans_step; cbn [no_parent].
      match goal with |- context [if ?b then _ else _] => destruct b end; [| exact Hp].
      intros o' Ho'. apply in_app_or in Ho' as [Ho' | [<- | []]]; [apply Hp, Ho' |].
      exists art. split; [apply Hsub; left; reflexivity | reflexivity].
    - unfold find_orphans_step; cbn [no_children].
      match goal with |- context [if ?b then _ else _] => destruct b end; [| exact Hc].
      intros o' Ho'. apply in_app_or in Ho' as [Ho' | [<- | []]]; [apply Hc, Ho' |].
      exists art. split; [apply Hsub; left; reflexivity | reflexivity]. }
  destruct (Hinv artifacts {| no_parent := []; no_children := []; isolated := [] |})
    as [Hp Hc]; try (intros ? []); [auto |].
  intros [H | H]; [apply Hp, H | apply Hc, H].
Qed.

End GapDetector.

(** C5, at a concrete run: the childless SYS-001 yields a critical gap. *)
Lemma identify_gaps_severity_witness :
  Analyzer.severity childless_gap = Analyzer.critical
  ∧ severity_by_impact uncovered_graph childless_gap.
Proof.
  split; [reflexivity |].
  refine (identify_gaps_severity 100 uncovered_graph uncovered_artifacts
            (Analyzer.find_orphans uncovered_graph uncovered_artifacts) _ childless_gap _ _).
  - vm_compute. reflexivity.
  - right. left. reflexivity.
Defined.

(** ** Chain enumeration *)

Section ChainEnumeration.

Lemma self_loop_children : Analyzer.children_of self_loop_graph "SYS-001" = ["SYS-001"].
Proof. vm_compute. reflexivity. Qed.

Lemma self_loop_dfs (limit : nat) :
  ∀ path, Analyzer.dfs limit self_loop_graph "SYS-001" path = Raise RecursionError.
Proof.
  induction limit as [| limit IH]; intros path; [reflexivity |].
  cbn [Analyzer.dfs]. rewrite self_loop_children. cbn [for_each].
  rewrite IH. reflexivity.
Qed.

(** C4, on [trace_chain_forward]: on a graph with a cycle the search has no
    visited set and exhausts every recursion limit; no list of chains is
    returned. *)
Theorem trace_chain_forward_cycle (limit : nat) :
  Analyzer.trace_chain_forward limit self_loop_graph "SYS-001" = Raise RecursionError.
Proof. apply self_loop_dfs. Qed.

(** On the decomposed SYS-001 the unguarded search returns its one chain. *)
Example trace_chain_forward_decomposed :
  Analyzer.trace_chain_forward 2 decomposed_only_graph "SYS-001"
  = Ok [["SYS-001"; "SYS-001-A"]].
Proof. vm_compute. reflexivity. Qed.

Lemma for_each_ok {A B : Type} (f : A → result (list B)) (l : list A) :
  (∀ x, In x l → ∃ ys, f x = Ok ys) → ∃ zs, for_each f l = Ok zs.
Proof.
  induction l as [| x l IH]; intros Hf; cbn [for_each]; [eauto |].
  destruct (Hf x) as [ys ->]; [left; reflexivity |].
  destruct IH as [zs ->]; [intros y Hy; apply Hf; right; exact Hy |].
  cbn [bind]. eauto.
Qed.

Lemma for_each_mono {A B : Type} (f f' : A → result (list B)) (l : list A) :
  (∀ x ys, In x l → f x = Ok ys → f' x = Ok ys) →
  ∀ zs, for_each f l = Ok zs → for_each f' l = Ok zs.
Proof.
  induction l as [| x l IH]; intros Hf zs; cbn [for_each]; [tauto |].
  destruct (f x) as [ys |] eqn:Hx; [| discriminate].
  rewrite (Hf x ys (or_introl eq_refl) Hx). cbn [bind].
  destruct (for_each f l) as [ws |] eqn:Hl; [| discriminate].
  rewrite (IH (fun y ys' Hy => Hf y ys' (or_intror Hy)) ws eq_refl). tauto.
Qed.

Lemma has_children_in_dom (g : graph) (node_id c : string) (cs : list string) :
  Analyzer.children_of g node_id = c :: cs → node_id ∈ dom (edges_down g).
Proof.
  unfold Analyzer.children_of. intros H. apply elem_of_dom.
  destruct (edges_down g !! node_id) as [l |] eqn:E; [exists l; reflexivity | discriminate H].
Qed.

(** The unguarded search returns when the edges descend a rank, that is,
    on an acyclic graph, within [rank start_id + 1] frames. *)
Theorem trace_chain_forward_ranked (g : graph) (rank : string → nat) (start_id : string)
    (limit : nat) :
  (∀ n c, In c (Analyzer.children_of g n) → (rank c < rank n)%nat) →
  (rank start_id < limit)%nat →
  ∃ chains, Analyzer.trace_chain_forward limit g start_id = Ok chains.
Proof.
  intros Hrank. unfold Analyzer.trace_chain_forward. generalize (@nil string) as path.
  revert start_id. induction limit as [| limit IH]; intros node_id path Hlt; [lia |].
  cbn [Analyzer.dfs].
  destruct (Analyzer.children_of g node_id) as [| c cs] eqn:Hch; [eauto |].
  apply for_each_ok. intros child Hchild. apply IH.
  rewrite <- Hch in Hchild. specialize (Hrank node_id child Hchild). lia.
Qed.

Lemma trace_chain_forward_ranked_witness :
  ∃ chains, Analyzer.trace_chain_forward 2 decomposed_only_graph "SYS-001" = Ok chains.
Proof.
  apply (trace_chain_forward_ranked decomposed_only_graph
           (fun n => if String.eqb n "SYS-001" then 1%nat else 0%nat)).
  - intros n c. unfold Analyzer.children_of, decomposed_only_graph. cbn [edges_down].
    destruct (decide (n = "SYS-001")) as [-> | Hn].
    + rewrite lookup_singleton_eq. cbn. intros [<- | []]. vm_compute. lia.
    + rewrite lookup_singleton_ne by congruence. intros [].
  - vm_compute. lia.
Defined.

(** The guarded search returns within [|dom edges_down| + 1] frames. *)
Lemma guarded_dfs_total (g : graph) (limit : nat) :
  ∀ node_id path (visited : gset string),
    (size (dom (edges_down g) ∖ visited) < limit)%nat →
    ∃ chains, HierarchicalAnalyzer.dfs limit g node_id path visited = Ok chains.
Proof.
  induction limit as [| limit IH]; intros node_id path visited Hsize; [lia |].
  cbn [HierarchicalAnalyzer.dfs].
  destruct (decide (node_id ∈ visited)) as [Hin | Hnot]; [eauto |].
  destruct (Analyzer.children_of g node_id) as [| c cs] eqn:Hch; [eauto |].
  apply for_each_ok. intros child _. apply IH.
  apply has_children_in_dom in Hch.
  assert (Hlt : dom (edges_down g) ∖ (visited ∪ {[node_id]}) ⊂ dom (edges_down g) ∖ visited)
    by set_solver.
  apply subset_size in Hlt. lia.
Qed.

(** The result of the guarded search does not depend on the limit, once
    the limit is enough. *)
Lemma guarded_dfs_mono (g : graph) (limit : nat) :
  ∀ (limit' : nat) node_id path (visited : gset string) chains,
    (limit ≤ limit')%nat →
    HierarchicalAnalyzer.dfs limit g node_id path visited = Ok chains →
    HierarchicalAnalyzer.dfs limit' g node_id path visited = Ok chains.
Proof.
  induction limit as [| limit IH]; intros limit' node_id path visited chains Hle;
    [discriminate |].
  destruct limit' as [| limit']; [lia |].
  cbn [HierarchicalAnalyzer.dfs].
  destruct (decide (node_id ∈ visited)); [tauto |].
  destruct (Analyzer.children_of g node_id) as [| c cs]; [tauto |].
  apply for_each_mono. intros child ys _. apply IH. lia.
Qed.

(** [_find_all_chains] is total: whatever the edges, cycles included, it
    returns a list of chains as soon as the recursion limit exceeds the
    number of nodes that have children, and that list is the same for
    every such limit. *)
Theorem find_all_chains_total (g : graph) (start_id : string) (limit : nat) :
  (size (dom (edges_down g)) < limit)%nat →
  ∃ chains,
    HierarchicalAnalyzer._find_all_chains limit start_id g = Ok chains
    ∧ ∀ limit' : nat, (limit ≤ limit')%nat →
        HierarchicalAnalyzer._find_all_chains limit' start_id g = Ok chains.
Proof.
  intros Hsize. unfold HierarchicalAnalyzer._find_all_chains.
  destruct (guarded_dfs_total g limit start_id [] ∅) as [chains Hrun].
  - replace (dom (edges_down g) ∖ ∅) with (dom (edges_down g)) by set_solver. exact Hsize.
  - exists chains. split; [exact Hrun |].
    intros limit' Hle. apply (guarded_dfs_mono g limit); assumption.
Qed.

(** [_find_all_chains] on the self-linked SYS-001: it returns (no chain
    reaches a leaf). *)
Lemma find_all_chains_total_witness :
  ∃ chains,
    HierarchicalAnalyzer._find_all_chains 2 "SYS-001" self_loop_graph = Ok chains
    ∧ ∀ limit' : nat, (2 ≤ limit')%nat →
        HierarchicalAnalyzer._find_all_chains limit' "SYS-001" self_loop_graph = Ok chains.
Proof.
  apply (find_all_chains_total self_loop_graph "SYS-001" 2).
  vm_compute. reflexivity.
Defined.

End ChainEnumeration.

(** ** Variable-name match *)

Section VariableNameMatch.

Import Linker.

Lemma contains_empty (hay : string) : contains hay "" = true.
Proof. destruct hay; reflexivity. Qed.

(** C10: a variable whose name is the empty string matches every LLR text
    exactly: score 1.0 with the 'Exact match' reason. *)
Theorem variable_name_empty_is_exact (llr variable : artifact) :
  a_name variable = Some "" →
  compute_variable_name_match llr variable = (1.0%Q, ["Exact match: '' in LLR text"]).
Proof.
  intros Hname. unfold compute_variable_name_match. rewrite Hname. cbn [default].
  rewrite contains_empty. reflexivity.
Qed.

Lemma variable_name_empty_is_exact_witness :
  compute_variable_name_match sample_llr unnamed_variable
  = (1.0%Q, ["Exact match: '' in LLR text"]).
Proof. apply (variable_name_empty_is_exact sample_llr unnamed_variable). reflexivity. Defined.

End VariableNameMatch.

(** ** The ID hierarchy resolver *)

Section IDHierarchy.

Import Linker.

Lemma span_app (p : ascii → bool) (a rest : string) :
  all_chars p a = true → stops p rest → span p (a +:+ rest) = (a, rest).
Proof.
  induction a as [| c a IH]; simpl; intros Ha Hrest.
  - destruct rest as [| c r]; [reflexivity |]. simpl in *. rewrite Hrest. reflexivity.
  - apply andb_true_iff in Ha as [Hc Ha]. rewrite Hc, (IH Ha Hrest). reflexivity.
Qed.

Lemma span_all (p : ascii → bool) (a : string) :
  all_chars p a = true → span p a = (a, "").
Proof.
  induction a as [| c a IH]; simpl; intros Ha; [reflexivity |].
  apply andb_true_iff in Ha as [Hc Ha]. rewrite Hc, (IH Ha). reflexivity.
Qed.

Lemma append_empty (s : string) : s +:+ "" = s.
Proof.
  induction s as [| c s IH]; [reflexivity |].
  change (String c (s +:+ "") = String c s). now rewrite IH.
Qed.

Lemma digit_not_upper (c : ascii) : is_digit c = true → is_upper c = false.
Proof.
  unfold is_digit, is_upper. intros H.
  apply andb_true_iff in H as [_ H]. apply Nat.leb_le in H.
  apply andb_false_iff. left. apply Nat.leb_gt. lia.
Qed.

Lemma class_word_nonempty (p : ascii → bool) (s : string) :
  class_word p s → nonempty s = true.
Proof. intros [Hne _]. destruct s; [contradiction | reflexivity]. Qed.

Lemma digits_stop_upper (d : string) : class_word is_digit d → stops is_upper d.
Proof.
  intros [Hne Hd]. destruct d as [| c r]; [exact I |]. cbn in *.
  apply andb_true_iff in Hd as [Hc _]. apply digit_not_upper, Hc.
Qed.

Lemma span_stops (p : ascii → bool) (s : string) : stops p s → span p s = ("", s).
Proof. destruct s as [| c r]; [reflexivity |]. cbn. intros ->. reflexivity. Qed.

(** The digits 0 to 9 are decimal digits of one byte. *)
Lemma digit1_is_digit (c : ascii) : is_digit c = true → digit1 c = true.
Proof.
  destruct c as [[] [] [] [] [] [] [] []]; vm_compute; intros H; (reflexivity || discriminate H).
Qed.

Lemma span_decimal_dash (r : string) :
  span_decimal (String "-"%char r) = ("", String "-"%char r).
Proof. destruct r as [| c2 [| c3 [| c4 r4]]]; reflexivity. Qed.

(** [\d+] reads a word of the digits 0 to 9 up to a dash or the end. *)
Lemma span_decimal_ascii (num rest : string) :
  all_chars is_digit num = true → at_dash rest →
  span_decimal (num +:+ rest) = (num, rest).
Proof.
  induction num as [| c num IH]; intros Hnum Hrest.
  - change ("" +:+ rest) with rest. destruct rest as [| c r]; [reflexivity |].
    cbn in Hrest. subst c. apply span_decimal_dash.
  - cbn in Hnum. apply andb_true_iff in Hnum as [Hc Hnum].
    change (String c num +:+ rest) with (String c (num +:+ rest)).
    cbn [span_decimal]. rewrite (digit1_is_digit c Hc), (IH Hnum Hrest). reflexivity.
Qed.

Lemma optional_group_some (run : string → string * string) (w rest : string) :
  run (w +:+ rest) = (w, rest) → nonempty w = true →
  optional_group run ("-" +:+ w +:+ rest) = (Some w, rest).
Proof.
  intros Hrun Hne. change ("-" +:+ w +:+ rest) with (String "-"%char (w +:+ rest)).
  unfold optional_group. rewrite Hrun, Hne. reflexivity.
Qed.

Lemma optional_group_none (run : string → string * string) (s : string) :
  match s with
  | String "-"%char r => fst (run r) = ""
  | _ => True
  end →
  optional_group run s = (None, s).
Proof.
  unfold optional_group. destruct s as [| c r]; [reflexivity |].
  destruct (Ascii.eqb_spec c "-"%char) as [-> | Hc].
  - destruct (run r) as [grp rest]. cbn [fst]. intros ->. reflexivity.
  - intros _. destruct c as [[] [] [] [] [] [] [] []]; try reflexivity. contradiction Hc.
    reflexivity.
Qed.

(** The pattern reads a conforming identifier back into its four groups. *)
Lemma match_id_conforming (pre num : string) (letter subnum : option string) :
  class_word is_upper pre → class_word is_digit num →
  opt_class_word is_upper letter → opt_class_word is_digit subnum →
  match_id (conforming_id pre num letter subnum) = Some (pre, num, letter, subnum).
Proof.
  intros Hpre Hnum Hletter Hsub. unfold match_id.
  change (conforming_id pre num letter subnum)
    with (pre +:+ String "-"%char (num +:+ (dash letter +:+ dash subnum))).
  rewrite (span_app is_upper pre _ (proj2 Hpre)) by reflexivity.
  rewrite (class_word_nonempty _ _ Hpre). cbv beta iota.
  assert (Hsub5 : optional_group span_decimal (dash subnum) = (subnum, "")).
  { destruct subnum as [d |]; [| reflexivity]. unfold dash.
    rewrite <- (append_empty d) at 1.
    apply optional_group_some; [| apply (class_word_nonempty _ _ Hsub)].
    apply span_decimal_ascii; [exact (proj2 Hsub) | exact I]. }
  assert (Hstop : at_dash (dash letter +:+ dash subnum)).
  { destruct letter; [reflexivity |]. destruct subnum; reflexivity. }
  rewrite (span_decimal_ascii num _ (proj2 Hnum) Hstop).
  rewrite (class_word_nonempty _ _ Hnum).
  destruct letter as [l |].
  - change (dash (Some l) +:+ dash subnum) with ("-" +:+ l +:+ dash subnum).
    rewrite (optional_group_some (span is_upper) l (dash subnum)).
    + rewrite Hsub5. reflexivity.
    + apply span_app; [exact (proj2 Hletter) |]. destruct subnum; reflexivity.
    + apply (class_word_nonempty _ _ Hletter).
  - change (dash None +:+ dash subnum) with (dash subnum).
    rewrite (optional_group_none (span is_upper) (dash subnum)).
    + rewrite Hsub5. reflexivity.
    + destruct subnum as [d |]; [| exact I].
      change ((span is_upper d).1 = "").
      rewrite (span_stops is_upper d (digits_stop_upper d Hsub)). reflexivity.
Qed.

(** C8, amended: on a conforming identifier the resolver answers SYS-NUMBER
    for an HLR with a letter suffix (the suffix is dropped), HLR-NUMBER-SUFFIX
    for an LLR with a letter suffix (the numeric sub-suffix is dropped), and
    no parent otherwise. *)
Theorem extract_id_hierarchy_parent_ref (pre num : string) (letter subnum : option string) :
  class_word is_upper pre → class_word is_digit num →
  opt_class_word is_upper letter → opt_class_word is_digit subnum →
  parent_ref (extract_id_hierarchy (conforming_id pre num letter subnum)) =
    match letter with
    | Some l =>
        if String.eqb pre "HLR" then Some ("SYS-" +:+ num)
        else if String.eqb pre "LLR" then Some ("HLR-" +:+ num +:+ "-" +:+ l)
        else None
    | None => None
    end.
Proof.
  intros Hpre Hnum Hletter Hsub. unfold extract_id_hierarchy.
  rewrite (match_id_conforming pre num letter subnum Hpre Hnum Hletter Hsub).
  cbn [parent_ref]. destruct letter as [l |]; [| reflexivity].
  destruct (String.eqb pre "HLR"); [reflexivity |].
  destruct (String.eqb pre "LLR"); [| reflexivity]. destruct subnum; reflexivity.
Qed.

(** C8, at HLR-001-A: the implied parent is SYS-001. *)
Lemma extract_id_hierarchy_parent_ref_witness :
  parent_ref (extract_id_hierarchy "HLR-001-A") = Some "SYS-001".
Proof.
  apply (extract_id_hierarchy_parent_ref "HLR" "001" (Some "A") None);
    cbn; try split; try discriminate; reflexivity.
Defined.

(** C8, refuted as stated: for HLR-001-A the resolver does not answer
    SYS-001-A. *)
Lemma extract_id_hierarchy_hlr_001_a :
  parent_ref (extract_id_hierarchy "HLR-001-A") = Some "SYS-001"
  ∧ parent_ref (extract_id_hierarchy "HLR-001-A") ≠ Some "SYS-001-A".
Proof. split; [reflexivity | discriminate]. Qed.

End IDHierarchy.

(** ** The combined score *)

Section CombinedScore.

Import Linker.
Local Open Scope Q_scope.

Lemma Qlt_bool_true (x y : Q) : Qlt_bool x y = true ↔ x < y.
Proof.
  unfold Qlt_bool. rewrite negb_true_iff. split.
  - intros H. apply Qnot_le_lt. intros Hle. apply Qle_bool_iff in Hle. congruence.
  - intros H. destruct (Qle_bool y x) eqn:E; [| reflexivity].
    apply Qle_bool_iff in E. lra.
Qed.

Lemma Qlt_bool_false (x y : Q) : Qlt_bool x y = false ↔ y <= x.
Proof.
  unfold Qlt_bool. rewrite negb_false_iff. apply Qle_bool_iff.
Qed.

Lemma py_min_le_l (a b : Q) : py_min a b <= a.
Proof.
  unfold py_min. destruct (Qlt_bool b a) eqn:E.
  - apply Qlt_bool_true in E. lra.
  - lra.
Qed.

Lemma py_min_glb (a b c : Q) : c <= a → c <= b → c <= py_min a b.
Proof. unfold py_min. destruct (Qlt_bool b a); tauto. Qed.

Lemma py_min_mono (a b b' : Q) : b <= b' → py_min a b <= py_min a b'.
Proof.
  unfold py_min. intros H.
  destruct (Qlt_bool b a) eqn:E; destruct (Qlt_bool b' a) eqn:E';
    try apply Qlt_bool_true in E; try apply Qlt_bool_true in E';
    try apply Qlt_bool_false in E; try apply Qlt_bool_false in E'; lra.
Qed.

Lemma scale_mono (w x y : Q) : 0 <= w → x <= y → w * x <= w * y.
Proof.
  intros Hw Hxy. assert (0 <= w * (y - x)) by (apply Qmult_le_0_compat; lra). lra.
Qed.

Lemma default_weights_nonneg : nonneg_weights default_weights.
Proof. repeat split; cbn; lra. Qed.

(** C7, amended: the combined score never exceeds 1; with non-negative
    weights it is at least 0 when the signals and the boost are non-negative
    as well, and it is non-decreasing in the embedding similarity, the
    keyword score, the quantity flag, the name score and the ID boost, each
    with the others fixed. The code caps the score from above only. *)
Theorem combined_score_bounded_monotone (w : option weights) (e k : Q) (q : bool) (n b : Q) :
  compute_combined_score e k q n b w <= 1
  ∧ (nonneg_weights (default default_weights w) →
     (0 <= e → 0 <= k → 0 <= n → 0 <= b → 0 <= compute_combined_score e k q n b w)
     ∧ (∀ e', e <= e' →
          compute_combined_score e k q n b w <= compute_combined_score e' k q n b w)
     ∧ (∀ k', k <= k' →
          compute_combined_score e k q n b w <= compute_combined_score e k' q n b w)
     ∧ (compute_combined_score e k false n b w <= compute_combined_score e k true n b w)
     ∧ (∀ n', n <= n' →
          compute_combined_score e k q n b w <= compute_combined_score e k q n' b w)
     ∧ (∀ b', b <= b' →
          compute_combined_score e k q n b w <= compute_combined_score e k q n b' w)).
Proof.
  unfold compute_combined_score.
  set (ws := default default_weights w).
  split; [apply Qle_trans with 1.0; [apply py_min_le_l | unfold Qle; simpl; lia] |].
  intros (He & Hk & Hq & Hn). split.
  { intros. apply py_min_glb; [unfold Qle; simpl; lia |].
    pose proof (Qmult_le_0_compat _ _ He H).
    pose proof (Qmult_le_0_compat _ _ Hk H0).
    pose proof (Qmult_le_0_compat _ _ Hn H1).
    assert (0 <= w_quantity ws * (if q then 1.0 else 0.0)) by (destruct q; lra).
    lra. }
  repeat split; intros; apply py_min_mono.
  - pose proof (scale_mono _ _ _ He H). lra.
  - pose proof (scale_mono _ _ _ Hk H). lra.
  - assert (w_quantity ws * 0.0 <= w_quantity ws * 1.0) by (apply scale_mono; lra). lra.
  - pose proof (scale_mono _ _ _ Hn H). lra.
  - lra.
Qed.

(** C7, refuted as stated: with the default weights a negative embedding
    similarity gives a score below 0, and with a negative weight the score
    decreases as the embedding similarity grows. *)
Lemma combined_score_below_zero :
  compute_combined_score (-0.5) 0 false 0 0 None < 0
  ∧ compute_combined_score 1 0 false 0 0 (Some inverted_weights)
    < compute_combined_score 0 0 false 0 0 (Some inverted_weights).
Proof. split; vm_compute; reflexivity. Qed.

(** C7, with the default weights at one tuple of signals. *)
Lemma combined_score_bounded_monotone_witness :
  compute_combined_score 0.4 0.3 true 0 0.2 None <= 1
  ∧ compute_combined_score 0.4 0.3 false 0 0.2 None
    <= compute_combined_score 0.4 0.3 true 0 0.2 None.
Proof.
  pose proof (combined_score_bounded_monotone None 0.4 0.3 true 0 0.2) as (Hle & _).
  pose proof (combined_score_bounded_monotone None 0.4 0.3 false 0 0.2) as (_ & Hmono).
  destruct (Hmono default_weights_nonneg) as (_ & _ & _ & Hq & _).
  split; [exact Hle | exact Hq].
Defined.

End CombinedScore.

(** ** The quality gate *)

Section QualityGate.

Import Linker.
Local Open Scope Q_scope.

Lemma Qgt_bool_true (x y : Q) : Qgt_bool x y = true ↔ y < x.
Proof. apply (Qlt_bool_true y x). Qed.

Lemma Qgt_bool_count (x y : Q) :
  (if Qgt_bool x y then 1 else 0)%nat = (if Qlt_le_dec y x then 1 else 0)%nat.
Proof.
  destruct (Qgt_bool x y) eqn:E; destruct (Qlt_le_dec y x) as [Hlt | Hle]; try reflexivity.
  - apply Qgt_bool_true in E. lra.
  - apply Qgt_bool_true in Hlt. congruence.
Qed.

Lemma strong_signal_bool (emb kw : Q) :
  Qgt_bool kw 0.20 || Qgt_bool emb 0.30 || (Qgt_bool emb 0.20 && Qgt_bool kw 0.12) = true ↔
  strong_signal emb kw.
Proof.
  unfold strong_signal.
  rewrite !orb_true_iff, andb_true_iff, !Qgt_bool_true. tauto.
Qed.

(** The gate of [HierarchicalLinker] is conservative: with at least two
    signals required (the default), what it accepts has a strong signal or
    two moderate ones. *)
Theorem hierarchical_gate_conservative (config : linking_config)
    (combined emb kw : Q) (qty : bool) (name boost : Q) :
  (2 ≤ default 2%nat (min_combined_signals (filters config)))%nat →
  HierarchicalLinker._passes_quality_filters config combined emb kw qty name boost = true →
  strong_signal emb kw ∨ (2 ≤ moderate_signals emb kw qty name boost)%nat.
Proof.
  unfold HierarchicalLinker._passes_quality_filters, moderate_signals. intros Hmin.
  destruct (Qlt_bool combined _); [discriminate |].
  destruct (_ || _ || _) eqn:Hstrong.
  - intros _. left. apply strong_signal_bool, Hstrong.
  - rewrite !Qgt_bool_count. intros Hcount. apply Nat.leb_le in Hcount. right. lia.
Qed.

Lemma hierarchical_gate_conservative_witness :
  strong_signal 0.15 0.06 ∨ (2 ≤ moderate_signals 0.15 0.06 false 0 0)%nat.
Proof.
  apply (hierarchical_gate_conservative default_config 0.0825 0.15 0.06 false 0 0).
  - vm_compute. lia.
  - vm_compute. reflexivity.
Defined.

(** The gate of [LinkManager]: what it accepts has a strong signal, two
    moderate ones, or an ID boost above 0.10. *)
Theorem link_manager_gate_accepts (config : linking_config) (md : match_details)
    (source target : artifact) :
  (2 ≤ default 2%nat (min_combined_signals (filters config)))%nat →
  Linker._passes_quality_filters config md source target = true →
  strong_signal (embedding_similarity md) (keyword_score md)
  ∨ (2 ≤ moderate_signals (embedding_similarity md) (keyword_score md) (quantity_match md)
           (name_match_score md) (id_boost md))%nat
  ∨ 0.10 < id_boost md.
Proof.
  unfold Linker._passes_quality_filters, moderate_signals. intros Hmin.
  destruct (Qlt_bool (embedding_similarity md) _); [discriminate |].
  destruct (_ || _ || _) eqn:Hstrong.
  - intros _. left. apply strong_signal_bool, Hstrong.
  - rewrite !Qgt_bool_count.
    destruct (_ <=? _)%nat eqn:Hcount.
    + intros _. apply Nat.leb_le in Hcount. right. left. lia.
    + destruct (Qgt_bool (id_boost md) 0.10) eqn:Hboost; [| discriminate].
      intros _. right. right. apply Qgt_bool_true, Hboost.
Qed.

Lemma link_manager_gate_accepts_witness :
  strong_signal (embedding_similarity naming_only_match) (keyword_score naming_only_match)
  ∨ (2 ≤ moderate_signals (embedding_similarity naming_only_match)
           (keyword_score naming_only_match) (quantity_match naming_only_match)
           (name_match_score naming_only_match) (id_boost naming_only_match))%nat
  ∨ 0.10 < id_boost naming_only_match.
Proof.
  apply (link_manager_gate_accepts default_config naming_only_match
           (requirement "HLR-001-A" "HLR") (requirement "LLR-001-A-1" "LLR")).
  - vm_compute. lia.
  - vm_compute. reflexivity.
Defined.

(** C1, on [LinkManager._passes_quality_filters]: the special case for the
    ID boost accepts a candidate whose only signal is the ID boost itself:
    no strong signal and one moderate signal. *)
Theorem link_manager_gate_single_signal :
  Linker._passes_quality_filters default_config naming_only_match
    (requirement "HLR-001-A" "HLR") (requirement "LLR-001-A-1" "LLR") = true
  ∧ ¬ strong_signal (embedding_similarity naming_only_match)
        (keyword_score naming_only_match)
  ∧ moderate_signals (embedding_similarity naming_only_match)
      (keyword_score naming_only_match) (quantity_match naming_only_match)
      (name_match_score naming_only_match) (id_boost naming_only_match) = 1%nat.
Proof.
  split; [vm_compute; reflexivity |]. split.
  - unfold strong_signal. cbn [embedding_similarity keyword_score naming_only_match].
    intros [H | [H | [H _]]]; vm_compute in H; discriminate.
  - vm_compute. reflexivity.
Qed.

End QualityGate.

(** ** LLM adjudication *)

Section LLMAdjudication.

Import Linker HierarchicalLinker.
Local Open Scope Q_scope.

Lemma validate_below_floor (candidates : list candidate) (selected : list selected_target) :
  Forall below_floor selected → validate_all candidates selected = Some [].
Proof.
  induction 1 as [| sel rest Hsel _ IH]; [reflexivity |].
  cbn [validate_all]. rewrite IH.
  unfold validate_selected, below_floor in *.
  destruct (sel_confidence sel) as [| | c]; [contradiction | reflexivity |].
  unfold Qge_bool. destruct (Qle_bool 0.6 c) eqn:E; [| reflexivity].
  apply Qle_bool_iff in E. lra.
Qed.

Lemma fallback_nonempty (why : string) (candidates : list candidate) :
  candidates ≠ [] → map (accept why) (firstn 3 (firstn 10 candidates)) ≠ [].
Proof. destruct candidates; [contradiction | discriminate]. Qed.

Lemma find_candidate_some (tid : string) (candidates : list candidate) :
  (∃ cand, In cand candidates ∧ c_target_id cand = tid) ↔
  ∃ cand, find_candidate tid candidates = Some cand.
Proof.
  unfold find_candidate. split.
  - intros (cand & Hin & Htid).
    destruct (List.find _ candidates) as [found |] eqn:Hfind; [eauto |].
    apply (find_none _ _ Hfind) in Hin. rewrite Htid, String.eqb_refl in Hin. discriminate.
  - intros (cand & Hfind). apply find_some in Hfind as [Hin Htid].
    apply String.eqb_eq in Htid. eauto.
Qed.

Lemma validate_selected_raises (candidates : list candidate) (sel : selected_target) :
  validate_selected candidates sel = None ↔ entry_raises candidates sel.
Proof.
  unfold validate_selected, entry_raises.
  destruct (sel_confidence sel) as [| | c]; [tauto | split; [discriminate | tauto] |].
  unfold Qge_bool. destruct (Qle_bool 0.6 c) eqn:Hc.
  2: { split; [discriminate |]. intros [Hle _]. apply Qle_bool_iff in Hle. congruence. }
  apply Qle_bool_iff in Hc.
  destruct candidates as [| c0 cs]; [split; [discriminate | intros (_ & H & _); congruence] |].
  destruct (sel_target_id sel) as [tid |];
    [| split; [intros _; split; [exact Hc |]; split; [discriminate | exact I] | reflexivity]].
  destruct (find_candidate tid (c0 :: cs)) as [cand |] eqn:Hfind.
  - destruct (sel_reasoning sel) as [why |].
    + split; [discriminate |]. intros (_ & _ & _ & H). discriminate H.
    + split; [| reflexivity]. intros _. split; [exact Hc |]. split; [discriminate |].
      split; [| reflexivity]. apply find_candidate_some. eauto.
  - split; [discriminate |]. intros (_ & _ & H & _).
    apply find_candidate_some in H as (cand & H). congruence.
Qed.

(** The validation loop raises exactly when one of the entries does. *)
Lemma validate_all_raises (candidates : list candidate) (selected : list selected_target) :
  validate_all candidates selected = None ↔ Exists (entry_raises candidates) selected.
Proof.
  induction selected as [| sel rest IH]; cbn [validate_all].
  - split; [discriminate |]. intros H. apply Exists_nil in H. destruct H.
  - rewrite Exists_cons, <- IH, <- validate_selected_raises.
    destruct (validate_selected candidates sel) as [vs |]; [| tauto].
    destruct (validate_all candidates rest) as [ws |];
      split; try discriminate; try tauto; intros [H | H]; discriminate H.
Qed.

(** C3, amended: the fallback to the top-3 candidates is taken when the
    response is unparsable JSON, when the call raises, and when the reading
    of a parsed response raises on one of its entries; then a non-empty
    candidate list gives a non-empty result. When the response parses and no
    selected target passes the 0.6 floor there is no fallback: the result
    is empty. *)
Theorem llm_select_targets_fallback (client : llm_client) (source : artifact)
    (candidates : list candidate) :
  (client source (firstn 10 candidates) = JSONDecodeError →
   _llm_select_targets client source candidates
   = map (accept "JSON parse failed, using multi-signal match") (firstn 3 candidates))
  ∧ (client source (firstn 10 candidates) = CallRaised →
     _llm_select_targets client source candidates
     = map (accept "LLM unavailable, using multi-signal match") (firstn 3 candidates))
  ∧ (∀ selected,
       client source (firstn 10 candidates) = Parsed selected →
       Exists (entry_raises (firstn 10 candidates)) selected →
       _llm_select_targets client source candidates
       = map (accept "LLM unavailable, using multi-signal match") (firstn 3 candidates))
  ∧ (candidates ≠ [] →
     client source (firstn 10 candidates) = JSONDecodeError
     ∨ client source (firstn 10 candidates) = CallRaised
     ∨ (∃ selected,
          client source (firstn 10 candidates) = Parsed selected
          ∧ Exists (entry_raises (firstn 10 candidates)) selected) →
     _llm_select_targets client source candidates ≠ [])
  ∧ (∀ selected,
       client source (firstn 10 candidates) = Parsed selected →
       Forall below_floor selected →
       _llm_select_targets client source candidates = []).
Proof.
  assert (Htop : firstn 3 (firstn 10 candidates) = firstn 3 candidates)
    by (rewrite firstn_firstn; reflexivity).
  unfold _llm_select_targets. repeat split.
  - intros ->. rewrite Htop. reflexivity.
  - intros ->. rewrite Htop. reflexivity.
  - intros selected -> Hraises. apply validate_all_raises in Hraises. rewrite Hraises, Htop.
    reflexivity.
  - intros Hne [-> | [-> | (selected & -> & Hraises)]]; try apply fallback_nonempty, Hne.
    apply validate_all_raises in Hraises. rewrite Hraises. apply fallback_nonempty, Hne.
  - intros selected -> Hlow. rewrite (validate_below_floor _ _ Hlow). reflexivity.
Qed.

(** C3, refuted as stated: the response parses, no selected target passes
    the floor, and the linker accepts nothing for a source with two
    candidates. *)
Lemma llm_select_targets_no_fallback :
  select_targets (Some hesitant_client) true
    (requirement "SYS-001-A" "SYSTEM_REQ_DECOMPOSED") two_candidates = [].
Proof. vm_compute. reflexivity. Qed.

(** The reading of a parsed reply raises on an entry without 'confidence':
    both candidates are accepted at their own scores. *)
Lemma llm_select_targets_key_error :
  select_targets (Some careless_client) true
    (requirement "SYS-001-A" "SYSTEM_REQ_DECOMPOSED") two_candidates
  = map (accept "LLM unavailable, using multi-signal match") two_candidates.
Proof. vm_compute. reflexivity. Qed.

End LLMAdjudication.

(** ** Candidate generation *)

Section DescendingSort.

Import Linker.
Local Open Scope Q_scope.

Context {A : Type} (key : A → Q).

Lemma insert_desc_perm (x : A) (l : list A) : Permutation (insert_desc key x l) (x :: l).
Proof.
  induction l as [| y l IH]; cbn [insert_desc]; [reflexivity |].
  destruct (Qlt_bool (key x) (key y)); [| reflexivity].
  rewrite IH. apply perm_swap.
Qed.

Lemma sort_desc_perm (l : list A) : Permutation (sort_desc key l) l.
Proof.
  induction l as [| x l IH]; [reflexivity |].
  unfold sort_desc in *. cbn [fold_right]. rewrite insert_desc_perm, IH. reflexivity.
Qed.

Lemma insert_desc_sorted (x : A) (l : list A) :
  StronglySorted (before key) l → StronglySorted (before key) (insert_desc key x l).
Proof.
  induction 1 as [| y l Hl IH Hy]; cbn [insert_desc].
  - repeat constructor.
  - destruct (Qlt_bool (key x) (key y)) eqn:E.
    + apply Qlt_bool_true in E. constructor; [exact IH |].
      apply (Permutation_Forall (Permutation_sym (insert_desc_perm x l))).
      constructor; [unfold before; lra | exact Hy].
    + apply Qlt_bool_false in E. constructor; [constructor; assumption |].
      constructor; [exact E |].
      rewrite Forall_forall in Hy |- *. intros z Hz. specialize (Hy z Hz).
      unfold before in *. lra.
Qed.

Lemma sort_desc_sorted (l : list A) : StronglySorted (before key) (sort_desc key l).
Proof.
  induction l as [| x l IH]; [constructor |].
  apply (insert_desc_sorted x _ IH).
Qed.

Lemma firstn_sorted (n : nat) (l : list A) :
  StronglySorted (before key) l → StronglySorted (before key) (firstn n l).
Proof.
  intros Hl. revert n. induction Hl as [| x l Hl IH Hx]; intros [| n]; cbn [firstn];
    try constructor.
  - apply IH.
  - apply Forall_take, Hx.
Qed.

Lemma in_firstn (n : nat) (l : list A) (x : A) : In x (firstn n l) → In x l.
Proof.
  intros Hx. rewrite <- (firstn_skipn n l). apply in_or_app. left. exact Hx.
Qed.

Lemma firstn_sort_desc_in (n : nat) (l : list A) (x : A) :
  In x (firstn n (sort_desc key l)) → In x l.
Proof.
  intros Hx. apply (Permutation_in x (sort_desc_perm l)).
  apply (in_firstn n _ x Hx).
Qed.

End DescendingSort.

Section CandidateGeneration.

Import Linker.
Local Open Scope Q_scope.

Lemma in_flat_map_option {A B : Type} (f : A → option B) (l : list A) (y : B) :
  In y (flat_map (fun x => option_list (f x)) l) → ∃ x, In x l ∧ f x = Some y.
Proof.
  intros Hy. apply in_flat_map in Hy as (x & Hx & Hy). exists x. split; [exact Hx |].
  destruct (f x) as [y' |]; [| destruct Hy]. destruct Hy as [-> | []]. reflexivity.
Qed.

(** What [LinkManager.find_candidates] keeps of a neighbour. *)
Lemma link_manager_entry (artifacts : dict artifact) (config : linking_config)
    (sid : string) (source : artifact) (target_type : string) (n : string * Q)
    (cid : string) (score : Q) (md : match_details) :
  Linker.candidate_entry artifacts config sid source target_type n = Some (cid, score, md) →
  cid ≠ sid ∧ ∃ art, dict_get artifacts cid = Some art ∧ a_type art = target_type.
Proof.
  unfold Linker.candidate_entry. destruct n as [cand emb].
  destruct (String.eqb_spec cand sid) as [| Hne]; [discriminate |].
  destruct (dict_get artifacts cand) as [art |] eqn:Hart; [| discriminate].
  destruct (String.eqb_spec (a_type art) target_type) as [Htype |]; [| discriminate].
  cbn [negb].
  destruct (compute_keyword_score source art), (compute_quantity_match source art).
  destruct (if String.eqb target_type "CODE_VAR" then _ else _).
  destruct (Linker._passes_quality_filters _ _ _ _); [| discriminate].
  intros [= <- _ _]. split; [exact Hne |]. exists art. split; [exact Hart | exact Htype].
Qed.

(** [LinkManager.find_candidates]: every candidate is an artifact of the
    target type other than the source; the list is sorted by combined score,
    greatest first; and it is no longer than [top_k] and
    [max_links_per_source]. *)
Theorem link_manager_find_candidates (artifacts : dict artifact) (idx : indexer)
    (config : linking_config) (sid target_type : string) (top_k : nat)
    (results : list (string * Q * match_details)) :
  find_candidates artifacts idx config sid target_type top_k = Ok results →
  Forall (fun r => fst (fst r) ≠ sid
                   ∧ ∃ art, dict_get artifacts (fst (fst r)) = Some art
                            ∧ a_type art = target_type) results
  ∧ StronglySorted (before (fun r => snd (fst r))) results
  ∧ (List.length results ≤ top_k)%nat
  ∧ (List.length results ≤ default 8%nat (max_links_per_source (filters config)))%nat.
Proof.
  unfold find_candidates.
  destruct (dict_index artifacts sid) as [source |]; [| discriminate]. cbn [bind].
  destruct (get_embedding idx sid) as [emb |].
  2: { intros [= <-]. repeat split; try constructor; cbn; lia. }
  intros [= <-]. repeat split.
  - apply Forall_forall. intros [[cid score] md] Hin.
    apply list_elem_of_In, firstn_sort_desc_in, in_flat_map_option in Hin as (n & _ & Hn).
    apply (link_manager_entry _ _ _ _ _ _ _ _ _ Hn).
  - apply firstn_sorted, sort_desc_sorted.
  - rewrite length_firstn. lia.
  - rewrite length_firstn. lia.
Qed.

(** What [HierarchicalLinker._find_candidates] keeps of a neighbour. *)
Lemma hierarchical_entry (artifacts : dict artifact) (config : linking_config)
    (source : artifact) (target_type : string) (threshold : Q) (n : string * Q)
    (c : HierarchicalLinker.candidate) :
  HierarchicalLinker.candidate_entry artifacts config source target_type threshold n = Some c →
  ∃ art, dict_get artifacts (HierarchicalLinker.c_target_id c) = Some art
         ∧ a_type art = target_type.
Proof.
  unfold HierarchicalLinker.candidate_entry. destruct n as [tid emb].
  destruct (dict_get artifacts tid) as [art |] eqn:Hart; [| discriminate].
  destruct (String.eqb_spec (a_type art) target_type) as [Htype |]; [| discriminate].
  cbn [negb].
  destruct (compute_keyword_score source art), (compute_quantity_match source art).
  destruct (negb _); [discriminate |]. destruct (Qge_bool _ _); [| discriminate].
  intros [= <-]. exists art. split; [exact Hart | exact Htype].
Qed.

(** [HierarchicalLinker._find_candidates]: every candidate is an artifact
    of the target type; the list is sorted by combined score, greatest
    first, and no longer than [top_k]; and no candidate is the source itself
    when the source is an artifact of another type than the target type. *)
Theorem hierarchical_find_candidates (artifacts : dict artifact) (idx : indexer)
    (config : linking_config) (source : artifact) (target_type : string) (threshold : Q)
    (top_k : nat) :
  let results :=
    HierarchicalLinker._find_candidates artifacts idx config source target_type threshold
      top_k in
  Forall (fun c => ∃ art, dict_get artifacts (HierarchicalLinker.c_target_id c) = Some art
                          ∧ a_type art = target_type) results
  ∧ StronglySorted (before HierarchicalLinker.c_score) results
  ∧ (List.length results ≤ top_k)%nat
  ∧ (dict_get artifacts (a_id source) = Some source → a_type source ≠ target_type →
     Forall (fun c => HierarchicalLinker.c_target_id c ≠ a_id source) results).
Proof.
  cbv zeta. unfold HierarchicalLinker._find_candidates.
  destruct (get_embedding idx (a_id source)) as [emb |].
  2: { repeat split; try constructor; cbn; lia. }
  assert (Htype : Forall (fun c => ∃ art,
                      dict_get artifacts (HierarchicalLinker.c_target_id c) = Some art
                      ∧ a_type art = target_type)
            (firstn top_k (sort_desc HierarchicalLinker.c_score
               (flat_map (fun n => option_list
                  (HierarchicalLinker.candidate_entry artifacts config source target_type
                     threshold n))
                  (search_similar idx emb (top_k * 2) (embedding_threshold config)))))).
  { apply Forall_forall. intros c Hin.
    apply list_elem_of_In, firstn_sort_desc_in, in_flat_map_option in Hin as (n & _ & Hn).
    apply (hierarchical_entry _ _ _ _ _ _ _ Hn). }
  repeat split.
  - exact Htype.
  - apply firstn_sorted, sort_desc_sorted.
  - rewrite length_firstn. lia.
  - intros Hsrc Hne. apply (Forall_impl _ _ _ Htype). intros c (art & Hart & Ht) Heq.
    rewrite Heq, Hsrc in Hart. injection Hart as <-. contradiction.
Qed.

(** C6, on [HierarchicalLinker._find_candidates]: with the default
    configuration, whose limit of links per source is 15, a source with
    sixteen matching targets gets sixteen candidates, and [_link_layer]
    makes sixteen links of them; [LinkManager.find_candidates] on the same
    input, asked for the same 20, stops at 15. *)
Theorem hierarchical_find_candidates_over_limit :
  max_links_per_source (filters default_config) = Some 15%nat
  ∧ List.length
      (HierarchicalLinker._find_candidates crowded_artifacts crowded_indexer default_config
         altitude_hlr "LLR" (0.25 * 0.7) 20) = 16%nat
  ∧ map source_id
      (HierarchicalLinker._link_layer crowded_artifacts crowded_indexer default_config None
         "HLR" "LLR" true)
    = repeat "HLR-001-A" 16
  ∧ option_map (@List.length _)
      (match find_candidates crowded_artifacts crowded_indexer default_config "HLR-001-A"
               "LLR" 20 with
       | Ok results => Some results
       | Raise _ => None
       end) = Some 15%nat.
Proof. repeat split; vm_compute; reflexivity. Qed.

Lemma link_manager_find_candidates_witness :
  map (fun r => fst (fst r)) layered_results = ["LLR-001-A-1"]
  ∧ Forall (fun r => fst (fst r) ≠ "HLR-001-A"
                     ∧ ∃ art, dict_get layered_artifacts (fst (fst r)) = Some art
                              ∧ a_type art = "LLR") layered_results.
Proof.
  split; [vm_compute; reflexivity |].
  apply (link_manager_find_candidates layered_artifacts layered_indexer default_config
           "HLR-001-A" "LLR" 10 layered_results).
  vm_compute. reflexivity.
Defined.

End CandidateGeneration.

(** * Further properties *)

(** ** The scoring signals *)

Section ScoringSignals.

Import Linker.
Local Open Scope Q_scope.

Lemma quantities_equal_sym (q1 q2 : quantity) :
  quantities_equal q1 q2 = quantities_equal q2 q1.
Proof.
  unfold quantities_equal.
  destruct (q_value q1) as [v1 |], (q_value q2) as [v2 |]; try reflexivity.
  rewrite (Qabs_Qminus v1 v2), (String.eqb_sym (normalize_unit (q_unit q1))). reflexivity.
Qed.

Lemma matched_pairs (src tgt : list quantity) (x : quantity) :
  In x (flat_map (fun sq =>
          flat_map (fun tq => if quantities_equal sq tq then [sq] else []) tgt) src)
  ↔ ∃ tq, In x src ∧ In tq tgt ∧ quantities_equal x tq = true.
Proof.
  rewrite in_flat_map. split.
  - intros (sq & Hsq & Hx). apply in_flat_map in Hx as (tq & Htq & Hx).
    destruct (quantities_equal sq tq) eqn:E; [| destruct Hx]. destruct Hx as [<- | []].
    eauto.
  - intros (tq & Hx & Htq & E). exists x. split; [exact Hx |].
    apply in_flat_map. exists tq. split; [exact Htq |]. rewrite E. left. reflexivity.
Qed.

(** The flag of [compute_quantity_match] says that some pair of quantities
    is equal. *)
Lemma quantity_match_flag (source target : artifact) :
  fst (compute_quantity_match source target) = true ↔
  ∃ sq tq, In sq (quantities (a_extracted source))
           ∧ In tq (quantities (a_extracted target))
           ∧ quantities_equal sq tq = true.
Proof.
  unfold compute_quantity_match.
  destruct (quantities (a_extracted source)) as [| s0 src].
  { cbn. split; [discriminate | intros (? & ? & [] & _)]. }
  destruct (quantities (a_extracted target)) as [| t0 tgt].
  { cbn. split; [discriminate | intros (? & ? & _ & [] & _)]. }
  cbv beta iota. cbn [fst]. rewrite negb_true_iff, Nat.eqb_neq.
  pose proof (matched_pairs (s0 :: src) (t0 :: tgt)) as Hflat.
  destruct (flat_map _ (s0 :: src)) as [| x rest].
  - split; [intros H; contradiction H; reflexivity |].
    intros (sq & tq & Hs & Ht & E). destruct (proj2 (Hflat sq)). eauto.
  - split; [| discriminate]. intros _.
    destruct (proj1 (Hflat x)) as (tq & ? & ? & ?); [left; reflexivity |]. eauto.
Qed.

(** Quantity match is symmetric: the flag does not depend on which
    artifact is the source. *)
Theorem quantity_match_symmetric (a b : artifact) :
  fst (compute_quantity_match a b) = fst (compute_quantity_match b a).
Proof.
  apply eq_true_iff_eq. rewrite !quantity_match_flag. split.
  - intros (sq & tq & Hs & Ht & E). exists tq, sq. rewrite quantities_equal_sym. auto.
  - intros (sq & tq & Hs & Ht & E). exists tq, sq. rewrite quantities_equal_sym. auto.
Qed.

Lemma ratio_bounds (i u : nat) : (i ≤ u)%nat → (0 < u)%nat → 0 <= ratio i u ∧ ratio i u <= 1.
Proof.
  intros Hle Hpos. unfold ratio, Qle. cbn [Qnum Qden]. split; [lia |].
  rewrite Z.mul_1_r, Z.mul_1_l.
  replace (Z.pos (Pos.of_nat u)) with (Z.of_nat u); [lia |].
  destruct u as [| u]; [lia |]. rewrite Znat.positive_nat_Z || idtac.
  now rewrite <- (Nat2Pos.id (S u)) at 1 by lia; rewrite positive_nat_Z.
Qed.

Lemma jaccard_bounds (a b : gset string) :
  0 <= fst (jaccard a b) ∧ fst (jaccard a b) <= 1.
Proof.
  unfold jaccard. cbn [fst]. destruct (Nat.eqb_spec (size (a ∪ b)) 0) as [| Hne].
  - split; [unfold Qle; simpl; lia | unfold Qle; simpl; lia].
  - apply ratio_bounds; [| lia]. apply subseteq_size. set_solver.
Qed.

Lemma jaccard_sym (a b : gset string) : jaccard a b = jaccard b a.
Proof.
  unfold jaccard.
  assert (H1 : a ∩ b = b ∩ a) by set_solver.
  assert (H2 : a ∪ b = b ∪ a) by set_solver.
  rewrite H1, H2. reflexivity.
Qed.

(** The keyword score is a Jaccard similarity: it lies in [0,1] and does
    not depend on which artifact is the source. *)
Theorem keyword_score_bounded_symmetric (a b : artifact) :
  0 <= fst (compute_keyword_score a b) ∧ fst (compute_keyword_score a b) <= 1
  ∧ fst (compute_keyword_score a b) = fst (compute_keyword_score b a).
Proof.
  unfold compute_keyword_score.
  set (ka := list_to_set (keywords (a_extracted a)) : gset string).
  set (kb := list_to_set (keywords (a_extracted b)) : gset string).
  set (wa := important_words (lower (a_text a))).
  set (wb := important_words (lower (a_text b))).
  rewrite (orb_comm (size kb =? 0)%nat), (andb_comm (negb (size wb =? 0)%nat)).
  rewrite (jaccard_sym kb ka), (jaccard_sym wb wa).
  destruct (_ || _).
  - destruct (_ && _).
    + pose proof (jaccard_bounds wa wb). destruct (jaccard wa wb). tauto.
    + cbn. repeat split; unfold Qle; simpl; lia.
  - pose proof (jaccard_bounds ka kb). tauto.
Qed.

(** The ID boost is 0, 0.2 or 0.3, and does not depend on which identifier
    is the source. *)
Theorem id_boost_values_symmetric (source_id target_id : string) :
  (compute_id_relationship_boost source_id target_id = 0.3
   ∨ compute_id_relationship_boost source_id target_id = 0.2
   ∨ compute_id_relationship_boost source_id target_id = 0.0)
  ∧ compute_id_relationship_boost source_id target_id
    = compute_id_relationship_boost target_id source_id.
Proof.
  unfold compute_id_relationship_boost. split.
  - destruct (_ || _); [tauto |]. destruct (String.eqb _ _); tauto.
  - rewrite orb_comm, String.eqb_sym. reflexivity.
Qed.

Lemma split_on_nonempty (sep : ascii) (s cur : string) :
  (1 ≤ List.length (split_on sep s cur))%nat.
Proof.
  revert cur. induction s as [| c s IH]; intros cur; cbn [split_on]; [cbn; lia |].
  destruct (Ascii.eqb c sep); [cbn; lia | apply IH].
Qed.

Lemma partial_score_band (m len : nat) :
  (0 < m)%nat → (m ≤ len)%nat →
  0.5 < 0.5 + 0.3 * inject_Z (Z.of_nat m) / inject_Z (Z.of_nat len)
  ∧ 0.5 + 0.3 * inject_Z (Z.of_nat m) / inject_Z (Z.of_nat len) <= 0.8.
Proof.
  intros Hm Hle.
  assert (Hm' : 0 < inject_Z (Z.of_nat m)) by (unfold Qlt; cbn; lia).
  assert (Hlen : 0 < inject_Z (Z.of_nat len)) by (unfold Qlt; cbn; lia).
  assert (Hml : inject_Z (Z.of_nat m) <= inject_Z (Z.of_nat len))
    by (unfold Qle; cbn; lia).
  split.
  - assert (0 < 0.3 * inject_Z (Z.of_nat m) / inject_Z (Z.of_nat len)).
    { apply Qlt_shift_div_l; [exact Hlen | lra]. }
    lra.
  - assert (0.3 * inject_Z (Z.of_nat m) / inject_Z (Z.of_nat len) <= 0.3).
    { apply Qle_shift_div_r; [exact Hlen | lra]. }
    lra.
Qed.

(** The name score is 1.0 for an exact match, 0.9 for a match among the
    referenced ids, in (0.5, 0.8] for a partial match, and 0 otherwise: a
    partial match never outranks a full one, and the score is in [0,1]. *)
Theorem variable_name_score_bands (llr variable : artifact) :
  let score := fst (compute_variable_name_match llr variable) in
  score = 1.0 ∨ score = 0.9 ∨ (0.5 < score ∧ score <= 0.8) ∨ score = 0.0.
Proof.
  cbv zeta. unfold compute_variable_name_match.
  destruct (contains _ _); [left; reflexivity |].
  destruct (str_in_list _ _); [right; left; reflexivity |].
  set (parts := split "_"%char (lower (default "" (a_name variable)))).
  set (m := List.length (List.filter _ parts)).
  destruct (Nat.ltb_spec 0 m) as [Hm |]; [| right; right; right; reflexivity].
  right. right. left. cbn [fst]. apply partial_score_band; [exact Hm |].
  apply filter_length_le.
Qed.

End ScoringSignals.

(** ** Monotonicity of the quality gate *)

Section GateMonotone.

Import Linker.
Local Open Scope Q_scope.

Lemma Qlt_bool_mono_r (x y y' : Q) : y <= y' → Qlt_bool x y = true → Qlt_bool x y' = true.
Proof. rewrite !Qlt_bool_true. intros. lra. Qed.

Lemma Qlt_bool_false_mono (x x' y : Q) :
  x <= x' → Qlt_bool x y = false → Qlt_bool x' y = false.
Proof. rewrite !Qlt_bool_false. intros. lra. Qed.

Lemma Qgt_bool_mono (x x' y : Q) : x <= x' → Qgt_bool x y = true → Qgt_bool x' y = true.
Proof. rewrite !Qgt_bool_true. intros. lra. Qed.

Lemma indicator_mono (x x' y : Q) :
  x <= x' → ((if Qgt_bool x y then 1 else 0) ≤ (if Qgt_bool x' y then 1 else 0))%nat.
Proof.
  intros Hle. destruct (Qgt_bool x y) eqn:E.
  - rewrite (Qgt_bool_mono x x' y Hle E). lia.
  - destruct (Qgt_bool x' y); lia.
Qed.

Lemma strong_mono (emb emb' kw kw' : Q) :
  emb <= emb' → kw <= kw' →
  implies (Qgt_bool kw 0.20 || Qgt_bool emb 0.30 || (Qgt_bool emb 0.20 && Qgt_bool kw 0.12))
          (Qgt_bool kw' 0.20 || Qgt_bool emb' 0.30
           || (Qgt_bool emb' 0.20 && Qgt_bool kw' 0.12)).
Proof.
  intros He Hk. unfold implies. rewrite !orb_true_iff, !andb_true_iff.
  intros [[H | H] | [H1 H2]]; eauto using Qgt_bool_mono.
Qed.

(** The gate of [HierarchicalLinker] is monotone: raising the combined
    score or a signal never turns an accepted candidate into a rejected
    one. *)
Theorem hierarchical_gate_monotone (config : linking_config)
    (combined combined' emb emb' kw kw' : Q) (qty qty' : bool) (name name' boost boost' : Q) :
  combined <= combined' → emb <= emb' → kw <= kw' → implies qty qty' →
  name <= name' → boost <= boost' →
  HierarchicalLinker._passes_quality_filters config combined emb kw qty name boost = true →
  HierarchicalLinker._passes_quality_filters config combined' emb' kw' qty' name' boost'
  = true.
Proof.
  intros Hc He Hk Hq Hn Hb. unfold HierarchicalLinker._passes_quality_filters.
  destruct (Qlt_bool combined _) eqn:Hfloor; [discriminate |].
  rewrite (Qlt_bool_false_mono _ _ _ Hc Hfloor).
  pose proof (strong_mono emb emb' kw kw' He Hk) as Hstrong. unfold implies in Hstrong.
  destruct (Qgt_bool kw' 0.20 || Qgt_bool emb' 0.30 || _); [reflexivity |].
  destruct (Qgt_bool kw 0.20 || Qgt_bool emb 0.30 || _); [now specialize (Hstrong eq_refl) |].
  rewrite !Nat.leb_le.
  pose proof (indicator_mono emb emb' 0.12 He). pose proof (indicator_mono kw kw' 0.05 Hk).
  pose proof (indicator_mono name name' 0.10 Hn).
  pose proof (indicator_mono boost boost' 0.05 Hb).
  assert ((if qty then 1 else 0) ≤ (if qty' then 1 else 0))%nat.
  { destruct qty; [rewrite (Hq eq_refl); lia | destruct qty'; lia]. }
  lia.
Qed.

Lemma hierarchical_gate_monotone_witness :
  HierarchicalLinker._passes_quality_filters default_config 0.3 0.5 0.08 false 0 0 = true.
Proof.
  apply (hierarchical_gate_monotone default_config 0.0825 0.3 0.15 0.5 0.06 0.08
           false false 0 0 0 0); try (unfold Qle; cbn; lia); try (intros H; exact H).
  vm_compute. reflexivity.
Defined.

(** The same for the gate of [LinkManager], in the signals of the match
    details. *)
Theorem link_manager_gate_monotone (config : linking_config) (md md' : match_details)
    (source target source' target' : artifact) :
  embedding_similarity md <= embedding_similarity md' →
  keyword_score md <= keyword_score md' →
  implies (quantity_match md) (quantity_match md') →
  name_match_score md <= name_match_score md' →
  id_boost md <= id_boost md' →
  Linker._passes_quality_filters config md source target = true →
  Linker._passes_quality_filters config md' source' target' = true.
Proof.
  intros He Hk Hq Hn Hb. unfold Linker._passes_quality_filters.
  destruct (Qlt_bool (embedding_similarity md) _) eqn:Hfloor; [discriminate |].
  rewrite (Qlt_bool_false_mono _ _ _ He Hfloor).
  pose proof (strong_mono _ _ _ _ He Hk) as Hstrong. unfold implies in Hstrong.
  destruct (Qgt_bool (keyword_score md') 0.20 || _ || _); [reflexivity |].
  destruct (Qgt_bool (keyword_score md) 0.20 || _ || _); [now specialize (Hstrong eq_refl) |].
  pose proof (indicator_mono _ _ 0.12 He). pose proof (indicator_mono _ _ 0.05 Hk).
  pose proof (indicator_mono _ _ 0.10 Hn). pose proof (indicator_mono _ _ 0.05 Hb).
  assert ((if quantity_match md then 1 else 0) ≤ (if quantity_match md' then 1 else 0))%nat.
  { destruct (quantity_match md); [rewrite (Hq eq_refl); lia |].
    destruct (quantity_match md'); lia. }
  match goal with
  | |- (if (?m <=? ?c)%nat then _ else _) = true →
       (if (?m <=? ?c')%nat then _ else _) = true =>
      remember c as n eqn:En; remember c' as n' eqn:En'
  end.
  assert (Hcnt : (n ≤ n')%nat) by (subst n n'; lia).
  clear En En'.
  destruct (Nat.leb_spec (default 2%nat (min_combined_signals (filters config))) n').
  { reflexivity. }
  destruct (Nat.leb_spec (default 2%nat (min_combined_signals (filters config))) n); [lia |].
  destruct (Qgt_bool (id_boost md) 0.10) eqn:Hboost; [| discriminate].
  rewrite (Qgt_bool_mono _ _ _ Hb Hboost). cbn [andb].
  destruct (Nat.leb_spec 1 n); [| discriminate].
  destruct (Nat.leb_spec 1 n'); [reflexivity | lia].
Qed.

Lemma link_manager_gate_monotone_witness :
  Linker._passes_quality_filters default_config
    naming_only_match (requirement "HLR-001-A" "HLR") (requirement "LLR-001-A-1" "LLR")
  = true.
Proof.
  apply (link_manager_gate_monotone default_config naming_only_match naming_only_match
           (requirement "HLR-001-A" "HLR") (requirement "LLR-001-A-1" "LLR"));
    try (unfold Qle; cbn; lia); try (intros H; exact H).
  vm_compute. reflexivity.
Defined.

End GateMonotone.

(** ** The identifier pattern, read backwards *)

Section IDPattern.

Import Linker.

Lemma span_spec (p : ascii → bool) (s a r : string) :
  span p s = (a, r) → s = a +:+ r ∧ all_chars p a = true ∧ stops p r.
Proof.
  revert a r. induction s as [| c s IH]; intros a r; simpl.
  - intros [= <- <-]. repeat split.
  - destruct (p c) eqn:Hc.
    + destruct (span p s) as [a' r'] eqn:Hs. intros [= <- <-].
      destruct (IH a' r' eq_refl) as (-> & Ha & Hr).
      repeat split; [cbn; rewrite Hc, Ha; reflexivity | exact Hr].
    + intros [= <- <-]. repeat split. exact Hc.
Qed.

Lemma nonempty_spec (s : string) : nonempty s = true → s ≠ "".
Proof. destruct s; [discriminate | discriminate]. Qed.

Lemma span_decimal_spec (n : nat) :
  ∀ s a r, (String.length s < n)%nat → span_decimal s = (a, r) →
           s = a +:+ r ∧ decimal_run a.
Proof.
  induction n as [| n IH]; intros s a r Hlen; [lia |].
  destruct s as [| c1 r1]; cbn [span_decimal].
  { intros [= <- <-]. split; [reflexivity | constructor]. }
  destruct (digit1 c1) eqn:H1.
  { destruct (span_decimal r1) as [a' b'] eqn:E. intros [= <- <-].
    destruct (IH r1 a' b') as [-> Ha]; [cbn in Hlen; lia | exact E |].
    split; [reflexivity | constructor; assumption]. }
  destruct r1 as [| c2 r2]; [intros [= <- <-]; split; [reflexivity | constructor] |].
  destruct (digit2 c1 c2) eqn:H2.
  { destruct (span_decimal r2) as [a' b'] eqn:E. intros [= <- <-].
    destruct (IH r2 a' b') as [-> Ha]; [cbn in Hlen; lia | exact E |].
    split; [reflexivity | constructor; assumption]. }
  destruct r2 as [| c3 r3]; [intros [= <- <-]; split; [reflexivity | constructor] |].
  destruct (digit3 c1 c2 c3) eqn:H3.
  { destruct (span_decimal r3) as [a' b'] eqn:E. intros [= <- <-].
    destruct (IH r3 a' b') as [-> Ha]; [cbn in Hlen; lia | exact E |].
    split; [reflexivity | constructor; assumption]. }
  destruct r3 as [| c4 r4]; [intros [= <- <-]; split; [reflexivity | constructor] |].
  destruct (digit4 c1 c2 c3 c4) eqn:H4.
  { destruct (span_decimal r4) as [a' b'] eqn:E. intros [= <- <-].
    destruct (IH r4 a' b') as [-> Ha]; [cbn in Hlen; lia | exact E |].
    split; [reflexivity | constructor; assumption]. }
  intros [= <- <-]. split; [reflexivity | constructor].
Qed.

Lemma optional_group_spec (run : string → string * string) (P : string → Prop)
    (s : string) (o : option string) (r : string) :
  (∀ s a r, run s = (a, r) → s = a +:+ r ∧ P a) →
  optional_group run s = (o, r) →
  s = dash o +:+ r ∧ match o with Some grp => grp ≠ "" ∧ P grp | None => True end.
Proof.
  intros Hrun. unfold optional_group.
  destruct s as [| c s']; [intros [= <- <-]; split; [reflexivity | exact I] |].
  destruct (Ascii.eqb_spec c "-"%char) as [-> | Hc].
  - destruct (run s') as [grp rest] eqn:Hspan.
    destruct (Hrun s' grp rest Hspan) as (-> & Hgrp).
    destruct (nonempty grp) eqn:Hne.
    + intros [= <- <-]. split; [reflexivity |]. split; [apply nonempty_spec, Hne | exact Hgrp].
    + intros [= <- <-]. split; [reflexivity | exact I].
  - destruct c as [[] [] [] [] [] [] [] []];
      try (intros [= <- <-]; split; [reflexivity | exact I]).
    contradiction Hc. reflexivity.
Qed.

Lemma at_end_spec (s : string) : at_end s = true → s = "" ∨ s = String newline "".
Proof.
  unfold at_end. intros H. apply orb_true_iff in H as [H | H]; apply String.eqb_eq in H; auto.
Qed.

Lemma span_class (p : ascii → bool) (s a r : string) :
  span p s = (a, r) → s = a +:+ r ∧ all_chars p a = true.
Proof. intros H. destruct (span_spec p s a r H) as (Hs & Ha & _). auto. Qed.

Lemma span_decimal_run (s a r : string) :
  span_decimal s = (a, r) → s = a +:+ r ∧ decimal_run a.
Proof. apply (span_decimal_spec (S (String.length s))). lia. Qed.

(** The pattern accepts only conforming identifiers, alone or followed by
    one newline, and its groups are their parts. *)
Lemma match_id_sound (s pre num : string) (letter subnum : option string) :
  match_id s = Some (pre, num, letter, subnum) →
  class_word is_upper pre ∧ decimal_word num
  ∧ opt_class_word is_upper letter ∧ opt_decimal_word subnum
  ∧ (s = conforming_id pre num letter subnum
     ∨ s = conforming_id pre num letter subnum +:+ String newline "").
Proof.
  unfold match_id.
  destruct (span is_upper s) as [pre' r1] eqn:H1.
  destruct (span_spec _ _ _ _ H1) as (-> & Hpre & _).
  destruct (nonempty pre') eqn:Hne1; [| discriminate].
  destruct r1 as [| c r2]; [discriminate |].
  destruct (Ascii.eqb_spec c "-"%char) as [-> | Hc].
  2: { destruct c as [[] [] [] [] [] [] [] []]; try discriminate. contradiction Hc.
       reflexivity. }
  destruct (span_decimal r2) as [num' r3] eqn:H2.
  destruct (span_decimal_run _ _ _ H2) as (-> & Hnum).
  destruct (nonempty num') eqn:Hne2; [| discriminate].
  destruct (optional_group (span is_upper) r3) as [letter' r4] eqn:H3.
  destruct (optional_group_spec _ _ _ _ _ (span_class is_upper) H3) as (-> & Hletter).
  destruct (optional_group span_decimal r4) as [subnum' r5] eqn:H4.
  destruct (optional_group_spec _ _ _ _ _ span_decimal_run H4) as (-> & Hsub).
  destruct (at_end r5) eqn:H5; [| discriminate].
  intros [= <- <- <- <-].
  split; [split; [apply nonempty_spec, Hne1 | exact Hpre] |].
  split; [split; [apply nonempty_spec, Hne2 | exact Hnum] |].
  split; [destruct letter'; exact Hletter |].
  split; [destruct subnum'; exact Hsub |].
  unfold conforming_id.
  assert (Hassoc : ∀ a b c : string, (a +:+ b) +:+ c = a +:+ b +:+ c).
  { intros a b c. induction a as [| x a IH]; [reflexivity |].
    change (String x ((a +:+ b) +:+ c) = String x (a +:+ b +:+ c)). now rewrite IH. }
  change (String "-"%char (num' +:+ dash letter' +:+ dash subnum' +:+ r5))
    with ("-" +:+ num' +:+ dash letter' +:+ dash subnum' +:+ r5).
  destruct (at_end_spec r5 H5) as [-> | ->].
  - left. rewrite (append_empty (dash subnum')). reflexivity.
  - right. rewrite !Hassoc. reflexivity.
Qed.

(** The resolver names a parent only for an HLR or LLR identifier with a
    letter suffix: SYS-NUMBER for the first, HLR-NUMBER-SUFFIX for the
    second, where NUMBER is a word of decimal digits of any script; every
    other string, conforming or not, gets no parent. *)
Theorem extract_id_hierarchy_parent_only (s parent : string) :
  parent_ref (extract_id_hierarchy s) = Some parent →
  ∃ pre num l subnum,
    decimal_word num ∧ class_word is_upper l ∧ opt_decimal_word subnum
    ∧ (s = conforming_id pre num (Some l) subnum
       ∨ s = conforming_id pre num (Some l) subnum +:+ String newline "")
    ∧ ((pre = "HLR" ∧ parent = "SYS-" +:+ num)
       ∨ (pre = "LLR" ∧ parent = "HLR-" +:+ num +:+ "-" +:+ l)).
Proof.
  unfold extract_id_hierarchy.
  destruct (match_id s) as [[[[pre num] letter] subnum] |] eqn:Hm; [| discriminate].
  destruct (match_id_sound _ _ _ _ _ Hm) as (_ & Hnum & Hletter & Hsub & Hs).
  cbn [parent_ref]. destruct letter as [l |]; [| discriminate].
  intros H. exists pre, num, l, subnum.
  split; [exact Hnum |]. split; [exact Hletter |]. split; [exact Hsub |].
  split; [exact Hs |].
  destruct (String.eqb_spec pre "HLR") as [-> | _].
  - injection H as <-. left. split; reflexivity.
  - destruct (String.eqb_spec pre "LLR") as [-> | _]; [| discriminate].
    right. split; [reflexivity |]. destruct subnum; injection H as <-; reflexivity.
Qed.

Lemma extract_id_hierarchy_parent_only_witness :
  ∃ pre num l subnum,
    decimal_word num ∧ class_word is_upper l ∧ opt_decimal_word subnum
    ∧ ("LLR-001-A-1" = conforming_id pre num (Some l) subnum
       ∨ "LLR-001-A-1" = conforming_id pre num (Some l) subnum +:+ String newline "")
    ∧ ((pre = "HLR" ∧ "HLR-001-A" = "SYS-" +:+ num)
       ∨ (pre = "LLR" ∧ "HLR-001-A" = "HLR-" +:+ num +:+ "-" +:+ l)).
Proof.
  apply (extract_id_hierarchy_parent_only "LLR-001-A-1" "HLR-001-A"). reflexivity.
Defined.

End IDPattern.

(** ** The trace graph *)

Section TraceGraph.

Import Analyzer.

Lemma add_edge_lookup (m : gmap string (list string)) (k v s : string) :
  default [] (add_edge m k v !! s)
  = default [] (m !! s) ++ (if String.eqb k s then [v] else []).
Proof.
  unfold add_edge. destruct (String.eqb_spec k s) as [-> | Hne].
  - rewrite lookup_insert_eq. reflexivity.
  - rewrite lookup_insert_ne by exact Hne. rewrite app_nil_r. reflexivity.
Qed.

Lemma fold_links (links : list link) :
  ∀ g s,
    nodes (fold_left add_link links g) = nodes g
    ∧ children_of (fold_left add_link links g) s
      = children_of g s
        ++ map target_id (List.filter (fun l => String.eqb (source_id l) s) links)
    ∧ parents_of (fold_left add_link links g) s
      = parents_of g s
        ++ map source_id (List.filter (fun l => String.eqb (target_id l) s) links).
Proof.
  induction links as [| l links IH]; intros g s; cbn [fold_left List.filter map].
  - rewrite !app_nil_r. repeat split.
  - destruct (IH (add_link g l) s) as (-> & -> & ->).
    unfold children_of, parents_of, add_link. cbn [nodes edges_down edges_up].
    rewrite !add_edge_lookup.
    destruct (String.eqb (source_id l) s), (String.eqb (target_id l) s);
      cbn [map]; rewrite <- ?app_assoc; repeat split.
Qed.

(** The graph is the link collection indexed twice: the children of a node
    are the targets of its links and the parents of a node the sources of
    the links to it, in the order of the links; so the two adjacency maps
    mirror each other. *)
Theorem build_trace_graph_adjacency (artifacts : dict artifact) (links : list link)
    (s t : string) :
  let g := build_trace_graph artifacts links in
  nodes g = artifacts
  ∧ children_of g s = map target_id (List.filter (fun l => String.eqb (source_id l) s) links)
  ∧ parents_of g t = map source_id (List.filter (fun l => String.eqb (target_id l) t) links)
  ∧ (In t (children_of g s) ↔ In s (parents_of g t)).
Proof.
  cbv zeta. unfold build_trace_graph.
  change (fold_left _ links) with (fold_left add_link links).
  destruct (fold_links links {| nodes := artifacts; edges_down := ∅; edges_up := ∅ |} s)
    as (Hn & Hc & _).
  destruct (fold_links links {| nodes := artifacts; edges_down := ∅; edges_up := ∅ |} t)
    as (_ & _ & Hp).
  rewrite Hn, Hc, Hp. unfold children_of, parents_of. cbn [nodes edges_down edges_up].
  rewrite !lookup_empty. cbn [default app]. repeat split.
  - intros Hin. apply in_map_iff in Hin as (l & <- & Hl). apply filter_In in Hl as [Hl Hs].
    apply String.eqb_eq in Hs as <-. apply in_map_iff. exists l. split; [reflexivity |].
    apply filter_In. split; [exact Hl | apply String.eqb_refl].
  - intros Hin. apply in_map_iff in Hin as (l & <- & Hl). apply filter_In in Hl as [Hl Ht].
    apply String.eqb_eq in Ht as <-. apply in_map_iff. exists l. split; [reflexivity |].
    apply filter_In. split; [exact Hl | apply String.eqb_refl].
Qed.

End TraceGraph.

(** ** What the two searches enumerate *)

Section Enumeration.

Import Analyzer.

Variable g : graph.

Lemma for_each_in {A B : Type} (f : A → result (list B)) (l : list A) :
  ∀ zs, for_each f l = Ok zs →
  (∀ x, In x l → ∃ ys, f x = Ok ys)
  ∧ ∀ z, In z zs ↔ ∃ x ys, In x l ∧ f x = Ok ys ∧ In z ys.
Proof.
  induction l as [| x l IH]; intros zs; cbn [for_each].
  - intros [= <-]. split; [intros ? [] |]. intros z. split; [intros [] |].
    intros (? & ? & [] & _).
  - destruct (f x) as [ys |] eqn:Hx; [| discriminate]. cbn [bind].
    destruct (for_each f l) as [ws |] eqn:Hl; [| discriminate]. cbn [bind].
    intros [= <-]. destruct (IH ws eq_refl) as [Hok Hin]. split.
    + intros y [<- | Hy]; [eauto | apply Hok, Hy].
    + intros z. rewrite in_app_iff, Hin. split.
      * intros [Hz | (y & vs & Hy & Hf & Hz)].
        -- exists x, ys. repeat split; [left; reflexivity | exact Hx | exact Hz].
        -- exists y, vs. repeat split; [right; exact Hy | exact Hf | exact Hz].
      * intros (y & vs & [<- | Hy] & Hf & Hz).
        -- left. rewrite Hx in Hf. injection Hf as <-. exact Hz.
        -- right. eauto.
Qed.

Lemma leaf_path_cons (x : string) (p : list string) :
  leaf_path g (x :: p) ↔
  (p = [] ∧ children_of g x = []) ∨ (∃ y, head p = Some y ∧ In y (children_of g x)
                                          ∧ leaf_path g p).
Proof.
  destruct p as [| y p]; cbn [leaf_path head].
  - split; [auto |]. intros [[_ H] | (y & [=] & _)]. exact H.
  - split.
    + intros [Hy Hp]. right. exists y. auto.
    + intros [[[=] _] | (y' & [= <-] & Hy & Hp)]. auto.
Qed.

(** What a call of the unguarded [dfs] appends: the current path extended
    by every downward path from the node to a leaf. *)
Lemma unguarded_dfs_chains (limit : nat) :
  ∀ node_id path chains,
    Analyzer.dfs limit g node_id path = Ok chains →
    chains ≠ []
    ∧ ∀ c, In c chains ↔ ∃ p, c = path ++ p ∧ head p = Some node_id ∧ leaf_path g p.
Proof.
  induction limit as [| limit IH]; intros node_id path chains; [discriminate |].
  cbn [Analyzer.dfs].
  destruct (children_of g node_id) as [| c0 cs] eqn:Hch.
  - intros [= <-]. split; [discriminate |]. intros c. split.
    + intros [<- | []]. exists [node_id]. repeat split. exact Hch.
    + intros (p & -> & Hhead & Hp). destruct p as [| x p]; [discriminate |].
      injection Hhead as ->. apply leaf_path_cons in Hp as [[-> _] | (y & _ & Hy & _)].
      * left. reflexivity.
      * rewrite Hch in Hy. destruct Hy.
  - rewrite <- Hch. intros Hrun. apply for_each_in in Hrun as [Hok Hin]. split.
    + destruct (Hok c0) as [ys Hys]; [rewrite Hch; left; reflexivity |].
      destruct (IH _ _ _ Hys) as [Hne _]. destruct ys as [| y ys]; [contradiction |].
      intros ->. apply (proj2 (Hin y)). exists c0, (y :: ys).
      repeat split; [rewrite Hch; left; reflexivity | exact Hys | left; reflexivity].
    + intros c. rewrite Hin. split.
      * intros (child & ys & Hchild & Hys & Hc).
        apply (IH _ _ _ Hys) in Hc as (p & -> & Hhead & Hp).
        exists (node_id :: p). rewrite <- app_assoc. repeat split.
        apply leaf_path_cons. right. exists child. auto.
      * intros (p & -> & Hhead & Hp). destruct p as [| x p]; [discriminate |].
        injection Hhead as ->. apply leaf_path_cons in Hp as [[_ H] | (y & Hy & Hin' & Hp)].
        { rewrite Hch in H. discriminate. }
        destruct (Hok y Hin') as [ys Hys]. exists y, ys. repeat split; try assumption.
        apply (IH _ _ _ Hys). exists p. rewrite <- app_assoc. auto.
Qed.

(** When [trace_chain_forward] returns, it returns at least one chain, and
    its chains are exactly the downward paths from the start node to a node
    without children. *)
Theorem trace_chain_forward_chains (limit : nat) (start_id : string)
    (chains : list (list string)) :
  trace_chain_forward limit g start_id = Ok chains →
  chains ≠ []
  ∧ ∀ chain, In chain chains ↔ head chain = Some start_id ∧ leaf_path g chain.
Proof.
  intros Hrun. apply unguarded_dfs_chains in Hrun as [Hne Hin]. split; [exact Hne |].
  intros chain. rewrite Hin. split.
  - intros (p & -> & ? & ?). auto.
  - intros [? ?]. exists chain. auto.
Qed.

(** What a call of the guarded [dfs] appends: the paths to a leaf that
    repeat no node and avoid the visited set. *)
Lemma guarded_dfs_chains (limit : nat) :
  ∀ node_id path (visited : gset string) chains,
    HierarchicalAnalyzer.dfs limit g node_id path visited = Ok chains →
    ∀ c, In c chains ↔
         ∃ p, c = path ++ p ∧ head p = Some node_id ∧ leaf_path g p
              ∧ NoDup p ∧ ∀ x, In x p → x ∉ visited.
Proof.
  induction limit as [| limit IH]; intros node_id path visited chains; [discriminate |].
  cbn [HierarchicalAnalyzer.dfs].
  destruct (decide (node_id ∈ visited)) as [Hvis | Hvis].
  { intros [= <-] c. split; [intros [] |]. intros (p & _ & Hhead & _ & _ & Hfree).
    destruct p as [| x p]; [discriminate |]. injection Hhead as ->.
    destruct (Hfree node_id); [left; reflexivity | exact Hvis]. }
  destruct (children_of g node_id) as [| c0 cs] eqn:Hch.
  - intros [= <-] c. split.
    + intros [<- | []]. exists [node_id].
      split; [reflexivity |]. split; [reflexivity |]. split; [exact Hch |].
      split; [apply NoDup_singleton |]. intros x [<- | []]. exact Hvis.
    + intros (p & -> & Hhead & Hp & _). destruct p as [| x p]; [discriminate |].
      injection Hhead as ->. apply leaf_path_cons in Hp as [[-> _] | (y & _ & Hy & _)].
      * left. reflexivity.
      * rewrite Hch in Hy. destruct Hy.
  - rewrite <- Hch. intros Hrun c. apply for_each_in in Hrun as [Hok Hin].
    rewrite Hin. split.
    + intros (child & ys & Hchild & Hys & Hc).
      apply (IH _ _ _ _ Hys) in Hc as (p & -> & Hhead & Hp & Hnd & Hfree).
      exists (node_id :: p). rewrite <- app_assoc.
      split; [reflexivity |]. split; [reflexivity |]. split.
      { apply leaf_path_cons. right. exists child. auto. }
      split.
      * apply NoDup_cons. split; [| exact Hnd]. intros Hin'.
        apply list_elem_of_In in Hin'. apply (Hfree _ Hin'). set_solver.
      * intros x [<- | Hx]; [exact Hvis |]. specialize (Hfree x Hx). set_solver.
    + intros (p & -> & Hhead & Hp & Hnd & Hfree). destruct p as [| x p]; [discriminate |].
      injection Hhead as ->. apply leaf_path_cons in Hp as [[_ H] | (y & Hy & Hin' & Hp)].
      { rewrite Hch in H. discriminate. }
      destruct (Hok y Hin') as [ys Hys]. exists y, ys. repeat split; try assumption.
      apply (IH _ _ _ _ Hys). exists p. rewrite <- app_assoc.
      apply NoDup_cons in Hnd as [Hnotin Hnd'].
      split; [reflexivity |]. split; [exact Hy |]. split; [exact Hp |].
      split; [exact Hnd' |].
      intros x Hx Hbad. apply elem_of_union in Hbad as [Hbad | Hbad].
      * apply (Hfree x); [right; exact Hx | exact Hbad].
      * apply elem_of_singleton in Hbad as ->. apply Hnotin, list_elem_of_In, Hx.
Qed.

(** When [_find_all_chains] returns, its chains are exactly the downward
    paths from the start node to a node without children that visit no node
    twice. *)
Theorem find_all_chains_chains (limit : nat) (start_id : string)
    (chains : list (list string)) :
  HierarchicalAnalyzer._find_all_chains limit start_id g = Ok chains →
  ∀ chain, In chain chains ↔
           head chain = Some start_id ∧ leaf_path g chain ∧ NoDup chain.
Proof.
  intros Hrun chain. rewrite (guarded_dfs_chains _ _ _ _ _ Hrun chain). split.
  - intros (p & -> & ? & ? & ? & _). auto.
  - intros (? & ? & ?). exists chain. repeat split; try assumption. set_solver.
Qed.

End Enumeration.

(** ** The two searches agree where the unguarded one returns *)

Section SearchesAgree.

Import Analyzer.

Variable g : graph.

Lemma returns_child (limit : nat) (node_id child : string) :
  returns g (S limit) node_id → In child (children_of g node_id) → returns g limit child.
Proof.
  intros (path & chains & Hrun) Hchild. cbn [Analyzer.dfs] in Hrun.
  destruct (children_of g node_id) as [| c0 cs] eqn:Hch; [destruct Hchild |].
  apply for_each_in in Hrun as [Hok _]. destruct (Hok child Hchild) as [ys Hys].
  exists (path ++ [node_id]), ys. exact Hys.
Qed.

Lemma returns_reached (x y : string) :
  reaches g x y → ∀ limit, returns g limit x → ∃ limit', (limit' < limit)%nat ∧ returns g limit' y.
Proof.
  induction 1 as [x y Hedge | x y z Hedge _ IH]; intros limit Hx.
  - destruct limit as [| limit]; [destruct Hx as (? & ? & [=]) |].
    exists limit. split; [lia | apply (returns_child limit x y Hx Hedge)].
  - destruct limit as [| limit]; [destruct Hx as (? & ? & [=]) |].
    destruct (IH limit (returns_child limit x y Hx Hedge)) as (limit' & Hlt & Hz).
    exists limit'. split; [lia | exact Hz].
Qed.

(** A node from which the unguarded search returns lies on no cycle. *)
Lemma returns_acyclic (limit : nat) :
  ∀ node_id, returns g limit node_id → ¬ reaches g node_id node_id.
Proof.
  induction limit as [limit IH] using lt_wf_ind. intros node_id Hret Hcycle.
  destruct (returns_reached _ _ Hcycle limit Hret) as (limit' & Hlt & Hret').
  exact (IH limit' Hlt node_id Hret' Hcycle).
Qed.

Lemma reaches_snoc (x y z : string) :
  reaches g x y → In z (children_of g y) → reaches g x z.
Proof.
  induction 1 as [x y Hedge | x y w Hedge _ IH]; intros Hz.
  - apply (reaches_step g x y z Hedge). apply reaches_edge, Hz.
  - apply (reaches_step g x y z Hedge). apply IH, Hz.
Qed.

Lemma guarded_follows (limit : nat) :
  ∀ node_id path (visited : gset string) chains,
    (∀ x, x ∈ visited → reaches g x node_id) →
    Analyzer.dfs limit g node_id path = Ok chains →
    HierarchicalAnalyzer.dfs limit g node_id path visited = Ok chains.
Proof.
  induction limit as [| limit IH]; intros node_id path visited chains Hvis Hrun;
    [discriminate |].
  cbn [HierarchicalAnalyzer.dfs].
  destruct (decide (node_id ∈ visited)) as [Hin | _].
  { destruct (returns_acyclic (S limit) node_id); [exists path, chains; exact Hrun |].
    apply Hvis, Hin. }
  cbn [Analyzer.dfs] in Hrun.
  destruct (children_of g node_id) as [| c0 cs] eqn:Hch; [exact Hrun |].
  rewrite <- Hch in *. revert Hrun. apply for_each_mono.
  intros child ys Hchild Hys. apply IH; [| exact Hys].
  intros x Hx. apply elem_of_union in Hx as [Hx | Hx].
  - apply (reaches_snoc x node_id child (Hvis x Hx) Hchild).
  - apply elem_of_singleton in Hx as ->. apply reaches_edge, Hchild.
Qed.

(** Whenever [trace_chain_forward] returns a list of chains,
    [_find_all_chains] returns the same list at the same recursion limit:
    the visited set changes nothing on a graph without a reachable cycle. *)
Theorem searches_agree (limit : nat) (start_id : string) (chains : list (list string)) :
  trace_chain_forward limit g start_id = Ok chains →
  HierarchicalAnalyzer._find_all_chains limit start_id g = Ok chains.
Proof.
  intros Hrun. apply guarded_follows; [| exact Hrun]. intros x Hx. set_solver.
Qed.

End SearchesAgree.

Lemma trace_chain_forward_chains_witness :
  [["SYS-001"; "SYS-001-A"]] ≠ []
  ∧ ∀ chain, In chain [["SYS-001"; "SYS-001-A"]] ↔
             head chain = Some "SYS-001" ∧ leaf_path decomposed_only_graph chain.
Proof.
  apply (trace_chain_forward_chains decomposed_only_graph 2 "SYS-001").
  vm_compute. reflexivity.
Defined.

Lemma find_all_chains_chains_witness :
  In ["SYS-001"; "SYS-001-A"] [["SYS-001"; "SYS-001-A"]] ↔
  head ["SYS-001"; "SYS-001-A"] = Some "SYS-001"
  ∧ leaf_path decomposed_only_graph ["SYS-001"; "SYS-001-A"]
  ∧ NoDup ["SYS-001"; "SYS-001-A"].
Proof.
  apply (find_all_chains_chains decomposed_only_graph 5 "SYS-001"). vm_compute. reflexivity.
Defined.

Lemma searches_agree_witness :
  HierarchicalAnalyzer._find_all_chains 2 "SYS-001" decomposed_only_graph
  = Ok [["SYS-001"; "SYS-001-A"]].
Proof. apply (searches_agree decomposed_only_graph 2 "SYS-001"). vm_compute. reflexivity. Defined.

(** ** Orphans and gap identifiers *)

Section OrphansAndGaps.

Import Analyzer GapSummary.

Lemma find_orphans_fold (g : graph) (todo : dict artifact) :
  ∀ acc,
    let r := fold_left (find_orphans_step g) todo acc in
    map o_artifact_id (no_parent r)
    = map o_artifact_id (no_parent acc)
      ++ map fst (List.filter (fun item =>
           str_in_list (a_type (snd item)) TYPES_REQUIRING_PARENT
           && is_empty (parents_of g (fst item))) todo)
    ∧ map o_artifact_id (no_children r)
      = map o_artifact_id (no_children acc)
        ++ map fst (List.filter (fun item =>
             str_in_list (a_type (snd item)) TYPES_REQUIRING_CHILDREN
             && is_empty (children_of g (fst item))) todo)
    ∧ map o_artifact_id (isolated r)
      = map o_artifact_id (isolated acc)
        ++ map fst (List.filter (fun item =>
             is_empty (parents_of g (fst item)) && is_empty (children_of g (fst item))
             && negb (String.eqb (a_type (snd item)) "SYSTEM_REQ")) todo).
Proof.
  induction todo as [| [aid art] todo IH]; intros acc; cbn [fold_left List.filter map].
  - cbv zeta. rewrite !app_nil_r. repeat split.
  - cbv zeta in *. destruct (IH (find_orphans_step g acc (aid, art))) as (-> & -> & ->).
    unfold find_orphans_step. cbn [no_parent no_children isolated fst snd].
    destruct (str_in_list (a_type art) TYPES_REQUIRING_PARENT && _);
      destruct (str_in_list (a_type art) TYPES_REQUIRING_CHILDREN && _);
      destruct (is_empty (parents_of g aid) && is_empty (children_of g aid) && _);
      rewrite ?map_app; cbn [map o_artifact_id]; rewrite <- ?app_assoc; repeat split.
Qed.

Lemma is_empty_spec {A : Type} (l : list A) : is_empty l = true ↔ l = [].
Proof. destruct l; split; (reflexivity || discriminate). Qed.

(** What [find_orphans] reports: the ids in its three lists are those of
    the artifacts that lack a parent while their type requires one (HLR, LLR,
    CODE_VAR), that lack children while their type requires them (all but
    CODE_VAR), and that have no link at all without being a SYSTEM_REQ. *)
Theorem find_orphans_reports (g : graph) (artifacts : dict artifact) (aid : string) :
  (In aid (map o_artifact_id (no_parent (find_orphans g artifacts))) ↔
   ∃ art, In (aid, art) artifacts ∧ parents_of g aid = []
          ∧ (a_type art = "HLR" ∨ a_type art = "LLR" ∨ a_type art = "CODE_VAR"))
  ∧ (In aid (map o_artifact_id (no_children (find_orphans g artifacts))) ↔
     ∃ art, In (aid, art) artifacts ∧ children_of g aid = []
            ∧ (a_type art = "SYSTEM_REQ" ∨ a_type art = "SYSTEM_REQ_DECOMPOSED"
               ∨ a_type art = "HLR" ∨ a_type art = "LLR"))
  ∧ (In aid (map o_artifact_id (isolated (find_orphans g artifacts))) ↔
     ∃ art, In (aid, art) artifacts ∧ parents_of g aid = [] ∧ children_of g aid = []
            ∧ a_type art ≠ "SYSTEM_REQ").
Proof.
  unfold find_orphans.
  destruct (find_orphans_fold g artifacts {| no_parent := []; no_children := []; isolated := [] |})
    as (-> & -> & ->).
  cbn [no_parent no_children isolated map app].
  repeat split.
  - intros H. apply in_map_iff in H as ([aid' art] & <- & H). apply filter_In in H as [H Hc].
    cbn [fst snd] in *. apply andb_true_iff in Hc as [Ht He]. exists art.
    split; [exact H |]. split; [apply is_empty_spec, He |].
    unfold str_in_list, TYPES_REQUIRING_PARENT in Ht. cbn [existsb] in Ht.
    rewrite !orb_true_iff, !String.eqb_eq in Ht. intuition discriminate.
  - intros (art & H & He & Ht). apply in_map_iff. exists (aid, art). split; [reflexivity |].
    apply filter_In. split; [exact H |]. cbn [fst snd]. apply andb_true_iff.
    split; [| apply is_empty_spec, He].
    unfold str_in_list, TYPES_REQUIRING_PARENT. cbn [existsb].
    rewrite !orb_true_iff, !String.eqb_eq. tauto.
  - intros H. apply in_map_iff in H as ([aid' art] & <- & H). apply filter_In in H as [H Hc].
    cbn [fst snd] in *. apply andb_true_iff in Hc as [Ht He]. exists art.
    split; [exact H |]. split; [apply is_empty_spec, He |].
    unfold str_in_list, TYPES_REQUIRING_CHILDREN in Ht. cbn [existsb] in Ht.
    rewrite !orb_true_iff, !String.eqb_eq in Ht. intuition discriminate.
  - intros (art & H & He & Ht). apply in_map_iff. exists (aid, art). split; [reflexivity |].
    apply filter_In. split; [exact H |]. cbn [fst snd]. apply andb_true_iff.
    split; [| apply is_empty_spec, He].
    unfold str_in_list, TYPES_REQUIRING_CHILDREN. cbn [existsb].
    rewrite !orb_true_iff, !String.eqb_eq. tauto.
  - intros H. apply in_map_iff in H as ([aid' art] & <- & H). apply filter_In in H as [H Hc].
    cbn [fst snd] in *. rewrite !andb_true_iff, negb_true_iff, !is_empty_spec in Hc.
    destruct Hc as [[Hp Hc] Ht]. exists art. repeat split; try assumption.
    intros Heq. rewrite Heq in Ht. discriminate.
  - intros (art & H & Hp & Hc & Ht). apply in_map_iff. exists (aid, art).
    split; [reflexivity |]. apply filter_In. split; [exact H |]. cbn [fst snd].
    rewrite !andb_true_iff, negb_true_iff, !is_empty_spec. repeat split; try assumption.
    destruct (String.eqb_spec (a_type art) "SYSTEM_REQ"); [contradiction | reflexivity].
Qed.

(** Whatever holds of the empty state and is kept by each emission holds of
    the state [identify_gaps] ends in. *)
Lemma identify_gaps_invariant (I : gap_state → Prop) (limit : nat) (g : graph)
    (artifacts : dict artifact) (orph : orphans) (gaps : list gap) :
  I ([], 1%nat) →
  (∀ st mk, I st → gap_maker mk → I (emit st mk)) →
  identify_gaps limit g artifacts orph = Ok gaps →
  ∃ counter, I (gaps, counter).
Proof.
  intros Hinit Hemit. unfold identify_gaps.
  assert (Heach : ∀ (mk : orphan → string → gap) l st,
             (∀ o, gap_maker (mk o)) → I st →
             I (fold_left (fun st o => emit st (mk o)) l st)).
  { intros mk l. induction l as [| o l IH]; intros st Hmk Hst; cbn [fold_left]; [exact Hst |].
    apply IH; [exact Hmk |]. apply Hemit; [exact Hst | apply Hmk]. }
  assert (Hchains : ∀ sys_req chains st st',
             chain_gaps g sys_req chains st = Ok st' → I st → I st').
  { intros sys_req chains. induction chains as [| chain rest IH]; intros st st' Hrun Hst;
      cbn [chain_gaps] in Hrun; [injection Hrun as <-; exact Hst |].
    destruct (classify_chain chain g) as [c |]; [| discriminate]. cbn [bind] in Hrun.
    destruct (existsb _ _); [| apply (IH _ _ Hrun Hst)].
    destruct (dict_index _ _) as [expected |]; [| discriminate]. cbn [bind] in Hrun.
    apply (IH _ _ Hrun). apply Hemit; [exact Hst |]. right. right. eauto. }
  assert (Hreqs : ∀ sys_reqs st st',
             sys_req_gaps limit g sys_reqs st = Ok st' → I st → I st').
  { induction sys_reqs as [| sys_req rest IH]; intros st st' Hrun Hst;
      cbn [sys_req_gaps] in Hrun; [injection Hrun as <-; exact Hst |].
    destruct (trace_chain_forward _ _ _) as [chains |]; [| discriminate]. cbn [bind] in Hrun.
    destruct (chain_gaps _ _ _ _) as [st1 |] eqn:H1; [| discriminate]. cbn [bind] in Hrun.
    apply (IH _ _ Hrun). apply (Hchains _ _ _ _ H1 Hst). }
  destruct (sys_req_gaps _ _ _ _) as [[gaps' counter] |] eqn:H3; [| discriminate].
  cbn [bind fst]. intros [= <-]. exists counter. apply (Hreqs _ _ _ H3).
  apply Heach; [intros o; right; left; eauto |].
  apply Heach; [intros o; left; eauto | exact Hinit].
Qed.

Lemma gap_maker_id (mk : string → gap) (gid : string) : gap_maker mk → gap_id (mk gid) = gid.
Proof.
  intros [[o ->] | [[o ->] | (s & e & c & cl & ->)]]; reflexivity.
Qed.

Lemma gap_maker_severity (mk : string → gap) (gid : string) :
  gap_maker mk → severity (mk gid) ≠ low.
Proof.
  intros [[o ->] | [[o ->] | (s & e & c & cl & ->)]]; cbn.
  - discriminate.
  - unfold no_children_severity. destruct (str_in_list _ _); [discriminate |].
    destruct (String.eqb _ _); discriminate.
  - destruct (classification_eqb cl INCOMPLETE); discriminate.
Qed.

Lemma parse_format (n : nat) : parse_counter (format_03d n) = Some n.
Proof.
  unfold parse_counter, format_03d.
  pose proof (NilEmpty.usu (Nat.to_uint n)) as Hparse.
  pose proof (DecimalNat.Unsigned.of_to n) as Hval.
  set (s := NilEmpty.string_of_uint (Nat.to_uint n)) in *.
  destruct (String.length s) as [| [| [| k]]].
  - change ("000" +:+ s) with (String "0" (String "0" (String "0" s))).
    cbn [NilEmpty.uint_of_string]. rewrite Hparse. cbn. rewrite <- Hval at 2. reflexivity.
  - change ("00" +:+ s) with (String "0" (String "0" s)).
    cbn [NilEmpty.uint_of_string]. rewrite Hparse. cbn. rewrite <- Hval at 2. reflexivity.
  - change ("0" +:+ s) with (String "0" s).
    cbn [NilEmpty.uint_of_string]. rewrite Hparse. cbn. rewrite <- Hval at 2. reflexivity.
  - rewrite Hparse. cbn. rewrite Hval. reflexivity.
Qed.

Lemma gap_id_of_inj (n m : nat) : gap_id_of n = gap_id_of m → n = m.
Proof.
  unfold gap_id_of. intros H.
  change ("GAP-" +:+ format_03d n) with
    (String "G" (String "A" (String "P" (String "-" (format_03d n))))) in H.
  change ("GAP-" +:+ format_03d m) with
    (String "G" (String "A" (String "P" (String "-" (format_03d m))))) in H.
  injection H as H. pose proof (parse_format n) as Hn. rewrite H, parse_format in Hn.
  congruence.
Qed.

(** Gap ids are assigned in discovery order, GAP-001, GAP-002, ..., and no
    two gaps of a run share an id. *)
Theorem identify_gaps_ids (limit : nat) (g : graph) (artifacts : dict artifact)
    (orph : orphans) (gaps : list gap) :
  identify_gaps limit g artifacts orph = Ok gaps →
  map gap_id gaps = map gap_id_of (seq 1 (List.length gaps))
  ∧ NoDup (map gap_id gaps).
Proof.
  intros Hrun.
  destruct (identify_gaps_invariant
              (fun st => snd st = S (List.length (fst st))
                         ∧ map gap_id (fst st) = map gap_id_of (seq 1 (List.length (fst st))))
              limit g artifacts orph gaps) as (counter & _ & Hids); try assumption.
  - split; reflexivity.
  - intros [gs n] mk [Hn Hids] Hmk. cbn [fst snd] in *. subst n. cbn [emit fst snd].
    rewrite length_app, Nat.add_comm. cbn [List.length Nat.add]. split; [reflexivity |].
    rewrite map_app, seq_S, map_app, Hids. cbn [map].
    rewrite (gap_maker_id mk _ Hmk). reflexivity.
  - cbn [fst] in Hids. split; [exact Hids |]. rewrite Hids.
    apply NoDup_fmap_2; [intros n m; apply gap_id_of_inj | apply NoDup_seq].
Qed.

(** No gap is ever of severity low: the count of low gaps in the summary of
    a run is 0, and the critical, high and medium counts add up to the
    total. *)
Theorem gap_summary_no_low (limit : nat) (g : graph) (artifacts : dict artifact)
    (orph : orphans) (gaps : list gap) :
  identify_gaps limit g artifacts orph = Ok gaps →
  n_low (summarize gaps) = 0%nat
  ∧ total (summarize gaps)
    = (n_critical (summarize gaps) + n_high (summarize gaps)
       + n_medium (summarize gaps))%nat.
Proof.
  intros Hrun.
  destruct (identify_gaps_invariant
              (fun st => Forall (fun gp => severity gp ≠ low) (fst st))
              limit g artifacts orph gaps) as (counter & Hall); try assumption.
  - constructor.
  - intros st mk Hst Hmk. apply emit_keeps; [exact Hst |].
    intros gid. apply gap_maker_severity, Hmk.
  - cbn [fst] in Hall. unfold summarize, count_severity. cbn [n_low total n_critical n_high n_medium].
    clear Hrun. induction Hall as [| gp gaps Hgp _ IH]; [split; reflexivity |].
    cbn [List.filter List.length]. destruct IH as [IHlow IHtotal].
    destruct (severity gp); try contradiction; cbn [severity_eqb List.length]; lia.
Qed.

Lemma identify_gaps_ids_witness :
  map gap_id uncovered_gaps = ["GAP-001"; "GAP-002"; "GAP-003"; "GAP-004"]
  ∧ map gap_id uncovered_gaps = map gap_id_of (seq 1 (List.length uncovered_gaps))
  ∧ NoDup (map gap_id uncovered_gaps).
Proof.
  split; [vm_compute; reflexivity |].
  apply (identify_gaps_ids 100 uncovered_graph uncovered_artifacts
           (find_orphans uncovered_graph uncovered_artifacts)).
  vm_compute. reflexivity.
Defined.

Lemma gap_summary_no_low_witness :
  n_low (summarize uncovered_gaps) = 0%nat
  ∧ total (summarize uncovered_gaps)
    = (n_critical (summarize uncovered_gaps) + n_high (summarize uncovered_gaps)
       + n_medium (summarize uncovered_gaps))%nat.
Proof.
  apply (gap_summary_no_low 100 uncovered_graph uncovered_artifacts
           (find_orphans uncovered_graph uncovered_artifacts)).
  vm_compute. reflexivity.
Defined.

End OrphansAndGaps.

(** ** What adjudication can accept *)

Section Adjudication.

Import Linker HierarchicalLinker.
Local Open Scope Q_scope.

Lemma accept_accepts (why : string) (cand : candidate) : accepts cand (accept why cand).
Proof. repeat split. left. reflexivity. Qed.

Lemma find_candidate_spec (tid : string) (candidates : list candidate) (cand : candidate) :
  find_candidate tid candidates = Some cand → In cand candidates ∧ c_target_id cand = tid.
Proof.
  unfold find_candidate. intros H. apply find_some in H as [Hin Heq].
  apply String.eqb_eq in Heq. auto.
Qed.

Lemma validate_selected_accepts (candidates : list candidate) (sel : selected_target)
    (vs : list selection) :
  validate_selected candidates sel = Some vs →
  ∀ s, In s vs → ∃ cand, In cand candidates ∧ accepts cand s.
Proof.
  unfold validate_selected.
  destruct (sel_confidence sel) as [| | c]; [discriminate | intros [= <-] ? [] |].
  destruct (Qge_bool c 0.6) eqn:Hc; [| intros [= <-] ? []].
  destruct candidates as [| c0 cs]; [intros [= <-] ? [] |].
  destruct (sel_target_id sel) as [tid |]; [| discriminate].
  destruct (find_candidate tid (c0 :: cs)) as [cand |] eqn:Hfind; [| intros [= <-] ? []].
  destruct (sel_reasoning sel) as [why |]; [| discriminate].
  intros [= <-] s [<- | []]. apply find_candidate_spec in Hfind as [Hin Htid].
  exists cand. split; [exact Hin |]. repeat split; [symmetry; exact Htid |].
  right. apply Qle_bool_iff. exact Hc.
Qed.

Lemma validate_all_accepts (candidates : list candidate) (selected : list selected_target) :
  ∀ vs, validate_all candidates selected = Some vs →
  ∀ s, In s vs → ∃ cand, In cand candidates ∧ accepts cand s.
Proof.
  induction selected as [| sel rest IH]; intros vs; cbn [validate_all].
  - intros [= <-] ? [].
  - destruct (validate_selected candidates sel) as [v1 |] eqn:H1; [| discriminate].
    destruct (validate_all candidates rest) as [v2 |]; [| discriminate].
    intros [= <-] s Hs. apply in_app_or in Hs as [Hs | Hs].
    + apply (validate_selected_accepts _ _ _ H1 s Hs).
    + apply (IH v2 eq_refl s Hs).
Qed.

Lemma fallback_accepts (why : string) (candidates : list candidate) (s : selection) :
  In s (map (accept why) (firstn 3 candidates)) → ∃ cand, In cand candidates ∧ accepts cand s.
Proof.
  intros Hs. apply in_map_iff in Hs as (cand & <- & Hin). exists cand.
  split; [apply (in_firstn 3), Hin | apply accept_accepts].
Qed.

Lemma select_targets_accepts (groq_client : option llm_client) (use_llm : bool)
    (source : artifact) (candidates : list candidate) (sel : selection) :
  In sel (select_targets groq_client use_llm source candidates) →
  ∃ cand, In cand candidates ∧ accepts cand sel.
Proof.
  unfold select_targets.
  assert (Hall : In sel (map (accept "Multi-signal match") candidates) →
                 ∃ cand, In cand candidates ∧ accepts cand sel).
  { intros Hs. apply in_map_iff in Hs as (cand & <- & Hin). exists cand.
    split; [exact Hin | apply accept_accepts]. }
  destruct groq_client as [client |]; [| exact Hall].
  destruct (use_llm && _); [| exact Hall].
  unfold _llm_select_targets. intros Hs.
  assert (Hten : (∃ cand, In cand (firstn 10 candidates) ∧ accepts cand sel) →
                 ∃ cand, In cand candidates ∧ accepts cand sel).
  { intros (cand & Hin & Hacc). exists cand. split; [apply (in_firstn 10), Hin | exact Hacc]. }
  apply Hten.
  destruct (client source (firstn 10 candidates)) as [| | selected].
  - apply (fallback_accepts _ _ _ Hs).
  - apply (fallback_accepts _ _ _ Hs).
  - destruct (validate_all _ selected) as [vs |] eqn:Hv.
    + apply (validate_all_accepts _ _ _ Hv _ Hs).
    + apply (fallback_accepts _ _ _ Hs).
Qed.

(** Whatever the adjudicator answers, every target [_link_layer] accepts
    for a source is one of the candidates found for it, with that
    candidate's match details: a target the adjudicator makes up never
    becomes a link. Its confidence is the candidate's score or, when the
    adjudicator selected it, at least 0.6. *)
Theorem select_targets_among_candidates (groq_client : option llm_client) (use_llm : bool)
    (source : artifact) (candidates : list candidate) (sel : selection) :
  In sel (select_targets groq_client use_llm source candidates) →
  ∃ cand, In cand candidates ∧ accepts cand sel.
Proof. apply select_targets_accepts. Qed.


(** With an adjudicator that fails, the first candidate is accepted. *)
Lemma select_targets_among_candidates_witness :
  ∃ cand, In cand two_candidates
          ∧ accepts cand (accept "LLM unavailable, using multi-signal match"
                            {| c_target_id := "HLR-001-A"; c_score := 0.3;
                               c_match_details := sample_details |}).
Proof.
  apply (select_targets_among_candidates (Some (fun _ _ => CallRaised)) true
           (requirement "SYS-001-A" "SYSTEM_REQ_DECOMPOSED") two_candidates).
  left. reflexivity.
Defined.

End Adjudication.

(** ** The hierarchy tables and the layer analysis *)

Section LayerAnalysis.

Import Analyzer HierarchicalLayers.

(** The two hierarchy tables of [id_utils] are inverse to each other: [c]
    is the expected child type of [p] exactly when [p] is the expected
    parent type of [c]. *)
Theorem hierarchy_tables_inverse (p c : string) :
  get_expected_child_type p = Some c ↔ get_expected_parent_type c = Some p.
Proof.
  unfold get_expected_child_type, get_expected_parent_type. cbn [dict_get].
  split.
  - repeat match goal with
           | |- context [String.eqb ?s p] =>
               destruct (String.eqb_spec s p) as [<- | ?];
               [cbv iota; intros [= <-]; reflexivity |]
           end.
    discriminate.
  - repeat match goal with
           | |- context [String.eqb ?s c] =>
               destruct (String.eqb_spec s c) as [<- | ?];
               [cbv iota; intros [= <-]; reflexivity |]
           end.
    discriminate.
Qed.

Lemma for_fold_prefix {S A : Type} (P : list A → S → Prop) (f : S → A → result S)
    (l : list A) (s0 r : S) :
  P [] s0 →
  (∀ done x s s', P done s → f s x = Ok s' → P (done ++ [x]) s') →
  for_fold f l s0 = Ok r →
  P l r.
Proof.
  intros H0 Hstep.
  assert (∀ todo done s, P done s → for_fold f todo s = Ok r → P (done ++ todo) r) as Hgen.
  { induction todo as [| x todo IH]; intros done s Hs; cbn [for_fold].
    - intros [= <-]. rewrite app_nil_r. exact Hs.
    - destruct (f s x) as [s' |] eqn:Hx; [| discriminate]. cbn [bind]. intros Hrun.
      change (x :: todo) with ([x] ++ todo). rewrite app_assoc.
      apply (IH _ s'); [apply (Hstep _ _ s); assumption | exact Hrun]. }
  apply (Hgen l [] s0 H0).
Qed.

Lemma for_fold_returns {S A : Type} (P : S → Prop) (f : S → A → result S) (l : list A) :
  (∀ s x, In x l → P s → ∃ s', f s x = Ok s' ∧ P s') →
  ∀ s, P s → ∃ s', for_fold f l s = Ok s' ∧ P s'.
Proof.
  induction l as [| x l IH]; intros Hf s Hs; cbn [for_fold]; [eauto |].
  destruct (Hf s x (or_introl eq_refl) Hs) as (s' & -> & Hs'). cbn [bind].
  apply IH; [| exact Hs']. intros s1 y Hy. apply Hf. right. exact Hy.
Qed.

Lemma of_type_spec (artifacts : dict artifact) (t : string) (ids xs : list string) :
  of_type artifacts t ids = Ok xs →
  ∀ c, In c xs ↔ In c ids ∧ ∃ a, dict_get artifacts c = Some a ∧ a_type a = t.
Proof.
  unfold of_type. intros Hrun c. apply for_each_in in Hrun as [_ Hin]. rewrite Hin. split.
  - intros (x & ys & Hx & Hys & Hc). unfold dict_index in Hys.
    destruct (dict_get artifacts x) as [a |] eqn:Hget; [| discriminate]. cbn [bind] in Hys.
    destruct (String.eqb_spec (a_type a) t) as [Ht |]; injection Hys as <-; [| destruct Hc].
    destruct Hc as [<- | []]. eauto.
  - intros (Hc & a & Hget & Ht). exists c, [c]. split; [exact Hc |]. split; [| left; reflexivity].
    unfold dict_index. rewrite Hget. cbn [bind]. rewrite <- Ht, String.eqb_refl. reflexivity.
Qed.

Lemma of_type_all (artifacts : dict artifact) (t : string) (ids : list string) :
  (∀ c, In c ids → ∃ a, dict_get artifacts c = Some a ∧ a_type a = t) →
  of_type artifacts t ids = Ok ids.
Proof.
  unfold of_type. induction ids as [| c ids IH]; intros Hall; cbn [for_each]; [reflexivity |].
  destruct (Hall c (or_introl eq_refl)) as (a & Hget & Ht). unfold dict_index at 1.
  rewrite Hget. cbn [bind]. rewrite Ht, String.eqb_refl.
  rewrite IH; [reflexivity |]. intros c' Hc'. apply Hall. right. exact Hc'.
Qed.

Lemma is_empty_false {A : Type} (l : list A) : negb (is_empty l) = true ↔ l ≠ [].
Proof. destruct l; cbn; split; congruence. Qed.

(** [_analyze_hlr_layer] sorts every HLR into exactly one of its three
    lists, so that the three counts add up to [total]; a complete HLR has a
    parent and a child that is an LLR, an orphaned one has neither. *)
Theorem hlr_layer_partition (artifacts : dict artifact) (g : graph) (r : layer_report) :
  _analyze_hlr_layer artifacts g = Ok r →
  Permutation
    (map e_id (complete (lists r) ++ partial (lists r) ++ orphaned (lists r)))
    (map a_id (List.filter (fun a => String.eqb (a_type a) "HLR") (dict_values artifacts)))
  ∧ total r
    = (List.length (complete (lists r)) + List.length (partial (lists r))
       + List.length (orphaned (lists r)))%nat
  ∧ (∀ e, In e (complete (lists r)) →
          parents_of g (e_id e) ≠ [] ∧ ∃ c, child_of_type artifacts g "LLR" (e_id e) c)
  ∧ (∀ e, In e (orphaned (lists r)) →
          parents_of g (e_id e) = [] ∧ ∀ c, ¬ child_of_type artifacts g "LLR" (e_id e) c).
Proof.
  unfold _analyze_hlr_layer.
  set (hlrs := List.filter _ _).
  destruct (for_fold _ hlrs _) as [ls |] eqn:Hrun; [| discriminate]. cbn [bind].
  intros [= <-]. cbn [total lists].
  pose (P := fun (done : list artifact) (s : layer_lists) =>
    Permutation (map e_id (complete s ++ partial s ++ orphaned s)) (map a_id done)
    ∧ (∀ e, In e (complete s) →
            parents_of g (e_id e) ≠ [] ∧ ∃ c, child_of_type artifacts g "LLR" (e_id e) c)
    ∧ (∀ e, In e (orphaned s) →
            parents_of g (e_id e) = [] ∧ ∀ c, ¬ child_of_type artifacts g "LLR" (e_id e) c)).
  assert (P hlrs ls) as (Hperm & Hcomplete & Horphaned).
  { apply (for_fold_prefix P _ _ _ _) with (3 := Hrun).
    - unfold P. cbn. split; [reflexivity |]. split; intros e [].
    - unfold P. clear. intros done hlr s s' (Hperm & Hcomplete & Horphaned).
      unfold hlr_step.
      destruct (of_type artifacts "LLR" _) as [llr_children |] eqn:Hllr; [| discriminate].
      cbn [bind]. pose proof (of_type_spec _ _ _ _ Hllr) as Hspec.
      assert (llr_children ≠ [] ↔ ∃ c, child_of_type artifacts g "LLR" (a_id hlr) c)
        as Hchild.
      { unfold child_of_type. split.
        - destruct llr_children as [| c cs]; [congruence |]. intros _. exists c.
          apply Hspec. left. reflexivity.
        - intros (c & Hc) ->. apply Hspec in Hc. destruct Hc. }
      destruct (negb (is_empty (parents_of g (a_id hlr)))) eqn:Hp;
        destruct (negb (is_empty llr_children)) eqn:Hc; cbn [andb orb];
        intros [= <-]; cbn [complete partial orphaned];
        rewrite !map_app in *; cbn [map e_id].
      + split; [| split; [| exact Horphaned]].
        * rewrite <- Hperm, <- !app_assoc. apply Permutation_app_head.
          rewrite (app_assoc (map e_id (partial s))). apply Permutation_app_comm.
        * intros e He. apply in_app_or in He as [He | [<- | []]]; [auto |].
          cbn [e_id]. split; [apply is_empty_false, Hp |]. apply Hchild, is_empty_false, Hc.
      + split; [| split; assumption].
        rewrite <- Hperm, <- !app_assoc. do 2 apply Permutation_app_head.
        apply Permutation_app_comm.
      + split; [| split; assumption].
        rewrite <- Hperm, <- !app_assoc. do 2 apply Permutation_app_head.
        apply Permutation_app_comm.
      + split; [| split; [exact Hcomplete |]].
        * rewrite <- Hperm, !app_assoc. reflexivity.
        * intros e He. apply in_app_or in He as [He | [<- | []]]; [auto |].
          cbn [e_id]. split.
          -- apply is_empty_spec. apply negb_false_iff, Hp.
          -- intros c Hcc. apply negb_false_iff, is_empty_spec in Hc.
             apply Hchild; [eauto | exact Hc]. }
  repeat split; try assumption.
  - apply Permutation_length in Hperm. rewrite !length_map, !length_app in Hperm.
    rewrite <- Hperm. lia.
  - apply Hcomplete, H.
  - apply Hcomplete, H.
  - apply Horphaned, H.
  - apply Horphaned, H.
Qed.

End LayerAnalysis.

(** ** The links of a run and the chains over them *)

Section LinksOfARun.

Import Analyzer Linker Establish.
Local Open Scope Q_scope.

Variable artifacts : dict artifact.
Variable idx : indexer.
Variable config : linking_config.

Hypothesis Hkeyed : keyed_by_id artifacts.
Hypothesis Hchildren : children_decomposed artifacts.

Lemma value_is_keyed (a : artifact) :
  In a (dict_values artifacts) → dict_get artifacts (a_id a) = Some a.
Proof.
  unfold dict_values. intros Hin. apply in_map_iff in Hin as ([k a'] & Heq & Hin).
  cbn in Heq. subst a'. destruct (Hkeyed k a Hin) as [-> Hget]. exact Hget.
Qed.

Lemma decomposition_links_decompose (links : list link) :
  decomposition_links artifacts = Ok links →
  Forall (fun l => ∃ src tgt,
            dict_get artifacts (source_id l) = Some src
            ∧ dict_get artifacts (target_id l) = Some tgt
            ∧ link_type l = "decomposes" ∧ a_type src = "SYSTEM_REQ"
            ∧ a_type tgt = "SYSTEM_REQ_DECOMPOSED" ∧ confidence l = 1.0) links.
Proof.
  unfold decomposition_links. intros Hrun. apply for_each_in in Hrun as [_ Hin].
  apply Forall_forall. intros l Hl. apply list_elem_of_In, Hin in Hl
    as ([k a] & ys & Hitem & Hys & Hl).
  destruct (String.eqb_spec (a_type a) "SYSTEM_REQ") as [Htype |];
    [| cbn in Hys; injection Hys as <-; destruct Hl].
  destruct (negb _); [| cbn in Hys; injection Hys as <-; destruct Hl]. cbn [andb] in Hys.
  apply for_each_in in Hys as [_ Hin']. apply Hin' in Hl as (c & zs & Hc & Hzs & Hl).
  destruct (dict_index artifacts c) as [child |] eqn:Hchild; [| discriminate].
  cbn [bind] in Hzs. injection Hzs as <-. destruct Hl as [<- | []].
  destruct (Hkeyed k a Hitem) as [_ Hget].
  destruct (Hchildren k a Hitem Htype c Hc) as (child' & Hget' & Htype').
  exists a, child'. cbn [source_id target_id link_type confidence create_link].
  split; [exact Hget |]. split; [exact Hget' |]. auto.
Qed.

Lemma decomposition_links_layered (links : list link) :
  decomposition_links artifacts = Ok links → Forall (layered_link artifacts config) links.
Proof.
  intros Hrun. apply (Forall_impl _ _ _ (decomposition_links_decompose _ Hrun)).
  intros l (src & tgt & Hs & Ht & Hkind). exists src, tgt. auto.
Qed.

Lemma find_candidates_entry (sid target_type : string) (top_k : nat)
    (results : list (string * Q * match_details)) (c : string * Q * match_details) :
  find_candidates artifacts idx config sid target_type top_k = Ok results →
  In c results →
  fst (fst c) ≠ sid
  ∧ ∃ art, dict_get artifacts (fst (fst c)) = Some art ∧ a_type art = target_type.
Proof.
  unfold find_candidates.
  destruct (dict_index artifacts sid) as [source |]; [| discriminate]. cbn [bind].
  destruct (get_embedding idx sid) as [emb |]; [| intros [= <-] []].
  intros [= <-] Hin. destruct c as [[cid score] md].
  apply firstn_sort_desc_in, in_flat_map_option in Hin as (n & _ & Hn).
  apply (link_manager_entry _ _ _ _ _ _ _ _ _ Hn).
Qed.

Lemma layer_links_layered (source_type target_type kind : string) (links : list link) :
  layer_links artifacts idx config source_type target_type kind = Ok links →
  ∀ l, In l links →
       link_type l = kind
       ∧ threshold_of config (source_type +:+ "->" +:+ target_type) <= confidence l
       ∧ source_id l ≠ target_id l
       ∧ ∃ src tgt, dict_get artifacts (source_id l) = Some src
                    ∧ dict_get artifacts (target_id l) = Some tgt
                    ∧ a_type src = source_type ∧ a_type tgt = target_type.
Proof.
  unfold layer_links. intros Hrun l Hl. apply for_each_in in Hrun as [_ Hin].
  apply Hin in Hl as (source & ys & Hsource & Hys & Hl).
  apply filter_In in Hsource as [Hvalue Htype]. apply String.eqb_eq in Htype.
  destruct (find_candidates _ _ _ _ _ _) as [candidates |] eqn:Hfind; [| discriminate].
  cbn [bind] in Hys. apply for_each_in in Hys as [_ Hin'].
  apply Hin' in Hl as ([[target score] md] & zs & Hc & Hzs & Hl).
  destruct (Qge_bool score _) eqn:Hscore; [| injection Hzs as <-; destruct Hl].
  destruct (dict_index artifacts target); [| discriminate]. cbn [bind] in Hzs.
  injection Hzs as <-. destruct Hl as [<- | []].
  destruct (find_candidates_entry _ _ _ _ _ Hfind Hc) as (Hne & tgt & Htgt & Httype).
  cbn [fst] in *. cbn [source_id target_id link_type confidence create_link].
  split; [reflexivity |]. split; [apply Qle_bool_iff, Hscore |].
  split; [congruence |]. exists source, tgt. auto using value_is_keyed.
Qed.

Lemma establish_links_all_layered (links : list link) :
  establish_links artifacts idx config = Ok links →
  Forall (layered_link artifacts config) links.
Proof.
  unfold establish_links.
  destruct (decomposition_links artifacts) as [l0 |] eqn:H0; [| discriminate]. cbn [bind].
  destruct (layer_links _ _ _ "SYSTEM_REQ_DECOMPOSED" _ _) as [l1 |] eqn:H1; [| discriminate].
  cbn [bind].
  destruct (layer_links _ _ _ "HLR" _ _) as [l2 |] eqn:H2; [| discriminate]. cbn [bind].
  destruct (layer_links _ _ _ "LLR" _ _) as [l3 |] eqn:H3; [| discriminate]. cbn [bind].
  intros [= <-]. rewrite !Forall_app. repeat split.
  - apply (decomposition_links_layered _ H0).
  - apply Forall_forall. intros l Hl. apply list_elem_of_In in Hl.
    destruct (layer_links_layered _ _ _ _ H1 l Hl) as (? & ? & _ & src & tgt & ? & ? & ? & ?).
    exists src, tgt. split; [assumption |]. split; [assumption |]. right. left. auto.
  - apply Forall_forall. intros l Hl. apply list_elem_of_In in Hl.
    destruct (layer_links_layered _ _ _ _ H2 l Hl) as (? & ? & _ & src & tgt & ? & ? & ? & ?).
    exists src, tgt. split; [assumption |]. split; [assumption |]. right. right. left. auto.
  - apply Forall_forall. intros l Hl. apply list_elem_of_In in Hl.
    destruct (layer_links_layered _ _ _ _ H3 l Hl) as (? & ? & _ & src & tgt & ? & ? & ? & ?).
    exists src, tgt. split; [assumption |]. split; [assumption |]. right. right. right. auto.
Qed.

(** Every link [LinkManager.establish_links] creates joins two artifacts of
    consecutive types: a SYSTEM_REQ to a decomposed part at confidence 1.0,
    or a source to a target of the next layer at a confidence no lower than
    the layer's threshold. *)
Theorem establish_links_layered (links : list link) (l : link) :
  establish_links artifacts idx config = Ok links →
  In l links →
  layered_link artifacts config l.
Proof.
  intros Hrun Hl. apply establish_links_all_layered in Hrun.
  rewrite Forall_forall in Hrun. apply Hrun, list_elem_of_In, Hl.
Qed.

Lemma layered_joins (l : link) : layered_link artifacts config l → joins_layers artifacts l.
Proof.
  intros (src & tgt & Hs & Ht & Hkind). exists src, tgt.
  split; [exact Hs |]. split; [exact Ht |]. tauto.
Qed.

Lemma joined_descends (l : link) :
  joins_layers artifacts l →
  height artifacts (source_id l) = S (height artifacts (target_id l)).
Proof.
  intros (src & tgt & Hs & Ht & Hkind). unfold height. rewrite Hs, Ht.
  destruct Hkind as [[-> ->] | [[-> ->] | [[-> ->] | [-> ->]]]]; reflexivity.
Qed.

Lemma joined_edges (links : list link) (x y : string) :
  Forall (joins_layers artifacts) links →
  In y (children_of (build_trace_graph artifacts links) x) →
  height artifacts x = S (height artifacts y).
Proof.
  intros Hall Hy. unfold build_trace_graph in Hy.
  change (fold_left _ links) with (fold_left add_link links) in Hy.
  destruct (fold_links links {| nodes := artifacts; edges_down := ∅; edges_up := ∅ |} x)
    as (_ & Hc & _).
  rewrite Hc in Hy. unfold children_of in Hy at 1. cbn [edges_down] in Hy.
  rewrite lookup_empty in Hy. cbn [default app] in Hy.
  apply in_map_iff in Hy as (l & <- & Hl). apply filter_In in Hl as [Hl Hsrc].
  apply String.eqb_eq in Hsrc as <-. rewrite Forall_forall in Hall.
  apply joined_descends, Hall, list_elem_of_In, Hl.
Qed.

Lemma height_le_4 (node_id : string) : (height artifacts node_id ≤ 4)%nat.
Proof.
  unfold height, layer_of. destruct (dict_get artifacts node_id); [| lia].
  repeat (destruct (String.eqb _ _); [lia |]). lia.
Qed.

Lemma descending_dfs_returns (g : graph) (limit : nat) :
  (∀ x y, In y (children_of g x) → height artifacts x = S (height artifacts y)) →
  ∀ node_id path, (height artifacts node_id < limit)%nat →
                  ∃ chains, Analyzer.dfs limit g node_id path = Ok chains.
Proof.
  intros Hedges. induction limit as [| limit IH]; intros node_id path Hlt; [lia |].
  cbn [Analyzer.dfs].
  destruct (children_of g node_id) as [| c cs] eqn:Hch; [eauto |].
  apply for_each_ok. intros child Hchild. apply IH.
  rewrite <- Hch in Hchild. specialize (Hedges node_id child Hchild). lia.
Qed.

Lemma descending_path_length (g : graph) (p : list string) :
  (∀ x y, In y (children_of g x) → height artifacts x = S (height artifacts y)) →
  ∀ x, head p = Some x → leaf_path g p → (List.length p ≤ S (height artifacts x))%nat.
Proof.
  intros Hedges. induction p as [| z p IH]; intros x Hhead Hp; [discriminate |].
  injection Hhead as ->. apply leaf_path_cons in Hp as [[-> _] | (y & Hy & Hin & Hp)].
  - cbn. lia.
  - specialize (IH y Hy Hp). specialize (Hedges x y Hin). cbn [List.length]. lia.
Qed.

Lemma joined_chains_bounded (links : list link) (start_id : string) (limit : nat) :
  Forall (joins_layers artifacts) links →
  (5 ≤ limit)%nat →
  ∃ chains,
    trace_chain_forward limit (build_trace_graph artifacts links) start_id = Ok chains
    ∧ ∀ chain, In chain chains → (List.length chain ≤ 5)%nat.
Proof.
  intros Hall Hlimit.
  pose proof (fun x y => joined_edges links x y Hall) as Hedges.
  destruct (descending_dfs_returns _ limit Hedges start_id []) as [chains Hchains].
  { pose proof (height_le_4 start_id). lia. }
  exists chains. split; [exact Hchains |]. intros chain Hin.
  apply (unguarded_dfs_chains _ _ _ _ _ Hchains) in Hin as (p & -> & Hhead & Hp).
  cbn [app]. pose proof (descending_path_length _ p Hedges start_id Hhead Hp).
  pose proof (height_le_4 start_id). lia.
Qed.

(** On an artifact set keyed by id whose system requirements have
    decomposed requirements of the set as children, chain enumeration over
    the links [LinkManager.establish_links] creates needs no cycle guard:
    from every node [trace_chain_forward] returns within any recursion limit
    of at least 5 frames, and no chain has more than 5 nodes. *)
Theorem established_chains_bounded (links : list link) (start_id : string) (limit : nat) :
  establish_links artifacts idx config = Ok links →
  (5 ≤ limit)%nat →
  ∃ chains,
    trace_chain_forward limit (build_trace_graph artifacts links) start_id = Ok chains
    ∧ ∀ chain, In chain chains → (List.length chain ≤ 5)%nat.
Proof.
  intros Hrun Hlimit. apply joined_chains_bounded; [| exact Hlimit].
  apply (Forall_impl _ _ _ (establish_links_all_layered _ Hrun)). apply layered_joins.
Qed.

Variable groq_client : option HierarchicalLinker.llm_client.

Lemma hierarchical_entry_score (source : artifact) (target_type : string) (threshold : Q)
    (n : string * Q) (c : HierarchicalLinker.candidate) :
  HierarchicalLinker.candidate_entry artifacts config source target_type threshold n = Some c →
  threshold <= HierarchicalLinker.c_score c.
Proof.
  unfold HierarchicalLinker.candidate_entry. destruct n as [tid emb].
  destruct (dict_get artifacts tid) as [art |]; [| discriminate].
  destruct (negb (String.eqb _ _)); [discriminate |].
  destruct (compute_keyword_score source art), (compute_quantity_match source art).
  destruct (negb _); [discriminate |]. destruct (Qge_bool _ _) eqn:Hge; [| discriminate].
  intros [= <-]. cbn [HierarchicalLinker.c_score]. apply Qle_bool_iff, Hge.
Qed.

Lemma hierarchical_candidate (source : artifact) (target_type : string) (threshold : Q)
    (top_k : nat) (c : HierarchicalLinker.candidate) :
  In c (HierarchicalLinker._find_candidates artifacts idx config source target_type
          threshold top_k) →
  threshold <= HierarchicalLinker.c_score c
  ∧ ∃ art, dict_get artifacts (HierarchicalLinker.c_target_id c) = Some art
           ∧ a_type art = target_type.
Proof.
  unfold HierarchicalLinker._find_candidates.
  destruct (get_embedding idx (a_id source)) as [emb |]; [| intros []].
  intros Hin. apply firstn_sort_desc_in, in_flat_map_option in Hin as (n & _ & Hn).
  split; [apply (hierarchical_entry_score _ _ _ _ _ Hn) |].
  apply (hierarchical_entry _ _ _ _ _ _ _ Hn).
Qed.

Lemma link_layer_links (source_type target_type : string) (use_llm : bool) (l : link) :
  In l (HierarchicalLinker._link_layer artifacts idx config groq_client source_type
          target_type use_llm) →
  link_type l = "implements"
  ∧ (threshold_of config (source_type +:+ "->" +:+ target_type) * 0.7 <= confidence l
     ∨ 0.6 <= confidence l)
  ∧ ∃ src tgt, dict_get artifacts (source_id l) = Some src
               ∧ dict_get artifacts (target_id l) = Some tgt
               ∧ a_type src = source_type ∧ a_type tgt = target_type.
Proof.
  unfold HierarchicalLinker._link_layer. intros Hl.
  apply in_flat_map in Hl as (source & Hsource & Hl).
  apply filter_In in Hsource as [Hvalue Htype]. apply String.eqb_eq in Htype.
  unfold HierarchicalLinker.link_source in Hl.
  destruct (HierarchicalLinker._find_candidates _ _ _ _ _ _ _) as [| c0 cs] eqn:Hcands;
    [destruct Hl |].
  apply in_map_iff in Hl as (sel & <- & Hsel).
  apply select_targets_accepts in Hsel as (cand & Hcand & Htid & _ & Hconf).
  rewrite <- Hcands in Hcand. apply hierarchical_candidate in Hcand as (Hscore & tgt & Htgt & Ht).
  cbn [source_id target_id link_type confidence].
  split; [reflexivity |]. split.
  - destruct Hconf as [-> | Hconf]; [left; exact Hscore | right; exact Hconf].
  - exists source, tgt. rewrite Htid. auto using value_is_keyed.
Qed.

Lemma establish_all_links_all (links : list link) :
  establish_all_links artifacts idx config groq_client = Ok links →
  Forall (hierarchical_link artifacts config) links.
Proof.
  unfold establish_all_links.
  destruct (decomposition_links artifacts) as [l0 |] eqn:H0; [| discriminate]. cbn [bind].
  intros [= <-]. rewrite !Forall_app. repeat split.
  - apply (Forall_impl _ _ _ (decomposition_links_decompose _ H0)).
    intros l (src & tgt & Hs & Ht & Hkind). exists src, tgt. auto.
  - apply Forall_forall. intros l Hl. apply list_elem_of_In, link_layer_links in Hl
      as (? & ? & src & tgt & ? & ? & Hs & Ht).
    exists src, tgt. split; [assumption |]. split; [assumption |]. right.
    rewrite Hs, Ht. auto 6.
  - apply Forall_forall. intros l Hl. apply list_elem_of_In, link_layer_links in Hl
      as (? & ? & src & tgt & ? & ? & Hs & Ht).
    exists src, tgt. split; [assumption |]. split; [assumption |]. right.
    rewrite Hs, Ht. auto 6.
  - apply Forall_forall. intros l Hl. apply list_elem_of_In, link_layer_links in Hl
      as (? & ? & src & tgt & ? & ? & Hs & Ht).
    exists src, tgt. split; [assumption |]. split; [assumption |]. right.
    rewrite Hs, Ht. auto 6.
Qed.

(** Every link [HierarchicalLinker.establish_all_links] creates joins two
    artifacts of consecutive types: a decomposition at confidence 1.0, or an
    'implements' link, also from an LLR to a variable, whose confidence is
    at least 0.7 times the layer's threshold or at least 0.6, whatever the
    adjudicator answers. *)
Theorem establish_all_links_layered (links : list link) (l : link) :
  establish_all_links artifacts idx config groq_client = Ok links →
  In l links →
  hierarchical_link artifacts config l.
Proof.
  intros Hrun Hl. apply establish_all_links_all in Hrun.
  rewrite Forall_forall in Hrun. apply Hrun, list_elem_of_In, Hl.
Qed.

Lemma hierarchical_joins (l : link) :
  hierarchical_link artifacts config l → joins_layers artifacts l.
Proof.
  intros (src & tgt & Hs & Ht & Hkind). exists src, tgt.
  split; [exact Hs |]. split; [exact Ht |]. tauto.
Qed.

Lemma build_graph_fold (links : list link) (h : HierarchicalGraph.hierarchical_graph) :
  HierarchicalGraph.base
    (fold_left
       (fun g l =>
          {| HierarchicalGraph.base :=
               {| nodes := nodes (HierarchicalGraph.base g);
                  edges_down :=
                    add_edge (edges_down (HierarchicalGraph.base g)) (source_id l) (target_id l);
                  edges_up :=
                    add_edge (edges_up (HierarchicalGraph.base g)) (target_id l) (source_id l) |};
             HierarchicalGraph.links_by_source :=
               HierarchicalGraph.add_link_object (HierarchicalGraph.links_by_source g)
                 (source_id l) l;
             HierarchicalGraph.links_by_target :=
               HierarchicalGraph.add_link_object (HierarchicalGraph.links_by_target g)
                 (target_id l) l |})
       links h)
  = fold_left add_link links (HierarchicalGraph.base h).
Proof.
  revert h. induction links as [| l links IH]; intros h; [reflexivity |].
  cbn [fold_left]. rewrite IH. reflexivity.
Qed.

Lemma build_graph_base (links : list link) :
  HierarchicalGraph.base (HierarchicalGraph._build_graph artifacts links)
  = build_trace_graph artifacts links.
Proof. apply build_graph_fold. Qed.

(** On an artifact set keyed by id whose system requirements have
    decomposed requirements of the set as children, every chain
    [_find_all_chains] reports on the graph [_build_graph] makes of the
    links of [HierarchicalLinker.establish_all_links] has at most 5 nodes,
    and the unguarded [trace_chain_forward] returns the same chains on the
    graph of [build_trace_graph]. *)
Theorem hierarchical_chains_bounded (links : list link) (start_id : string) (limit : nat) :
  establish_all_links artifacts idx config groq_client = Ok links →
  (5 ≤ limit)%nat →
  ∃ chains,
    HierarchicalAnalyzer._find_all_chains limit start_id
      (HierarchicalGraph.base (HierarchicalGraph._build_graph artifacts links))
    = Ok chains
    ∧ trace_chain_forward limit (build_trace_graph artifacts links) start_id = Ok chains
    ∧ ∀ chain, In chain chains → (List.length chain ≤ 5)%nat.
Proof.
  intros Hrun Hlimit. rewrite build_graph_base.
  destruct (joined_chains_bounded links start_id limit) as (chains & Hchains & Hlen);
    [| exact Hlimit |].
  { apply (Forall_impl _ _ _ (establish_all_links_all _ Hrun)). apply hierarchical_joins. }
  exists chains. split; [| split; assumption].
  apply guarded_follows; [| exact Hchains]. intros x Hx. set_solver.
Qed.

Lemma joined_children (links : list link) (x y : string) :
  Forall (joins_layers artifacts) links →
  In y (children_of (build_trace_graph artifacts links) x) →
  ∃ l, In l links ∧ source_id l = x ∧ target_id l = y.
Proof.
  intros Hall Hy. unfold build_trace_graph in Hy.
  change (fold_left _ links) with (fold_left add_link links) in Hy.
  destruct (fold_links links {| nodes := artifacts; edges_down := ∅; edges_up := ∅ |} x)
    as (_ & Hc & _).
  rewrite Hc in Hy. unfold children_of in Hy at 1. cbn [edges_down] in Hy.
  rewrite lookup_empty in Hy. cbn [default app] in Hy.
  apply in_map_iff in Hy as (l & <- & Hl). apply filter_In in Hl as [Hl Hsrc].
  apply String.eqb_eq in Hsrc. eauto.
Qed.

Lemma next_layer (k : nat) (s t : string) :
  five_layers !! k = Some s →
  (s = "SYSTEM_REQ" ∧ t = "SYSTEM_REQ_DECOMPOSED")
  ∨ (s = "SYSTEM_REQ_DECOMPOSED" ∧ t = "HLR")
  ∨ (s = "HLR" ∧ t = "LLR")
  ∨ (s = "LLR" ∧ t = "CODE_VAR") →
  five_layers !! S k = Some t.
Proof.
  intros Hk Hst. do 5 (destruct k as [| k]; [injection Hk as <-;
    destruct Hst as [[Hs ->] | [[Hs ->] | [[Hs ->] | [Hs ->]]]]; try discriminate Hs;
    reflexivity |]).
  discriminate Hk.
Qed.

Lemma joined_child_layer (links : list link) (x y : string) (a : artifact) (k : nat) :
  Forall (joins_layers artifacts) links →
  In y (children_of (build_trace_graph artifacts links) x) →
  dict_get artifacts x = Some a →
  five_layers !! k = Some (a_type a) →
  ∃ b, dict_get artifacts y = Some b ∧ five_layers !! S k = Some (a_type b).
Proof.
  intros Hall Hy Hx Hk.
  destruct (joined_children links x y Hall Hy) as (l & Hl & <- & <-).
  rewrite Forall_forall in Hall. apply list_elem_of_In, Hall in Hl.
  destruct Hl as (src & tgt & Hs & Ht & Hkind). rewrite Hx in Hs. injection Hs as <-.
  exists tgt. split; [exact Ht |]. apply (next_layer k (a_type a)); assumption.
Qed.

Lemma joined_path_types (links : list link) :
  Forall (joins_layers artifacts) links →
  ∀ p k x a,
    head p = Some x →
    leaf_path (build_trace_graph artifacts links) p →
    dict_get artifacts x = Some a →
    five_layers !! k = Some (a_type a) →
    for_each (fun node_id => let* b := dict_index artifacts node_id in Ok [a_type b]) p
    = Ok (take (List.length p) (drop k five_layers))
    ∧ (k + List.length p ≤ 5)%nat.
Proof.
  intros Hall. induction p as [| z p IH]; intros k x a Hhead Hp Hx Hk; [discriminate |].
  injection Hhead as ->. cbn [for_each List.length]. unfold dict_index at 1. rewrite Hx.
  cbn [bind]. rewrite (drop_S _ _ _ Hk). cbn [take].
  apply leaf_path_cons in Hp as [[-> _] | (y & Hy & Hin & Hp)].
  - cbn [for_each bind app List.length take]. split; [reflexivity |].
    apply lookup_lt_Some in Hk. cbn in Hk. lia.
  - destruct (joined_child_layer links x y a k Hall Hin Hx Hk) as (b & Hb & Hk').
    destruct (IH (S k) y b Hy Hp Hb Hk') as [-> Hlen]. cbn [bind app].
    split; [reflexivity | lia].
Qed.

Lemma classify_by_length (n : nat) :
  (1 ≤ n ≤ 5)%nat →
  HierarchicalLayers.is_code_var (last (take n five_layers)) && (4 <=? n)%nat = (n =? 5)%nat.
Proof.
  intros Hn. do 6 (destruct n as [| n]; [try lia; vm_compute; reflexivity |]). lia.
Qed.

Lemma joined_chain_step (links : list link) (sys_req : artifact) (c : list string)
    (acc : HierarchicalLayers.chains_analysis) :
  Forall (joins_layers artifacts) links →
  In sys_req (dict_values artifacts) →
  a_type sys_req = "SYSTEM_REQ" →
  head c = Some (a_id sys_req) →
  leaf_path (build_trace_graph artifacts links) c →
  Forall (chain_of_depth 5 5) (HierarchicalLayers.complete_chains acc) →
  Forall (chain_of_depth 2 4) (HierarchicalLayers.partial_chains acc) →
  Forall (chain_of_depth 1 1) (HierarchicalLayers.broken_chains acc) →
  ∃ acc',
    HierarchicalLayers.chain_step artifacts sys_req acc c = Ok acc'
    ∧ Forall (chain_of_depth 5 5) (HierarchicalLayers.complete_chains acc')
    ∧ Forall (chain_of_depth 2 4) (HierarchicalLayers.partial_chains acc')
    ∧ Forall (chain_of_depth 1 1) (HierarchicalLayers.broken_chains acc').
Proof.
  intros Hall Hsys Htype Hhead Hp Hc5 Hc24 Hc1.
  assert (five_layers !! 0%nat = Some (a_type sys_req)) as Hk by (rewrite Htype; reflexivity).
  destruct (joined_path_types links Hall c 0 (a_id sys_req) sys_req Hhead Hp
              (value_is_keyed _ Hsys) Hk) as [Htypes Hlen].
  assert (1 ≤ List.length c)%nat as Hpos by (destruct c; [discriminate | cbn; lia]).
  unfold HierarchicalLayers.chain_step. rewrite Htypes. cbn [bind drop].
  rewrite classify_by_length by lia.
  assert (chain_of_depth (List.length c) (List.length c)
            {| HierarchicalLayers.system_req := a_id sys_req;
               HierarchicalLayers.chain := c;
               HierarchicalLayers.depth := List.length c;
               HierarchicalLayers.types := take (List.length c) five_layers |}) as Hinfo.
  { unfold chain_of_depth. cbn. repeat split; [exact Hhead | lia | lia]. }
  destruct (Nat.eqb_spec (List.length c) 5) as [H5 | H5].
  - eexists. split; [reflexivity |]. cbn. repeat split; try assumption.
    apply Forall_app. split; [assumption |]. apply Forall_singleton.
    rewrite H5 in Hinfo at 1 2. exact Hinfo.
  - destruct (Nat.leb_spec 2 (List.length c)) as [H2 | H2].
    + eexists. split; [reflexivity |]. cbn. repeat split; try assumption.
      apply Forall_app. split; [assumption |]. apply Forall_singleton.
      destruct Hinfo as (? & ? & ? & ?). repeat split; try assumption; cbn; lia.
    + eexists. split; [reflexivity |]. cbn. repeat split; try assumption.
      apply Forall_app. split; [assumption |]. apply Forall_singleton.
      destruct Hinfo as (? & ? & ? & ?). repeat split; try assumption; cbn; lia.
Qed.

Lemma joined_chains_classified (links : list link) (limit : nat) :
  Forall (joins_layers artifacts) links →
  (5 ≤ limit)%nat →
  ∃ ca,
    HierarchicalLayers.classify_chains limit artifacts (build_trace_graph artifacts links)
    = Ok ca
    ∧ Forall (chain_of_depth 5 5) (HierarchicalLayers.complete_chains ca)
    ∧ Forall (chain_of_depth 2 4) (HierarchicalLayers.partial_chains ca)
    ∧ Forall (chain_of_depth 1 1) (HierarchicalLayers.broken_chains ca).
Proof.
  intros Hall Hlimit. unfold HierarchicalLayers.classify_chains.
  apply (for_fold_returns
           (fun ca => Forall (chain_of_depth 5 5) (HierarchicalLayers.complete_chains ca)
                      ∧ Forall (chain_of_depth 2 4) (HierarchicalLayers.partial_chains ca)
                      ∧ Forall (chain_of_depth 1 1) (HierarchicalLayers.broken_chains ca)));
    [| cbn; auto].
  intros acc sys_req Hsys Hacc. apply filter_In in Hsys as [Hsys Htype].
  apply String.eqb_eq in Htype.
  destruct (joined_chains_bounded links (a_id sys_req) limit Hall Hlimit)
    as (chains & Hchains & _).
  assert (HierarchicalAnalyzer._find_all_chains limit (a_id sys_req)
            (build_trace_graph artifacts links) = Ok chains) as Hguarded.
  { apply guarded_follows; [| exact Hchains]. intros x Hx. set_solver. }
  rewrite Hguarded. cbn [bind].
  apply (for_fold_returns _ _ _); [| exact Hacc].
  intros acc' c Hc (H5 & H24 & H1).
  apply (unguarded_dfs_chains _ _ _ _ _ Hchains) in Hc as (p & -> & Hhead & Hp).
  cbn [app]. apply (joined_chain_step links); assumption.
Qed.

(** On an artifact set keyed by id whose system requirements have
    decomposed requirements of the set as children, [_analyze_chains]
    returns on the links [HierarchicalLinker.establish_all_links] creates,
    and the length of a chain decides its list: a complete chain has five
    nodes, a partial one two to four, a broken one is a system requirement
    alone; the types along every chain are those of the hierarchy from the
    top. *)
Theorem established_chains_classified (links : list link) (limit : nat) :
  establish_all_links artifacts idx config groq_client = Ok links →
  (5 ≤ limit)%nat →
  ∃ ca report,
    HierarchicalLayers.classify_chains limit artifacts
      (HierarchicalGraph.base (HierarchicalGraph._build_graph artifacts links)) = Ok ca
    ∧ HierarchicalLayers._analyze_chains limit artifacts
        (HierarchicalGraph.base (HierarchicalGraph._build_graph artifacts links)) = Ok report
    ∧ Forall (chain_of_depth 5 5) (HierarchicalLayers.complete_chains ca)
    ∧ Forall (chain_of_depth 2 4) (HierarchicalLayers.partial_chains ca)
    ∧ Forall (chain_of_depth 1 1) (HierarchicalLayers.broken_chains ca).
Proof.
  intros Hrun Hlimit. rewrite build_graph_base.
  destruct (joined_chains_classified links limit) as (ca & Hca & Hprops); [| exact Hlimit |].
  { apply (Forall_impl _ _ _ (establish_all_links_all _ Hrun)). apply hierarchical_joins. }
  exists ca. unfold HierarchicalLayers._analyze_chains. rewrite Hca. cbn [bind].
  eexists. split; [reflexivity |]. split; [reflexivity | exact Hprops].
Qed.

Lemma joined_hlr_children (links : list link) (hlr : artifact) :
  Forall (joins_layers artifacts) links →
  In hlr (dict_values artifacts) →
  a_type hlr = "HLR" →
  HierarchicalLayers.of_type artifacts "LLR"
    (children_of (build_trace_graph artifacts links) (a_id hlr))
  = Ok (children_of (build_trace_graph artifacts links) (a_id hlr)).
Proof.
  intros Hall Hin Htype. apply of_type_all. intros c Hc.
  assert (five_layers !! 2%nat = Some (a_type hlr)) as Hk by (rewrite Htype; reflexivity).
  destruct (joined_child_layer links (a_id hlr) c hlr 2 Hall Hc (value_is_keyed _ Hin) Hk)
    as (b & Hb & Hk').
  exists b. split; [exact Hb |]. injection Hk' as <-. reflexivity.
Qed.

(** On an artifact set keyed by id whose system requirements have
    decomposed requirements of the set as children, [_analyze_hlr_layer]
    returns on the links [HierarchicalLinker.establish_all_links] creates:
    no child of an HLR is missing from the artifacts; and every child of an
    HLR is an LLR, so that the LLR count of an entry is the number of the
    HLR's children. *)
Theorem hlr_layer_returns (links : list link) :
  establish_all_links artifacts idx config groq_client = Ok links →
  ∃ r,
    HierarchicalLayers._analyze_hlr_layer artifacts
      (HierarchicalGraph.base (HierarchicalGraph._build_graph artifacts links)) = Ok r
    ∧ ∀ e, In e (HierarchicalLayers.complete (HierarchicalLayers.lists r)
                 ++ HierarchicalLayers.partial (HierarchicalLayers.lists r)) →
           HierarchicalLayers.e_llr_count e
           = Some (List.length
                     (children_of (build_trace_graph artifacts links)
                        (HierarchicalLayers.e_id e))).
Proof.
  intros Hrun. rewrite build_graph_base.
  assert (Forall (joins_layers artifacts) links) as Hall.
  { apply (Forall_impl _ _ _ (establish_all_links_all _ Hrun)). apply hierarchical_joins. }
  unfold HierarchicalLayers._analyze_hlr_layer.
  destruct (for_fold_returns
              (fun s => ∀ e, In e (HierarchicalLayers.complete s
                                   ++ HierarchicalLayers.partial s) →
                             HierarchicalLayers.e_llr_count e
                             = Some (List.length
                                       (children_of (build_trace_graph artifacts links)
                                          (HierarchicalLayers.e_id e))))
              (HierarchicalLayers.hlr_step artifacts (build_trace_graph artifacts links))
              (List.filter (fun a => String.eqb (a_type a) "HLR") (dict_values artifacts)))
    with (s := {| HierarchicalLayers.complete := []; HierarchicalLayers.partial := [];
                  HierarchicalLayers.orphaned := [] |}) as (ls & -> & Hls).
  - intros s hlr Hhlr Hs. apply filter_In in Hhlr as [Hin Htype].
    apply String.eqb_eq in Htype. unfold HierarchicalLayers.hlr_step.
    rewrite (joined_hlr_children links hlr Hall Hin Htype). cbn [bind].
    destruct (negb (is_empty (parents_of _ _)) && negb (is_empty (children_of _ _)));
      [| destruct (negb (is_empty (parents_of _ _)) || negb (is_empty (children_of _ _)))];
      (eexists; split; [reflexivity |]);
      cbn [HierarchicalLayers.complete HierarchicalLayers.partial]; intros e He;
      rewrite ?in_app_iff in He; cbn [In] in He.
    + destruct He as [[He | [<- | []]] | He]; [apply Hs, in_or_app; auto | reflexivity |
                                                apply Hs, in_or_app; auto].
    + destruct He as [He | [He | [<- | []]]]; [apply Hs, in_or_app; auto |
                                                apply Hs, in_or_app; auto | reflexivity].
    + apply Hs, in_or_app. exact He.
  - intros e [].
  - cbn [bind]. eexists. split; [reflexivity |]. exact Hls.
Qed.

End LinksOfARun.

Section LinksOfASample.

Import Analyzer Linker Establish.

Lemma pipeline_keyed : keyed_by_id pipeline_artifacts.
Proof.
  intros k a [[= <- <-] | [[= <- <-] | [[= <- <-] | [[= <- <-] | []]]]]; split; reflexivity.
Qed.

Lemma pipeline_children : children_decomposed pipeline_artifacts.
Proof.
  intros k a [[= <- <-] | [[= <- <-] | [[= <- <-] | [[= <- <-] | []]]]] Htype;
    try discriminate Htype.
  intros c [<- | []]. exists altitude_part. split; reflexivity.
Qed.

Lemma establish_links_layered_witness :
  layered_link pipeline_artifacts default_config pipeline_link.
Proof.
  apply (establish_links_layered pipeline_artifacts pipeline_indexer default_config
           pipeline_keyed pipeline_children pipeline_links pipeline_link).
  - vm_compute. reflexivity.
  - vm_compute. right. left. reflexivity.
Defined.

Lemma established_chains_bounded_witness :
  ∃ chains,
    trace_chain_forward 1000 (build_trace_graph pipeline_artifacts pipeline_links) "SYS-001"
    = Ok chains
    ∧ ∀ chain, In chain chains → (List.length chain ≤ 5)%nat.
Proof.
  apply (established_chains_bounded pipeline_artifacts pipeline_indexer default_config
           pipeline_keyed pipeline_children pipeline_links "SYS-001" 1000).
  - vm_compute. reflexivity.
  - lia.
Defined.

Lemma establish_all_links_layered_witness :
  hierarchical_link pipeline_artifacts default_config pipeline_hierarchical_link.
Proof.
  apply (establish_all_links_layered pipeline_artifacts pipeline_indexer default_config
           pipeline_keyed pipeline_children None pipeline_hierarchical_links
           pipeline_hierarchical_link).
  - vm_compute. reflexivity.
  - vm_compute. right. left. reflexivity.
Defined.

Lemma hierarchical_chains_bounded_witness :
  ∃ chains,
    HierarchicalAnalyzer._find_all_chains 1000 "SYS-001"
      (HierarchicalGraph.base
         (HierarchicalGraph._build_graph pipeline_artifacts pipeline_hierarchical_links))
    = Ok chains
    ∧ trace_chain_forward 1000
        (build_trace_graph pipeline_artifacts pipeline_hierarchical_links) "SYS-001"
      = Ok chains
    ∧ ∀ chain, In chain chains → (List.length chain ≤ 5)%nat.
Proof.
  apply (hierarchical_chains_bounded pipeline_artifacts pipeline_indexer default_config
           pipeline_keyed pipeline_children None pipeline_hierarchical_links "SYS-001" 1000).
  - vm_compute. reflexivity.
  - lia.
Defined.

Lemma hlr_layer_partition_witness :
  Permutation
    (map HierarchicalLayers.e_id
       (HierarchicalLayers.complete (HierarchicalLayers.lists pipeline_hlr_report)
        ++ HierarchicalLayers.partial (HierarchicalLayers.lists pipeline_hlr_report)
        ++ HierarchicalLayers.orphaned (HierarchicalLayers.lists pipeline_hlr_report)))
    (map a_id
       (List.filter (fun a => String.eqb (a_type a) "HLR") (dict_values pipeline_artifacts)))
  ∧ HierarchicalLayers.total pipeline_hlr_report
    = (List.length (HierarchicalLayers.complete (HierarchicalLayers.lists pipeline_hlr_report))
       + List.length (HierarchicalLayers.partial (HierarchicalLayers.lists pipeline_hlr_report))
       + List.length
           (HierarchicalLayers.orphaned (HierarchicalLayers.lists pipeline_hlr_report)))%nat
  ∧ (∀ e, In e (HierarchicalLayers.complete (HierarchicalLayers.lists pipeline_hlr_report)) →
          parents_of (build_trace_graph pipeline_artifacts pipeline_hierarchical_links)
            (HierarchicalLayers.e_id e) ≠ []
          ∧ ∃ c, child_of_type pipeline_artifacts
                   (build_trace_graph pipeline_artifacts pipeline_hierarchical_links)
                   "LLR" (HierarchicalLayers.e_id e) c)
  ∧ (∀ e, In e (HierarchicalLayers.orphaned (HierarchicalLayers.lists pipeline_hlr_report)) →
          parents_of (build_trace_graph pipeline_artifacts pipeline_hierarchical_links)
            (HierarchicalLayers.e_id e) = []
          ∧ ∀ c, ¬ child_of_type pipeline_artifacts
                     (build_trace_graph pipeline_artifacts pipeline_hierarchical_links)
                     "LLR" (HierarchicalLayers.e_id e) c).
Proof.
  apply (hlr_layer_partition pipeline_artifacts
           (build_trace_graph pipeline_artifacts pipeline_hierarchical_links)
           pipeline_hlr_report).
  vm_compute. reflexivity.
Defined.

Lemma hlr_layer_returns_witness :
  ∃ r,
    HierarchicalLayers._analyze_hlr_layer pipeline_artifacts
      (HierarchicalGraph.base
         (HierarchicalGraph._build_graph pipeline_artifacts pipeline_hierarchical_links))
    = Ok r
    ∧ ∀ e, In e (HierarchicalLayers.complete (HierarchicalLayers.lists r)
                 ++ HierarchicalLayers.partial (HierarchicalLayers.lists r)) →
           HierarchicalLayers.e_llr_count e
           = Some (List.length
                     (children_of
                        (build_trace_graph pipeline_artifacts pipeline_hierarchical_links)
                        (HierarchicalLayers.e_id e))).
Proof.
  apply (hlr_layer_returns pipeline_artifacts pipeline_indexer default_config
           pipeline_keyed pipeline_children None pipeline_hierarchical_links).
  vm_compute. reflexivity.
Defined.

Lemma established_chains_classified_witness :
  ∃ ca report,
    HierarchicalLayers.classify_chains 1000 pipeline_artifacts
      (HierarchicalGraph.base
         (HierarchicalGraph._build_graph pipeline_artifacts pipeline_hierarchical_links))
    = Ok ca
    ∧ HierarchicalLayers._analyze_chains 1000 pipeline_artifacts
        (HierarchicalGraph.base
           (HierarchicalGraph._build_graph pipeline_artifacts pipeline_hierarchical_links))
      = Ok report
    ∧ Forall (chain_of_depth 5 5) (HierarchicalLayers.complete_chains ca)
    ∧ Forall (chain_of_depth 2 4) (HierarchicalLayers.partial_chains ca)
    ∧ Forall (chain_of_depth 1 1) (HierarchicalLayers.broken_chains ca).
Proof.
  apply (established_chains_classified pipeline_artifacts pipeline_indexer default_config
           pipeline_keyed pipeline_children None pipeline_hierarchical_links 1000).
  - vm_compute. reflexivity.
  - lia.
Defined.

End LinksOfASample.
